(** * The plain-provisioner BundleInstance controller

    A shallow embedding of
    [internal/provisioner/plain/controllers/bundleinstance_controller.go]:
    the release-state evaluator, the ownership labeler, the chart
    materializer, the dynamic watch registry and the status reporter,
    together with the properties the specification states about them.

    Collaborators that live outside the controller (the API client, the
    bundle storage, the Helm action client, the YAML serializer, the
    controller's watch facility) appear as records of functions: one pass
    asks each of them for an answer and the model takes whatever answer
    is given.  Every call that has an effect outside the pass is written
    to a trace. *)

From Stdlib Require Import ZArith String Ascii List Lia Bool.
From Stdlib Require Import Strings.Byte.
From stdpp Require Import base gmap strings list.

Local Open Scope string_scope.
Local Open Scope Z_scope.

(* ===================================================================== *)
(** * Definitions                                                          *)
(* ===================================================================== *)

(** ** [crypto/sha256] and the [%x] verb of [fmt]

    [sha256.Sum256] is the digest of FIPS 180-4 on 32-bit words; a word is
    a [Z] reduced modulo [2^32] after every addition. *)

Module sha256.

Definition w32 (x : Z) : Z := x mod 2 ^ 32.
Definition add32 (a b : Z) : Z := w32 (a + b).
Definition not32 (a : Z) : Z := Z.lxor a 4294967295.
Definition rotr (n x : Z) : Z :=
  Z.lor (Z.shiftr x n) (w32 (Z.shiftl x (32 - n))).

Definition Ch (x y z : Z) : Z := Z.lxor (Z.land x y) (Z.land (not32 x) z).
Definition Maj (x y z : Z) : Z :=
  Z.lxor (Z.lxor (Z.land x y) (Z.land x z)) (Z.land y z).
Definition Sigma0 (x : Z) : Z := Z.lxor (Z.lxor (rotr 2 x) (rotr 13 x)) (rotr 22 x).
Definition Sigma1 (x : Z) : Z := Z.lxor (Z.lxor (rotr 6 x) (rotr 11 x)) (rotr 25 x).
Definition sigma0 (x : Z) : Z := Z.lxor (Z.lxor (rotr 7 x) (rotr 18 x)) (Z.shiftr x 3).
Definition sigma1 (x : Z) : Z := Z.lxor (Z.lxor (rotr 17 x) (rotr 19 x)) (Z.shiftr x 10).

(** The constants of the standard are roots of primes: a round constant
    is the first 32 bits of the fractional part of the cube root of one of
    the first 64 primes, an initial word the same of the square root of
    one of the first 8. *)
Definition is_prime (n : Z) : bool :=
  forallb (fun d => negb (n mod Z.of_nat d =? 0)) (seq 2 (Z.to_nat n - 2)).

Definition primes (below : nat) : list Z :=
  filter (fun n => is_prime n = true) (map Z.of_nat (seq 2 (below - 2))).

(** The largest [r] below [2 * bit] with [r ^ k <= n], bit by bit. *)
Fixpoint root_bits (k : Z) (fuel : nat) (bit n acc : Z) : Z :=
  match fuel with
  | O => acc
  | S fuel' =>
      let c := acc + bit in
      root_bits k fuel' (bit / 2) n (if c ^ k <=? n then c else acc)
  end.

Definition fraction_bits (k p : Z) : Z :=
  root_bits k 40 (2 ^ 39) (p * 2 ^ (32 * k)) 0 mod 2 ^ 32.

Definition K : list Z :=
  Eval vm_compute in map (fraction_bits 3) (primes 312).

(** The eight working words. *)
Definition state : Type := (Z * Z * Z * Z * Z * Z * Z * Z)%type.

Definition init : state :=
  Eval vm_compute in
    match map (fraction_bits 2) (primes 20) with
    | [a; b; c; d; e; f; g; h] => (a, b, c, d, e, f, g, h)
    | _ => (0, 0, 0, 0, 0, 0, 0, 0)
    end.

Definition byte_to_Z (b : byte) : Z := Z.of_N (Byte.to_N b).
Definition byte_of_Z (z : Z) : byte :=
  match Byte.of_N (Z.to_N (z mod 256)) with
  | Some b => b
  | None => x00
  end.

(** Padding: the byte 0x80, zero bytes up to 56 modulo 64, and the length
    of the message in bits as a big-endian 64-bit integer. *)
Definition be64 (n : Z) : list Z :=
  map (fun i => Z.shiftr n (8 * i) mod 256) [7; 6; 5; 4; 3; 2; 1; 0].

Definition pad (msg : list byte) : list Z :=
  let l := Z.of_nat (length msg) in
  map byte_to_Z msg ++ [128] ++
  repeat 0 (Z.to_nat ((55 - l) mod 64)) ++ be64 (8 * l).

Fixpoint words (bs : list Z) : list Z :=
  match bs with
  | a :: b :: c :: d :: rest =>
      (Z.shiftl a 24 + Z.shiftl b 16 + Z.shiftl c 8 + d) :: words rest
  | _ => []
  end.

Fixpoint blocks (fuel : nat) (ws : list Z) : list (list Z) :=
  match fuel, ws with
  | S k, _ :: _ => firstn 16 ws :: blocks k (skipn 16 ws)
  | _, _ => []
  end.

(** The message schedule: 48 words appended to the 16 of the block. *)
Fixpoint schedule (n : nat) (w : list Z) : list Z :=
  match n with
  | O => w
  | S k =>
      let i := length w in
      let at_ j := nth (i - j) w 0 in
      schedule k
        (w ++ [add32 (add32 (at_ 16%nat) (sigma0 (at_ 15%nat)))
                     (add32 (at_ 7%nat) (sigma1 (at_ 2%nat)))])
  end.

Definition round (s : state) (kw : Z * Z) : state :=
  let '(a, b, c, d, e, f, g, h) := s in
  let t1 := add32 (add32 (add32 h (Sigma1 e)) (add32 (Ch e f g) (fst kw))) (snd kw) in
  let t2 := add32 (Sigma0 a) (Maj a b c) in
  (add32 t1 t2, a, b, c, add32 d t1, e, f, g).

Definition compress (s : state) (block : list Z) : state :=
  let '(a, b, c, d, e, f, g, h) := s in
  let '(a', b', c', d', e', f', g', h') :=
    fold_left round (combine K (schedule 48 block)) s in
  (add32 a a', add32 b b', add32 c c', add32 d d',
   add32 e e', add32 f f', add32 g g', add32 h h').

Definition word_bytes (x : Z) : list byte :=
  [byte_of_Z (Z.shiftr x 24); byte_of_Z (Z.shiftr x 16);
   byte_of_Z (Z.shiftr x 8); byte_of_Z x].

Definition digest_bytes (s : state) : list byte :=
  let '(a, b, c, d, e, f, g, h) := s in
  word_bytes a ++ word_bytes b ++ word_bytes c ++ word_bytes d ++
  word_bytes e ++ word_bytes f ++ word_bytes g ++ word_bytes h.

Definition Sum256 (data : list byte) : list byte :=
  let ws := words (pad data) in
  digest_bytes (fold_left compress (blocks (length ws) ws) init).

End sha256.

(** [%x] applied to a byte slice: two lower-case hexadecimal digits per
    byte. *)
Module fmt.

Definition hex_digit (n : N) : ascii :=
  match n with
  | 0 => "0" | 1 => "1" | 2 => "2" | 3 => "3" | 4 => "4" | 5 => "5"
  | 6 => "6" | 7 => "7" | 8 => "8" | 9 => "9" | 10 => "a" | 11 => "b"
  | 12 => "c" | 13 => "d" | 14 => "e" | _ => "f"
  end%N%char.

Fixpoint hex (bs : list byte) : string :=
  match bs with
  | [] => EmptyString
  | b :: rest =>
      String (hex_digit (Byte.to_N b / 16))
        (String (hex_digit (Byte.to_N b mod 16)) (hex rest))
  end.

(** Reading a digit back. *)
Definition unhex_digit (a : ascii) : N :=
  match a with
  | "0" => 0 | "1" => 1 | "2" => 2 | "3" => 3 | "4" => 4 | "5" => 5
  | "6" => 6 | "7" => 7 | "8" => 8 | "9" => 9 | "a" => 10 | "b" => 11
  | "c" => 12 | "d" => 13 | "e" => 14 | _ => 15
  end%char%N.

(** [%q] on a string without quotes, backslashes or control characters:
    the string between two double quotes. *)
Definition dquote : ascii := ascii_of_nat 34.
Definition quote (s : string) : string :=
  String dquote (s +:+ String dquote EmptyString).

End fmt.

(** ** Errors

    An error raised by a collaborator is opaque to the controller but for
    its message and the answers to the two questions the controller asks:
    [apierrors.IsNotFound] and [errors.Is (_, driver.ErrReleaseNotFound)]. *)

Record ExtError := {
  ext_message : string;
  ext_is_not_found : bool;
  ext_is_release_not_found : bool;
}.

(** The errors the controller itself handles: a collaborator's error, its
    own [*errBundleNotUnpacked], and what [fmt.Errorf] builds, with a [%w]
    operand ([Wrapf]) or without ([Errorf]). *)
Inductive error : Type :=
| External (e : ExtError)
| errBundleNotUnpacked (currentPhase : string)
| Wrapf (pre : string) (err : error)
| Errorf (msg : string).

Inductive outcome (E A : Type) : Type :=
| Ok (a : A)
| Fail (e : E).
Arguments Ok {E A} a.
Arguments Fail {E A} e.

Module errors.

Fixpoint Error (err : error) : string :=
  match err with
  | External e => ext_message e
  | errBundleNotUnpacked currentPhase =>
      let baseError := "bundle is not yet unpacked" in
      if (currentPhase =? "")%string then baseError
      else baseError +:+ ", current phase=" +:+ currentPhase
  | Wrapf pre err => pre +:+ Error err
  | Errorf msg => msg
  end.

(** [errors.As (err, &bnuErr)] with [bnuErr : *errBundleNotUnpacked]. *)
Fixpoint As_errBundleNotUnpacked (err : error) : option string :=
  match err with
  | errBundleNotUnpacked currentPhase => Some currentPhase
  | Wrapf _ err => As_errBundleNotUnpacked err
  | External _ | Errorf _ => None
  end.

(** [errors.Is (err, driver.ErrReleaseNotFound)]. *)
Fixpoint Is_ErrReleaseNotFound (err : error) : bool :=
  match err with
  | External e => ext_is_release_not_found e
  | Wrapf _ err => Is_ErrReleaseNotFound err
  | errBundleNotUnpacked _ | Errorf _ => false
  end.

End errors.

Module apierrors.

Fixpoint IsNotFound (err : error) : bool :=
  match err with
  | External e => ext_is_not_found e
  | Wrapf _ err => IsNotFound err
  | errBundleNotUnpacked _ | Errorf _ => false
  end.

End apierrors.

(** ** API types *)

Module metav1.

Definition ConditionTrue : string := "True".
Definition ConditionFalse : string := "False".
Definition ConditionUnknown : string := "Unknown".

(** [LastTransitionTime] and [ObservedGeneration] are left out: the
    controller never sets them, and the clock is not modelled. *)
Record Condition := {
  Type_ : string;
  Status : string;
  Reason : string;
  Message : string;
}.

End metav1.

Module meta.
Import metav1.

Fixpoint FindStatusCondition (conditions : list Condition) (conditionType : string)
  : option Condition :=
  match conditions with
  | [] => None
  | c :: rest =>
      if (Type_ c =? conditionType)%string then Some c
      else FindStatusCondition rest conditionType
  end.

(** The first condition of the same type takes the status, reason and
    message of the new one; without one the new condition is appended. *)
Fixpoint SetStatusCondition (conditions : list Condition) (newCondition : Condition)
  : list Condition :=
  match conditions with
  | [] => [newCondition]
  | existingCondition :: rest =>
      if (Type_ existingCondition =? Type_ newCondition)%string then
        {| Type_ := Type_ existingCondition;
           Status := Status newCondition;
           Reason := Reason newCondition;
           Message := Message newCondition |} :: rest
      else existingCondition :: SetStatusCondition rest newCondition
  end.

End meta.

Module schema.

Record GroupVersionKind := {
  Group : string;
  Version : string;
  Kind : string;
}.

#[global] Instance GroupVersionKind_eq_dec : EqDecision GroupVersionKind.
Proof. solve_decision. Defined.

#[global] Instance GroupVersionKind_countable : Countable GroupVersionKind.
Proof.
  refine (inj_countable'
            (fun k => (Group k, Version k, Kind k))
            (fun t => {| Group := t.1.1; Version := t.1.2; Kind := t.2 |}) _).
  intros []; reflexivity.
Defined.

End schema.

(** A manifest object, as far as the controller looks into it: its kind,
    its identity, its labels and the rest of its body. *)
Module unstructured.

Record Unstructured := {
  GroupVersionKind : schema.GroupVersionKind;
  GetNamespace : string;
  GetName : string;
  GetLabels : gmap string string;
  Body : string;
}.

Definition SetLabels (obj : Unstructured) (labels : gmap string string) : Unstructured :=
  {| GroupVersionKind := GroupVersionKind obj;
     GetNamespace := GetNamespace obj;
     GetName := GetName obj;
     GetLabels := labels;
     Body := Body obj |}.

End unstructured.

Module rukpakv1alpha1.

Definition PhasePending : string := "Pending".
Definition PhaseUnpacking : string := "Unpacking".
Definition PhaseFailing : string := "Failing".
Definition PhaseUnpacked : string := "Unpacked".

(** Of a Bundle the controller reads the name and the phase. *)
Record Bundle := {
  Bundle_Name : string;
  Bundle_Status_Phase : string;
  Bundle_Status_Digest : string;
  Bundle_Status_Conditions : list metav1.Condition;
}.

(** Modelled from the spec: the declaration of [BundleInstance] and its
    condition vocabulary ([api/v1alpha1/bundleinstance_types.go]) is not
    under src/.  The fields are those the controller reads and writes;
    the condition types and reasons are the ones of the spec's
    vocabulary table (section 6). *)
Record BundleInstance := {
  Name : string;
  Namespace : string;
  ManagedFields : list string;
  Spec_BundleName : string;
  Status_Conditions : list metav1.Condition;
  Status_InstalledBundleName : string;
}.

Definition TypeHasValidBundle : string := "HasValidBundle".
Definition TypeInvalidBundleContent : string := "InvalidBundleContent".
Definition TypeInstalled : string := "Installed".

Definition ReasonBundleLookupFailed : string := "BundleLookupFailed".
Definition ReasonBundleLoadFailed : string := "BundleLoadFailed".
Definition ReasonReadingContentFailed : string := "ReadingContentFailed".
Definition ReasonErrorGettingClient : string := "ErrorGettingClient".
Definition ReasonErrorGettingReleaseState : string := "ErrorGettingReleaseState".
Definition ReasonInstallFailed : string := "InstallFailed".
Definition ReasonUpgradeFailed : string := "UpgradeFailed".
Definition ReasonReconcileFailed : string := "ReconcileFailed".
Definition ReasonCreateDynamicWatchFailed : string := "CreateDynamicWatchFailed".
Definition ReasonInstallationSucceeded : string := "InstallationSucceeded".

Definition SetNamespace (bi : BundleInstance) (ns : string) : BundleInstance :=
  {| Name := Name bi; Namespace := ns; ManagedFields := ManagedFields bi;
     Spec_BundleName := Spec_BundleName bi;
     Status_Conditions := Status_Conditions bi;
     Status_InstalledBundleName := Status_InstalledBundleName bi |}.

Definition SetManagedFields (bi : BundleInstance) (mf : list string) : BundleInstance :=
  {| Name := Name bi; Namespace := Namespace bi; ManagedFields := mf;
     Spec_BundleName := Spec_BundleName bi;
     Status_Conditions := Status_Conditions bi;
     Status_InstalledBundleName := Status_InstalledBundleName bi |}.

Definition SetConditions (bi : BundleInstance) (cs : list metav1.Condition)
  : BundleInstance :=
  {| Name := Name bi; Namespace := Namespace bi; ManagedFields := ManagedFields bi;
     Spec_BundleName := Spec_BundleName bi;
     Status_Conditions := cs;
     Status_InstalledBundleName := Status_InstalledBundleName bi |}.

Definition SetInstalledBundleName (bi : BundleInstance) (n : string) : BundleInstance :=
  {| Name := Name bi; Namespace := Namespace bi; ManagedFields := ManagedFields bi;
     Spec_BundleName := Spec_BundleName bi;
     Status_Conditions := Status_Conditions bi;
     Status_InstalledBundleName := n |}.

End rukpakv1alpha1.

Module chart.

Record File := {
  Name : string;
  Data : list byte;
}.

(** [Metadata] is the empty [&chart.Metadata{}] throughout. *)
Record Chart := {
  Templates : list File;
}.

End chart.

Module release.

Definition StatusDeployed : string := "deployed".
Definition StatusSuperseded : string := "superseded".
Definition StatusFailed : string := "failed".

Record Release := {
  Name : string;
  Manifest : string;
  Info_Status : string;
}.

End release.

Module types.

Record NamespacedName := {
  Namespace : string;
  Name : string;
}.

End types.

Module ctrl.

Record Result := {
  Requeue : bool;
  RequeueAfter : Z;
}.

(** [ctrl.Result{}] *)
Definition Result0 : Result := {| Requeue := false; RequeueAfter := 0 |}.

End ctrl.

Module util.

(** Modelled from the spec: [util.MergeMaps] ([internal/util]) is not
    under src/.  Section 4.2 has the labeler merge the two owner labels
    into the labels of the object "without removing any pre-existing
    labels", and invariant (2) of section 3 has every object carry the
    owner labels: the result holds every key of every map, and a key
    that occurs more than once takes the value of the last map that has
    it. *)
Definition MergeMaps (maps : list (gmap string string)) : gmap string string :=
  foldl (fun out m => m ∪ out) ∅ maps.

End util.

(** ** Collaborators *)

(** [helmclient.ActionInterface].  [Install] carries the value its option
    function gives [CreateNamespace], [Upgrade] the one of [DryRun]. *)
Module helmclient.

Record ActionInterface := {
  Get : string -> outcome ExtError release.Release;
  Install : string -> string -> chart.Chart -> bool -> outcome ExtError release.Release;
  Upgrade : string -> string -> chart.Chart -> bool -> outcome ExtError release.Release;
  Reconcile : option release.Release -> option ExtError;
}.

End helmclient.

(** The two places that read the Bundle.  The cluster can change between
    the two reads, so each has an answer of its own. *)
Inductive read : Type := InReconcile | InLoadBundle.

Record Env := {
  (** [client.Client] *)
  Client_GetBundleInstance : types.NamespacedName -> outcome ExtError rukpakv1alpha1.BundleInstance;
  Client_GetBundle : read -> string -> outcome ExtError rukpakv1alpha1.Bundle;
  Client_StatusPatch : rukpakv1alpha1.BundleInstance -> option ExtError;
  (** [storage.Storage] *)
  BundleStorage_Load : rukpakv1alpha1.Bundle -> outcome ExtError (list unstructured.Unstructured);
  (** [helmclient.ActionClientGetter] *)
  ActionClientFor : rukpakv1alpha1.BundleInstance -> outcome ExtError helmclient.ActionInterface;
  (** [controller.Controller]: the object whose kind is to be watched and
      the owner type of the handler *)
  Controller_Watch : unstructured.Unstructured -> rukpakv1alpha1.BundleInstance -> option ExtError;
  (** [yaml.Marshal] and [runtime.DefaultUnstructuredConverter] *)
  yaml_Marshal : unstructured.Unstructured -> outcome ExtError (list byte);
  ToUnstructured : unstructured.Unstructured -> outcome ExtError unstructured.Unstructured;
}.

Module client.

Definition IgnoreNotFound (err : error) : option error :=
  if apierrors.IsNotFound err then None else Some err.

End client.

(** ** The controller *)

Module controllers.
Import metav1 rukpakv1alpha1.

Definition plainBundleProvisionerID : string := "core.rukpak.io/plain".

(** What a pass does to the world around it, in the order it does it. *)
Inductive event : Type :=
| LogInfo (msg : string)
| LogError (err : ExtError) (msg : string)
| CallInstall (name ns : string) (chrt : chart.Chart) (createNamespace : bool)
    (res : outcome ExtError release.Release)
| CallUpgrade (name ns : string) (chrt : chart.Chart)
    (res : outcome ExtError release.Release)
| CallReconcile (rel : option release.Release) (res : option ExtError)
| CallWatch (gvk : schema.GroupVersionKind) (owner : string) (res : option ExtError)
| CallStatusPatch (bi : BundleInstance) (fieldOwner : string) (res : option ExtError).

(** The fields of the reconciler that are not collaborators. *)
Record BundleInstanceReconciler := {
  ReleaseNamespace : string;
  dynamicWatchGVKs : gset schema.GroupVersionKind;
}.

Inductive releaseState : Type :=
| stateNeedsInstall
| stateNeedsUpgrade
| stateUnchanged
| stateError.

Definition releaseState_string (s : releaseState) : string :=
  match s with
  | stateNeedsInstall => "NeedsInstall"
  | stateNeedsUpgrade => "NeedsUpgrade"
  | stateUnchanged => "Unchanged"
  | stateError => "Error"
  end.

(** The dry-run upgrade persists nothing and is not written to the
    trace. *)
Definition getReleaseState (r : BundleInstanceReconciler)
    (cl : helmclient.ActionInterface) (obj : BundleInstance) (chrt : chart.Chart)
  : option release.Release * releaseState * option error :=
  match helmclient.Get cl (Name obj) with
  | Fail err =>
      if negb (errors.Is_ErrReleaseNotFound (External err))
      then (None, stateError, Some (External err))
      else (None, stateNeedsInstall, None)
  | Ok currentRelease =>
      match helmclient.Upgrade cl (Name obj) (ReleaseNamespace r) chrt true with
      | Fail err => (Some currentRelease, stateError, Some (External err))
      | Ok desiredRelease =>
          if negb (release.Manifest desiredRelease =? release.Manifest currentRelease)%string
             || (release.Info_Status currentRelease =? release.StatusFailed)%string
             || (release.Info_Status currentRelease =? release.StatusSuperseded)%string
          then (Some currentRelease, stateNeedsUpgrade, None)
          else (Some currentRelease, stateUnchanged, None)
      end
  end.

(** *** [loadBundle] *)

Definition ownerLabels (bi : BundleInstance) : gmap string string :=
  {[ "core.rukpak.io/owner-kind" := "BundleInstance";
     "core.rukpak.io/owner-name" := Name bi ]}.

Definition withOwnerLabels (bi : BundleInstance) (obj : unstructured.Unstructured)
  : unstructured.Unstructured :=
  unstructured.SetLabels obj
    (util.MergeMaps [unstructured.GetLabels obj; ownerLabels bi]).

Fixpoint labelObjects (bi : BundleInstance)
    (objects objs : list unstructured.Unstructured) : list unstructured.Unstructured :=
  match objects with
  | [] => objs
  | obj :: rest =>
      let obj := withOwnerLabels bi obj in
      labelObjects bi rest (objs ++ [obj])
  end.

Definition loadBundle (E : Env) (bi : BundleInstance)
  : outcome error (list unstructured.Unstructured) :=
  match Client_GetBundle E InLoadBundle (Spec_BundleName bi) with
  | Fail err =>
      Fail (Wrapf ("get bundle " +:+ fmt.quote (Spec_BundleName bi) +:+ ": ")
                  (External err))
  | Ok b =>
      if negb (Bundle_Status_Phase b =? PhaseUnpacked)%string
      then Fail (errBundleNotUnpacked (Bundle_Status_Phase b))
      else
        match BundleStorage_Load E b with
        | Fail err => Fail (Wrapf "load bundle objects: " (External err))
        | Ok objects => Ok (labelObjects bi objects [])
        end
  end.

(** *** The state of a pass

    A pass works on its copy of the BundleInstance, on the watch registry
    of the reconciler and on the trace.  A step either goes on with a
    value or leaves [Reconcile] with a result and an error. *)

Record pass := {
  bi : BundleInstance;
  watched : gset schema.GroupVersionKind;
  trace : list event;
}.

Inductive flow (A : Type) : Type :=
| Next (a : A)
| Return (res : ctrl.Result) (err : option error).
Arguments Next {A} a.
Arguments Return {A} res err.

Definition M (A : Type) : Type := pass -> flow A * pass.

#[global] Instance M_ret : MRet M := fun A a st => (Next a, st).
#[global] Instance M_bind : MBind M := fun A B k m st =>
  match m st with
  | (Next a, st') => k a st'
  | (Return res err, st') => (Return res err, st')
  end.

Definition return_ {A : Type} (res : ctrl.Result) (err : option error) : M A :=
  fun st => (Return res err, st).

Definition get_bi : M BundleInstance := fun st => (Next (bi st), st).

Definition modify_bi (f : BundleInstance -> BundleInstance) : M unit :=
  fun st => (Next tt, {| bi := f (bi st); watched := watched st; trace := trace st |}).

Definition emit (ev : event) : M unit :=
  fun st => (Next tt, {| bi := bi st; watched := watched st; trace := trace st ++ [ev] |}).

(** [meta.SetStatusCondition (&bi.Status.Conditions, c)] *)
Definition setStatusCondition (c : Condition) : M unit :=
  modify_bi (fun bi => SetConditions bi (meta.SetStatusCondition (Status_Conditions bi) c)).

(** *** The chart materializer (lines 143 to 162) *)

Definition templateName (jsonData : list byte) : string :=
  let hash := sha256.Sum256 jsonData in
  "object-" +:+ fmt.hex (take 8 hash) +:+ ".yaml".

Definition materialize (E : Env)
  : list unstructured.Unstructured -> chart.Chart -> M chart.Chart :=
  fix materialize (desiredObjects : list unstructured.Unstructured)
      (chrt : chart.Chart) : M chart.Chart :=
  match desiredObjects with
  | [] => mret chrt
  | obj :: rest =>
      match yaml_Marshal E obj with
      | Fail err =>
          setStatusCondition
            {| Type_ := TypeInvalidBundleContent;
               Status := ConditionTrue;
               Reason := ReasonReadingContentFailed;
               Message := errors.Error (External err) |};;
          return_ ctrl.Result0 (Some (External err))
      | Ok jsonData =>
          materialize rest
            {| chart.Templates :=
                 chart.Templates chrt ++
                 [ {| chart.Name := templateName jsonData; chart.Data := jsonData |} ] |}
      end
  end.

(** What the loop makes of one object: a template that holds the
    serialized object and is named after the digest of those bytes. *)
Definition templateOf (E : Env) (obj : unstructured.Unstructured) (f : chart.File) : Prop :=
  yaml_Marshal E obj = Ok (chart.Data f) /\
  chart.Name f =
    "object-" +:+ fmt.hex (take 8 (sha256.Sum256 (chart.Data f))) +:+ ".yaml".

(** *** The dynamic watch registry (lines 228 to 265)

    [ensureWatched] is the function literal of lines 241 to 256, which
    runs between [dynamicWatchMutex.Lock] and its deferred [Unlock]. *)

Definition ensureWatched (E : Env) (owner : BundleInstance)
    (u : unstructured.Unstructured) : M (option ExtError) :=
  fun st =>
    let gvk := unstructured.GroupVersionKind u in
    if bool_decide (gvk ∈ watched st) then (Next None, st)
    else
      match Controller_Watch E u owner with
      | Some err =>
          (Next (Some err),
           {| bi := bi st; watched := watched st;
              trace := trace st ++ [CallWatch gvk (Name owner) (Some err)] |})
      | None =>
          (Next None,
           {| bi := bi st; watched := {[ gvk ]} ∪ watched st;
              trace := trace st ++ [CallWatch gvk (Name owner) None] |})
      end.

Definition watchFailed (err : ExtError) : M unit :=
  setStatusCondition
    {| Type_ := TypeInstalled;
       Status := ConditionFalse;
       Reason := ReasonCreateDynamicWatchFailed;
       Message := errors.Error (External err) |};;
  return_ ctrl.Result0 (Some (External err)).

Definition watchObjects (E : Env) : list unstructured.Unstructured -> M unit :=
  fix watchObjects (desiredObjects : list unstructured.Unstructured) : M unit :=
  match desiredObjects with
  | [] => mret tt
  | obj :: rest =>
      match ToUnstructured E obj with
      | Fail err => watchFailed err
      | Ok u =>
          owner ← get_bi;
          res ← ensureWatched E owner u;
          match res with
          | Some err => watchFailed err
          | None => watchObjects rest
          end
      end
  end.

(** *** The release applier (lines 188 to 226) *)

Definition applyFailed (reason : string) (err : ExtError) : M unit :=
  setStatusCondition
    {| Type_ := TypeInstalled;
       Status := ConditionFalse;
       Reason := reason;
       Message := errors.Error (External err) |};;
  return_ ctrl.Result0 (Some (External err)).

Definition applyRelease (r : BundleInstanceReconciler) (cl : helmclient.ActionInterface)
    (chrt : chart.Chart) (rel : option release.Release) (state : releaseState)
  : M unit :=
  b ← get_bi;
  match state with
  | stateNeedsInstall =>
      let res := helmclient.Install cl (Name b) (ReleaseNamespace r) chrt false in
      emit (CallInstall (Name b) (ReleaseNamespace r) chrt false res);;
      match res with
      | Fail err => applyFailed ReasonInstallFailed err
      | Ok _ => mret tt
      end
  | stateNeedsUpgrade =>
      let res := helmclient.Upgrade cl (Name b) (ReleaseNamespace r) chrt false in
      emit (CallUpgrade (Name b) (ReleaseNamespace r) chrt res);;
      match res with
      | Fail err => applyFailed ReasonUpgradeFailed err
      | Ok _ => mret tt
      end
  | stateUnchanged =>
      let res := helmclient.Reconcile cl rel in
      emit (CallReconcile rel res);;
      match res with
      | Some err => applyFailed ReasonReconcileFailed err
      | None => mret tt
      end
  | stateError =>
      return_ ctrl.Result0
        (Some (Errorf ("unexpected release state " +:+
                       fmt.quote (releaseState_string state))))
  end.

(** The steps after the release state is known (lines 188 to 272). *)
Definition applyAndWatch (E : Env) (r : BundleInstanceReconciler)
    (cl : helmclient.ActionInterface) (chrt : chart.Chart)
    (rel : option release.Release) (state : releaseState)
    (desiredObjects : list unstructured.Unstructured)
  : M (ctrl.Result * option error) :=
  applyRelease r cl chrt rel state;;
  watchObjects E desiredObjects;;
  setStatusCondition
    {| Type_ := TypeInstalled;
       Status := ConditionTrue;
       Reason := ReasonInstallationSucceeded;
       Message := "" |};;
  modify_bi (fun bi => SetInstalledBundleName bi (Spec_BundleName bi));;
  mret (ctrl.Result0, None).

(** *** [Reconcile], from the second [Get] to the last [return]
    (lines 104 to 272) *)

Definition reconcileBundleInstance (E : Env) (r : BundleInstanceReconciler)
  : M (ctrl.Result * option error) :=
  bi0 ← get_bi;
  b ← match Client_GetBundle E InReconcile (Spec_BundleName bi0) with
      | Fail err =>
          let bundleStatus :=
            if apierrors.IsNotFound (External err)
            then ConditionFalse else ConditionUnknown in
          setStatusCondition
            {| Type_ := TypeHasValidBundle;
               Status := bundleStatus;
               Reason := ReasonBundleLookupFailed;
               Message := errors.Error (External err) |};;
          return_ ctrl.Result0 (client.IgnoreNotFound (External err))
      | Ok b => mret b
      end;
  desiredObjects ←
    match loadBundle E bi0 with
    | Fail err =>
        match errors.As_errBundleNotUnpacked err with
        | Some _ =>
            let reason :=
              if (Bundle_Status_Phase b =? PhaseUnpacking)%string
              then "BundleUnpackRunning"
              else "BundleUnpack" +:+ Bundle_Status_Phase b in
            setStatusCondition
              {| Type_ := TypeInstalled;
                 Status := ConditionFalse;
                 Reason := reason;
                 Message := "" |};;
            return_ ctrl.Result0 None
        | None =>
            setStatusCondition
              {| Type_ := TypeHasValidBundle;
                 Status := ConditionFalse;
                 Reason := ReasonBundleLoadFailed;
                 Message := errors.Error err |};;
            return_ ctrl.Result0 (Some err)
        end
    | Ok objs => mret objs
    end;
  chrt ← materialize E desiredObjects {| chart.Templates := [] |};
  modify_bi (fun bi => SetNamespace bi (ReleaseNamespace r));;
  bi1 ← get_bi;
  let got := ActionClientFor E bi1 in
  modify_bi (fun bi => SetNamespace bi "");;
  cl ← match got with
       | Fail err =>
           setStatusCondition
             {| Type_ := TypeInstalled;
                Status := ConditionFalse;
                Reason := ReasonErrorGettingClient;
                Message := errors.Error (External err) |};;
           return_ ctrl.Result0 (Some (External err))
       | Ok cl => mret cl
       end;
  bi2 ← get_bi;
  let '(rel, state, err) := getReleaseState r cl bi2 chrt in
  match err with
  | Some err =>
      setStatusCondition
        {| Type_ := TypeInstalled;
           Status := ConditionFalse;
           Reason := ReasonErrorGettingReleaseState;
           Message := errors.Error err |};;
      return_ ctrl.Result0 (Some err)
  | None => mret tt
  end;;
  applyAndWatch E r cl chrt rel state desiredObjects.

Definition run (m : M (ctrl.Result * option error)) (st : pass)
  : (ctrl.Result * option error) * pass :=
  match m st with
  | (Next v, st') => (v, st')
  | (Return res err, st') => ((res, err), st')
  end.

(** The deferred function of lines 96 to 102: a copy of the
    BundleInstance without its managed fields is patched, and a failure
    of the patch is logged. *)
Definition patchStatus (E : Env) (b : BundleInstance) : list event :=
  let b := SetManagedFields b [] in
  let res := Client_StatusPatch E b in
  CallStatusPatch b plainBundleProvisionerID res ::
  match res with
  | Some err => [LogError err "failed to patch status"]
  | None => []
  end.

(** *** [Reconcile]

    The pass starts from the reconciler and the trace so far, and gives
    the returned pair, the reconciler and the trace after it. *)
Definition Reconcile (E : Env) (r : BundleInstanceReconciler)
    (req : types.NamespacedName) (tr : list event)
  : (ctrl.Result * option error) * BundleInstanceReconciler * list event :=
  let tr := (tr ++ [LogInfo "starting reconciliation"])%list in
  match Client_GetBundleInstance E req with
  | Fail err =>
      ((ctrl.Result0, client.IgnoreNotFound (External err)), r,
       (tr ++ [LogInfo "ending reconciliation"])%list)
  | Ok b =>
      let '(ret, st) :=
        run (reconcileBundleInstance E r)
            {| bi := b; watched := dynamicWatchGVKs r; trace := tr |} in
      (ret,
       {| ReleaseNamespace := ReleaseNamespace r; dynamicWatchGVKs := watched st |},
       (trace st ++ patchStatus E (bi st) ++ [LogInfo "ending reconciliation"])%list)
  end.

(** The state in which a pass that has fetched [b0] comes to line 104. *)
Definition entry (r : BundleInstanceReconciler) (tr : list event) (b0 : BundleInstance)
  : pass :=
  {| bi := b0; watched := dynamicWatchGVKs r;
     trace := tr ++ [LogInfo "starting reconciliation"] |}.

(** [SetupWithManager] starts the registry empty. *)
Definition SetupWithManager (ns : string) : BundleInstanceReconciler :=
  {| ReleaseNamespace := ns; dynamicWatchGVKs := ∅ |}.

End controllers.

(** ** Passes one after the other, and what their traces show *)

Module lifetime.
Import controllers.

(** The subscriptions for kind [K] that a trace shows established:
    the calls of [Controller.Watch] for [K] that returned no error. *)
Definition isEstablished (K : schema.GroupVersionKind) (ev : event) : bool :=
  match ev with
  | CallWatch gvk _ None => bool_decide (gvk = K)
  | _ => false
  end.

Definition established (K : schema.GroupVersionKind) (tr : list event) : nat :=
  length (filter (fun ev => isEstablished K ev = true) tr).

Definition isStatusPatch (ev : event) : bool :=
  match ev with
  | CallStatusPatch _ _ _ => true
  | _ => false
  end.

Definition statusPatches (tr : list event) : list event :=
  filter (fun ev => isStatusPatch ev = true) tr.

(** The registry and the trace agree: a kind is in the registry exactly
    when the trace shows one subscription for it, and no kind has more. *)
Definition agrees (w : gset schema.GroupVersionKind) (tr : list event) : Prop :=
  forall K, established K tr = if bool_decide (K ∈ w) then 1%nat else 0%nat.

(** Calls of the release backend that change the cluster, and whether
    they went well. *)
Definition applied (ev : event) : bool :=
  match ev with
  | CallInstall _ _ _ _ (Ok _) | CallUpgrade _ _ _ (Ok _) | CallReconcile _ None => true
  | _ => false
  end.

(** The events of the release applier; those that carry a chart carry
    [chrt]. *)
Definition appliesChart (chrt : chart.Chart) (ev : event) : Prop :=
  match ev with
  | CallInstall _ _ c _ _ | CallUpgrade _ _ c _ => c = chrt
  | CallReconcile _ _ => True
  | _ => False
  end.

Definition isWatch (ev : event) : Prop :=
  match ev with
  | CallWatch _ _ _ => True
  | _ => False
  end.

(** What a pass never touches of its BundleInstance before it succeeds. *)
Definition keeps (b b' : rukpakv1alpha1.BundleInstance) : Prop :=
  rukpakv1alpha1.Name b' = rukpakv1alpha1.Name b /\
  rukpakv1alpha1.ManagedFields b' = rukpakv1alpha1.ManagedFields b /\
  rukpakv1alpha1.Spec_BundleName b' = rukpakv1alpha1.Spec_BundleName b /\
  rukpakv1alpha1.Status_InstalledBundleName b' =
    rukpakv1alpha1.Status_InstalledBundleName b.

Definition carriesOwnerLabels (bi : rukpakv1alpha1.BundleInstance)
    (obj : unstructured.Unstructured) : Prop :=
  unstructured.GetLabels obj !! "core.rukpak.io/owner-kind" = Some "BundleInstance" /\
  unstructured.GetLabels obj !! "core.rukpak.io/owner-name" = Some (rukpakv1alpha1.Name bi).

Definition isWatchFailure (ev : event) : bool :=
  match ev with
  | CallWatch _ _ (Some _) => true
  | _ => false
  end.

(** The conditions of a failed subscription and of a pass that went
    through. *)
Definition createDynamicWatchFailed (e : ExtError) : metav1.Condition :=
  {| metav1.Type_ := rukpakv1alpha1.TypeInstalled;
     metav1.Status := metav1.ConditionFalse;
     metav1.Reason := rukpakv1alpha1.ReasonCreateDynamicWatchFailed;
     metav1.Message := ext_message e |}.

Definition installedSucceeded : metav1.Condition :=
  {| metav1.Type_ := rukpakv1alpha1.TypeInstalled;
     metav1.Status := metav1.ConditionTrue;
     metav1.Reason := rukpakv1alpha1.ReasonInstallationSucceeded;
     metav1.Message := "" |}.

(** Every object converts and its kind is in the registry [w]. *)
Definition watchedAll (E : Env) (objs : list unstructured.Unstructured)
    (w : gset schema.GroupVersionKind) : Prop :=
  Forall (fun obj => exists u, ToUnstructured E obj = Ok u /\
                               unstructured.GroupVersionKind u ∈ w) objs.

(** What a pass from the release applier on has done when it is over:
    [evs] are the events it added, [err] is the error it returned. *)
Record outcomeOf (E : Env) (chrt : chart.Chart) (objs : list unstructured.Unstructured)
    (st st' : pass) (err : option error) (evs : list event) : Prop := {
  oc_trace : trace st' = (trace st ++ evs)%list;
  oc_watched : watched st ⊆ watched st';
  oc_events : Forall (fun ev => appliesChart chrt ev \/ isWatch ev) evs;
  oc_agrees : agrees (watched st) (trace st) -> agrees (watched st') (trace st');
  oc_watch_failure :
    forall g o e, CallWatch g o (Some e) ∈ evs ->
      err = Some (External e) /\ (g ∉ watched st') /\
      meta.FindStatusCondition (rukpakv1alpha1.Status_Conditions (bi st'))
        rukpakv1alpha1.TypeInstalled = Some (createDynamicWatchFailed e);
  oc_end :
    (err <> None /\ keeps (bi st) (bi st')) \/
    (err = None /\
     bi st' =
       rukpakv1alpha1.SetInstalledBundleName
         (rukpakv1alpha1.SetConditions (bi st)
            (meta.SetStatusCondition (rukpakv1alpha1.Status_Conditions (bi st))
               installedSucceeded))
         (rukpakv1alpha1.Spec_BundleName (bi st)) /\
     (exists ev wevs,
         evs = ev :: wevs /\ applied ev = true /\
         Forall isWatch wevs /\ Forall (fun ev => isWatchFailure ev = false) wevs) /\
     watchedAll E objs (watched st'));
}.

(** The chart of a call of Install or Upgrade. *)
Definition eventChart (ev : event) : option chart.Chart :=
  match ev with
  | CallInstall _ _ chrt _ _ | CallUpgrade _ _ chrt _ => Some chrt
  | _ => None
  end.

(** A stretch of a pass that leaves the trace and the registry alone. *)
Definition quiet (st st' : pass) : Prop :=
  trace st' = trace st /\ watched st' = watched st /\ keeps (bi st) (bi st').

(** The same world with another answer to the status patch. *)
Definition withStatusPatch (E : Env)
    (patch : rukpakv1alpha1.BundleInstance -> option ExtError) : Env :=
  {| Client_GetBundleInstance := Client_GetBundleInstance E;
     Client_GetBundle := Client_GetBundle E;
     Client_StatusPatch := patch;
     BundleStorage_Load := BundleStorage_Load E;
     ActionClientFor := ActionClientFor E;
     Controller_Watch := Controller_Watch E;
     yaml_Marshal := yaml_Marshal E;
     ToUnstructured := ToUnstructured E |}.

(** A life of the controller process: [SetupWithManager], then passes,
    each against the world as it is when the pass runs. *)
Fixpoint runPasses (passes : list (Env * types.NamespacedName))
    (r : BundleInstanceReconciler) (tr : list event)
  : BundleInstanceReconciler * list event :=
  match passes with
  | [] => (r, tr)
  | (E, req) :: rest =>
      let '(_, r', tr') := Reconcile E r req tr in
      runPasses rest r' tr'
  end.

End lifetime.

(** ** Passes at the same time

    The only state that passes share is the watch registry, and they touch
    it in the function literal of lines 241 to 256.  Here each pass is a
    thread at one of the statements of that literal, and a step of the
    system is a step of one thread; [dynamicWatchMutex.Lock] can only be
    taken while no thread holds the lock. *)

Module dynamicWatch.
Import controllers.

Inductive pc : Type :=
| AtLock                           (* line 242, before r.dynamicWatchMutex.Lock() *)
| AtCheck                          (* line 245, the lock is held *)
| AtWatch                          (* line 247, before r.Controller.Watch *)
| AtInsert                         (* line 253, Watch returned nil *)
| AtUnlock (res : option ExtError) (* the deferred Unlock, before the return *)
| Done (res : option ExtError).    (* the literal has returned *)

Record thread := {
  th_gvk : schema.GroupVersionKind;
  th_owner : string;
  th_pc : pc;
}.

Record shared := {
  locked : bool;
  gvks : gset schema.GroupVersionKind;
  calls : list event;
}.

Definition at_ (t : thread) (p : pc) : thread :=
  {| th_gvk := th_gvk t; th_owner := th_owner t; th_pc := p |}.

(** One statement of one thread; [answer] is what [Controller.Watch]
    says if this is the statement that calls it.  [None]: the thread
    cannot move (the lock is taken, or the thread has returned). *)
Definition thread_step (answer : option ExtError) (sh : shared) (t : thread)
  : option (shared * thread) :=
  match th_pc t with
  | AtLock =>
      if locked sh then None
      else Some ({| locked := true; gvks := gvks sh; calls := calls sh |}, at_ t AtCheck)
  | AtCheck =>
      if bool_decide (th_gvk t ∈ gvks sh)
      then Some (sh, at_ t (AtUnlock None))
      else Some (sh, at_ t AtWatch)
  | AtWatch =>
      let sh' := {| locked := locked sh; gvks := gvks sh;
                    calls := calls sh ++ [CallWatch (th_gvk t) (th_owner t) answer] |} in
      match answer with
      | Some err => Some (sh', at_ t (AtUnlock (Some err)))
      | None => Some (sh', at_ t AtInsert)
      end
  | AtInsert =>
      Some ({| locked := locked sh; gvks := {[ th_gvk t ]} ∪ gvks sh; calls := calls sh |},
            at_ t (AtUnlock None))
  | AtUnlock res =>
      Some ({| locked := false; gvks := gvks sh; calls := calls sh |}, at_ t (Done res))
  | Done _ => None
  end.

Definition system : Type := (shared * list thread)%type.

Inductive step : system -> system -> Prop :=
| step_thread (i : nat) (answer : option ExtError) (sh sh' : shared)
    (ts : list thread) (t t' : thread) :
    ts !! i = Some t ->
    thread_step answer sh t = Some (sh', t') ->
    step (sh, ts) (sh', <[i := t']> ts).

(** [N] passes that all come to an object of kind [K] at once. *)
Definition start (K : schema.GroupVersionKind) (owners : list string) : list thread :=
  map (fun o => {| th_gvk := K; th_owner := o; th_pc := AtLock |}) owners.

Definition returned (t : thread) : option (option ExtError) :=
  match th_pc t with
  | Done res => Some res
  | _ => None
  end.

Definition watchFailures (tr : list event) : list event :=
  filter (fun ev => lifetime.isWatchFailure ev = true) tr.

(** The threads between [Lock] and [Unlock], and those about to insert
    kind [K]. *)
Definition inCS (t : thread) : bool :=
  match th_pc t with
  | AtCheck | AtWatch | AtInsert | AtUnlock _ => true
  | AtLock | Done _ => false
  end.

Definition inserting (K : schema.GroupVersionKind) (t : thread) : bool :=
  match th_pc t with
  | AtInsert => bool_decide (th_gvk t = K)
  | _ => false
  end.

Fixpoint count (f : thread -> bool) (ts : list thread) : nat :=
  match ts with
  | [] => 0
  | t :: rest => ((if f t then 1 else 0) + count f rest)%nat
  end.

Definition finished (ts : list thread) : Prop :=
  Forall (fun t => exists res, th_pc t = Done res) ts.

(** What holds in every state the threads can reach; [n0] is the number of
    failed calls of [Controller.Watch] before the threads started. *)
Record invariant (n0 : nat) (s : system) : Prop := {
  inv_lock :
    count inCS s.2 = if locked s.1 then 1%nat else 0%nat;
  inv_agrees :
    forall K, lifetime.established K (calls s.1) =
              ((if bool_decide (K ∈ gvks s.1) then 1 else 0) + count (inserting K) s.2)%nat;
  inv_unwatched :
    forall i t, s.2 !! i = Some t ->
                th_pc t = AtWatch \/ th_pc t = AtInsert -> th_gvk t ∉ gvks s.1;
  inv_proceeds :
    forall i t, s.2 !! i = Some t ->
                th_pc t = AtUnlock None \/ th_pc t = Done None -> th_gvk t ∈ gvks s.1;
  inv_failed :
    forall i t e, s.2 !! i = Some t ->
                  th_pc t = AtUnlock (Some e) \/ th_pc t = Done (Some e) ->
                  (n0 < length (watchFailures (calls s.1)))%nat;
  inv_failures : (n0 <= length (watchFailures (calls s.1)))%nat;
}.

(** A thread on its own, statement after statement. *)
Fixpoint alone (fuel : nat) (answer : option ExtError) (sh : shared) (t : thread)
  : shared * thread :=
  match fuel with
  | O => (sh, t)
  | S k =>
      match thread_step answer sh t with
      | Some (sh', t') => alone k answer sh' t'
      | None => (sh, t)
      end
  end.

(** The statements a thread has still to run, at most. *)
Definition todo (t : thread) : nat :=
  match th_pc t with
  | AtLock => 5
  | AtCheck => 4
  | AtWatch => 3
  | AtInsert => 2
  | AtUnlock _ => 1
  | Done _ => 0
  end.

Fixpoint remaining (ts : list thread) : nat :=
  match ts with
  | [] => 0
  | t :: rest => (todo t + remaining rest)%nat
  end.

End dynamicWatch.

(** ** The ways out of a pass

    [Reconcile] has nine returns after the one of line 94.  Each is given
    here with what decides it, the pair it returns and the state it leaves
    behind. *)

Module exits.
Import controllers rukpakv1alpha1 metav1.

(** The call the release applier makes for a release state: the event of
    the call and, when the call fails, the reason of the condition and the
    error (lines 188 to 226; nothing for the state of the [default] case). *)
Definition applyCall (r : BundleInstanceReconciler) (cl : helmclient.ActionInterface)
    (name : string) (chrt : chart.Chart) (rel : option release.Release)
    (state : releaseState) : option (event * option (string * ExtError)) :=
  match state with
  | stateNeedsInstall =>
      let res := helmclient.Install cl name (ReleaseNamespace r) chrt false in
      Some (CallInstall name (ReleaseNamespace r) chrt false res,
            match res with
            | Fail err => Some (ReasonInstallFailed, err)
            | Ok _ => None
            end)
  | stateNeedsUpgrade =>
      let res := helmclient.Upgrade cl name (ReleaseNamespace r) chrt false in
      Some (CallUpgrade name (ReleaseNamespace r) chrt res,
            match res with
            | Fail err => Some (ReasonUpgradeFailed, err)
            | Ok _ => None
            end)
  | stateUnchanged =>
      let res := helmclient.Reconcile cl rel in
      Some (CallReconcile rel res,
            match res with
            | Some err => Some (ReasonReconcileFailed, err)
            | None => None
            end)
  | stateError => None
  end.

(** [meta.SetStatusCondition (&bi.Status.Conditions, c)] on a
    BundleInstance. *)
Definition withCondition (b : BundleInstance) (c : Condition) : BundleInstance :=
  SetConditions b (meta.SetStatusCondition (Status_Conditions b) c).

Definition failed (type reason : string) (msg : string) : Condition :=
  {| Type_ := type; Status := ConditionFalse; Reason := reason; Message := msg |}.

(** The calls of the switch of lines 188 to 226.  The lookup and the dry
    run of [getReleaseState] (lines 285 and 292) are reads: the trace does
    not record them. *)
Definition isBackendCall (ev : event) : bool :=
  match ev with
  | CallInstall _ _ _ _ _ | CallUpgrade _ _ _ _ | CallReconcile _ _ => true
  | _ => false
  end.

Definition backendCalls (tr : list event) : list event :=
  filter (fun ev => isBackendCall ev = true) tr.

(** The reason and the error of a call of the release backend that
    failed (lines 190 to 226). *)
Definition callFailure (ev : event) : option (string * ExtError) :=
  match ev with
  | CallInstall _ _ _ _ (Fail err) => Some (ReasonInstallFailed, err)
  | CallUpgrade _ _ _ (Fail err) => Some (ReasonUpgradeFailed, err)
  | CallReconcile _ (Some err) => Some (ReasonReconcileFailed, err)
  | _ => None
  end.

Definition isWatchCall (ev : event) : bool :=
  match ev with
  | CallWatch _ _ _ => true
  | _ => false
  end.

Definition watchCalls (tr : list event) : list event :=
  filter (fun ev => isWatchCall ev = true) tr.

Inductive passExit (E : Env) (r : BundleInstanceReconciler) (st : pass)
  : option error -> pass -> Prop :=
| exit_lookup_failed (err : ExtError) :
    Client_GetBundle E InReconcile (Spec_BundleName (bi st)) = Fail err ->
    passExit E r st (client.IgnoreNotFound (External err))
      {| bi := withCondition (bi st)
                 {| Type_ := TypeHasValidBundle;
                    Status := if apierrors.IsNotFound (External err)
                              then ConditionFalse else ConditionUnknown;
                    Reason := ReasonBundleLookupFailed;
                    Message := ext_message err |};
         watched := watched st; trace := trace st |}
| exit_not_unpacked (b : Bundle) (lerr : error) (phase : string) :
    Client_GetBundle E InReconcile (Spec_BundleName (bi st)) = Ok b ->
    loadBundle E (bi st) = Fail lerr ->
    errors.As_errBundleNotUnpacked lerr = Some phase ->
    passExit E r st None
      {| bi := withCondition (bi st)
                 (failed TypeInstalled
                    (if (Bundle_Status_Phase b =? PhaseUnpacking)%string
                     then "BundleUnpackRunning"
                     else "BundleUnpack" +:+ Bundle_Status_Phase b) "");
         watched := watched st; trace := trace st |}
| exit_load_failed (b : Bundle) (lerr : error) :
    Client_GetBundle E InReconcile (Spec_BundleName (bi st)) = Ok b ->
    loadBundle E (bi st) = Fail lerr ->
    errors.As_errBundleNotUnpacked lerr = None ->
    passExit E r st (Some lerr)
      {| bi := withCondition (bi st)
                 (failed TypeHasValidBundle ReasonBundleLoadFailed (errors.Error lerr));
         watched := watched st; trace := trace st |}
| exit_marshal_failed (b : Bundle) (pre post : list unstructured.Unstructured)
    (obj : unstructured.Unstructured) (err : ExtError) :
    Client_GetBundle E InReconcile (Spec_BundleName (bi st)) = Ok b ->
    loadBundle E (bi st) = Ok (pre ++ obj :: post)%list ->
    Forall (fun o => exists d, yaml_Marshal E o = Ok d) pre ->
    yaml_Marshal E obj = Fail err ->
    passExit E r st (Some (External err))
      {| bi := withCondition (bi st)
                 {| Type_ := TypeInvalidBundleContent;
                    Status := ConditionTrue;
                    Reason := ReasonReadingContentFailed;
                    Message := ext_message err |};
         watched := watched st; trace := trace st |}
| exit_client_failed (b : Bundle) (objs : list unstructured.Unstructured)
    (chrt : chart.Chart) (err : ExtError) :
    Client_GetBundle E InReconcile (Spec_BundleName (bi st)) = Ok b ->
    loadBundle E (bi st) = Ok objs ->
    materialize E objs {| chart.Templates := [] |} st = (Next chrt, st) ->
    ActionClientFor E (SetNamespace (bi st) (ReleaseNamespace r)) = Fail err ->
    passExit E r st (Some (External err))
      {| bi := withCondition (SetNamespace (bi st) "")
                 (failed TypeInstalled ReasonErrorGettingClient (ext_message err));
         watched := watched st; trace := trace st |}
| exit_release_state_failed (b : Bundle) (objs : list unstructured.Unstructured)
    (chrt : chart.Chart) (cl : helmclient.ActionInterface)
    (rel : option release.Release) (state : releaseState) (e : error) :
    Client_GetBundle E InReconcile (Spec_BundleName (bi st)) = Ok b ->
    loadBundle E (bi st) = Ok objs ->
    materialize E objs {| chart.Templates := [] |} st = (Next chrt, st) ->
    ActionClientFor E (SetNamespace (bi st) (ReleaseNamespace r)) = Ok cl ->
    getReleaseState r cl (SetNamespace (bi st) "") chrt = (rel, state, Some e) ->
    passExit E r st (Some e)
      {| bi := withCondition (SetNamespace (bi st) "")
                 (failed TypeInstalled ReasonErrorGettingReleaseState (errors.Error e));
         watched := watched st; trace := trace st |}
| exit_apply_failed (b : Bundle) (objs : list unstructured.Unstructured)
    (chrt : chart.Chart) (cl : helmclient.ActionInterface)
    (rel : option release.Release) (state : releaseState)
    (ev : event) (reason : string) (err : ExtError) :
    Client_GetBundle E InReconcile (Spec_BundleName (bi st)) = Ok b ->
    loadBundle E (bi st) = Ok objs ->
    materialize E objs {| chart.Templates := [] |} st = (Next chrt, st) ->
    ActionClientFor E (SetNamespace (bi st) (ReleaseNamespace r)) = Ok cl ->
    getReleaseState r cl (SetNamespace (bi st) "") chrt = (rel, state, None) ->
    applyCall r cl (Name (bi st)) chrt rel state = Some (ev, Some (reason, err)) ->
    passExit E r st (Some (External err))
      {| bi := withCondition (SetNamespace (bi st) "")
                 (failed TypeInstalled reason (ext_message err));
         watched := watched st; trace := trace st ++ [ev] |}
| exit_watch_failed (b : Bundle) (objs : list unstructured.Unstructured)
    (chrt : chart.Chart) (cl : helmclient.ActionInterface)
    (rel : option release.Release) (state : releaseState)
    (ev : event) (res : ctrl.Result) (err : option error) (st' : pass) :
    Client_GetBundle E InReconcile (Spec_BundleName (bi st)) = Ok b ->
    loadBundle E (bi st) = Ok objs ->
    materialize E objs {| chart.Templates := [] |} st = (Next chrt, st) ->
    ActionClientFor E (SetNamespace (bi st) (ReleaseNamespace r)) = Ok cl ->
    getReleaseState r cl (SetNamespace (bi st) "") chrt = (rel, state, None) ->
    applyCall r cl (Name (bi st)) chrt rel state = Some (ev, None) ->
    watchObjects E objs
      {| bi := SetNamespace (bi st) ""; watched := watched st; trace := trace st ++ [ev] |} =
      (Return res err, st') ->
    passExit E r st err st'
| exit_succeeded (b : Bundle) (objs : list unstructured.Unstructured)
    (chrt : chart.Chart) (cl : helmclient.ActionInterface)
    (rel : option release.Release) (state : releaseState)
    (ev : event) (st' : pass) :
    Client_GetBundle E InReconcile (Spec_BundleName (bi st)) = Ok b ->
    loadBundle E (bi st) = Ok objs ->
    materialize E objs {| chart.Templates := [] |} st = (Next chrt, st) ->
    ActionClientFor E (SetNamespace (bi st) (ReleaseNamespace r)) = Ok cl ->
    getReleaseState r cl (SetNamespace (bi st) "") chrt = (rel, state, None) ->
    applyCall r cl (Name (bi st)) chrt rel state = Some (ev, None) ->
    watchObjects E objs
      {| bi := SetNamespace (bi st) ""; watched := watched st; trace := trace st ++ [ev] |} =
      (Next tt, st') ->
    passExit E r st None
      {| bi := SetInstalledBundleName
                 (withCondition (bi st') lifetime.installedSucceeded)
                 (Spec_BundleName (bi st'));
         watched := watched st'; trace := trace st' |}.

End exits.

(** ** A small world to run passes in

    Bundle [pkg-a] holds two ConfigMaps; the InstallationRequest [inst-a]
    names it.  The serializer prints a ConfigMap that has a name and the
    two owner labels the way [sigs.k8s.io/yaml] does, keys in alphabetical
    order; the release backend renders a chart by putting its templates one
    after the other. *)

Module world.
Import controllers rukpakv1alpha1.

Definition nl : string := String (ascii_of_nat 10) EmptyString.

Definition lines (ls : list string) : string :=
  fold_right (fun l acc => l +:+ nl +:+ acc) EmptyString ls.

Definition notFound (msg : string) : ExtError :=
  {| ext_message := msg; ext_is_not_found := true; ext_is_release_not_found := false |}.
Definition releaseNotFound : ExtError :=
  {| ext_message := "release: not found";
     ext_is_not_found := false; ext_is_release_not_found := true |}.
Definition failure (msg : string) : ExtError :=
  {| ext_message := msg; ext_is_not_found := false; ext_is_release_not_found := false |}.

Definition configMapKind : schema.GroupVersionKind :=
  {| schema.Group := ""; schema.Version := "v1"; schema.Kind := "ConfigMap" |}.

Definition configMap (name : string) : unstructured.Unstructured :=
  {| unstructured.GroupVersionKind := configMapKind;
     unstructured.GetNamespace := "";
     unstructured.GetName := name;
     unstructured.GetLabels := ∅;
     unstructured.Body := "" |}.

Definition marshalConfigMap (obj : unstructured.Unstructured)
  : outcome ExtError (list byte) :=
  match unstructured.GetLabels obj !! "core.rukpak.io/owner-kind",
        unstructured.GetLabels obj !! "core.rukpak.io/owner-name" with
  | Some kind, Some name =>
      Ok (list_byte_of_string
            (lines [ "apiVersion: v1";
                     "kind: ConfigMap";
                     "metadata:";
                     "  labels:";
                     "    core.rukpak.io/owner-kind: " +:+ kind;
                     "    core.rukpak.io/owner-name: " +:+ name;
                     "  name: " +:+ unstructured.GetName obj ]))
  | _, _ => Fail (failure "json: unsupported value")
  end.

Definition render (chrt : chart.Chart) : string :=
  string_of_list_byte (concat (map chart.Data (chart.Templates chrt))).

(** A release backend that holds [current] and never fails. *)
Definition helm (current : option release.Release) : helmclient.ActionInterface :=
  {| helmclient.Get := fun _ =>
       match current with
       | Some rel => Ok rel
       | None => Fail releaseNotFound
       end;
     helmclient.Install := fun name _ chrt _ =>
       Ok {| release.Name := name; release.Manifest := render chrt;
             release.Info_Status := release.StatusDeployed |};
     helmclient.Upgrade := fun name _ chrt _ =>
       Ok {| release.Name := name; release.Manifest := render chrt;
             release.Info_Status := release.StatusDeployed |};
     helmclient.Reconcile := fun _ => None |}.

Definition inst_a : BundleInstance :=
  {| Name := "inst-a"; Namespace := ""; ManagedFields := ["kubectl"];
     Spec_BundleName := "pkg-a";
     Status_Conditions := [];
     Status_InstalledBundleName := "" |}.

Definition pkg_a (phase : string) : Bundle :=
  {| Bundle_Name := "pkg-a"; Bundle_Status_Phase := phase;
     Bundle_Status_Digest := ""; Bundle_Status_Conditions := [] |}.

Definition req_a : types.NamespacedName :=
  {| types.Namespace := ""; types.Name := "inst-a" |}.

(** The world: what the API server answers for the InstallationRequest
    and for the Bundle, what the storage holds, the release on record,
    and the answers of [Controller.Watch] and of the status patch. *)
Definition env
    (getInstance : outcome ExtError BundleInstance)
    (getBundle : outcome ExtError Bundle)
    (objects : list unstructured.Unstructured)
    (current : option release.Release)
    (watch patch : option ExtError) : Env :=
  {| Client_GetBundleInstance := fun _ => getInstance;
     Client_GetBundle := fun _ _ => getBundle;
     Client_StatusPatch := fun _ => patch;
     BundleStorage_Load := fun _ => Ok objects;
     ActionClientFor := fun _ => Ok (helm current);
     Controller_Watch := fun _ _ => watch;
     yaml_Marshal := marshalConfigMap;
     ToUnstructured := fun obj => Ok obj |}.

Definition r0 : BundleInstanceReconciler := SetupWithManager "rukpak-system".

(** What the storage holds for [pkg-a]. *)
Definition objects_a : list unstructured.Unstructured :=
  [configMap "settings"; configMap "scripts"].

(** [pkg-a] unpacked, nothing installed yet, no collaborator failing. *)
Definition fresh : Env :=
  env (Ok inst_a) (Ok (pkg_a PhaseUnpacked)) objects_a None None None.

Definition st_a : pass :=
  {| bi := inst_a; watched := ∅; trace := [] |}.

(** The objects of [pkg-a] as [loadBundle] hands them on, and the chart
    the materializer makes of them. *)
Definition desired (E : Env) : list unstructured.Unstructured :=
  match loadBundle E inst_a with
  | Ok objs => objs
  | Fail _ => []
  end.

Definition chartOf (E : Env) : chart.Chart :=
  match materialize E (desired E) {| chart.Templates := [] |} st_a with
  | (Next chrt, _) => chrt
  | (Return _ _, _) => {| chart.Templates := [] |}
  end.

Definition template (E : Env) (i : nat) : chart.File :=
  nth i (chart.Templates (chartOf E)) {| chart.Name := ""; chart.Data := [] |}.

(** Two ConfigMaps that differ in their names. *)
Definition cm_1 : unstructured.Unstructured := configMap "cm-da028e6c8246388c".
Definition cm_2 : unstructured.Unstructured := configMap "cm-776d8fe8c3b8c597".

Definition twins : Env :=
  env (Ok inst_a) (Ok (pkg_a PhaseUnpacked)) [cm_1; cm_2] None None None.

(** [pkg-a] is installed and nothing has changed since. *)
Definition settled : Env :=
  env (Ok inst_a) (Ok (pkg_a PhaseUnpacked)) objects_a
    (Some {| release.Name := "inst-a"; release.Manifest := render (chartOf fresh);
             release.Info_Status := release.StatusDeployed |})
    None None.

(** The release on record is of other content. *)
Definition changed : Env :=
  env (Ok inst_a) (Ok (pkg_a PhaseUnpacked)) objects_a
    (Some {| release.Name := "inst-a"; release.Manifest := "kind: Secret";
             release.Info_Status := release.StatusDeployed |})
    None None.

(** An event in a few words, for reading traces. *)
Definition describe (ev : event) : string :=
  match ev with
  | LogInfo msg => msg
  | LogError err msg => msg +:+ ": " +:+ ext_message err
  | CallInstall name ns chrt _ res =>
      "install " +:+ name +:+ " in " +:+ ns +:+ ": " +:+
      String.concat " " (map chart.Name (chart.Templates chrt))
  | CallUpgrade name ns chrt res =>
      "upgrade " +:+ name +:+ " in " +:+ ns +:+ ": " +:+
      String.concat " " (map chart.Name (chart.Templates chrt))
  | CallReconcile _ _ => "reconcile"
  | CallWatch gvk owner res =>
      "watch " +:+ schema.Kind gvk +:+ " for " +:+ owner +:+
      match res with Some err => ": " +:+ ext_message err | None => "" end
  | CallStatusPatch b _ _ =>
      "patch installed=" +:+ Status_InstalledBundleName b +:+
      String.concat ""
        (map (fun c => " " +:+ metav1.Type_ c +:+ "=" +:+ metav1.Status c +:+ "/" +:+
                       metav1.Reason c)
             (Status_Conditions b))
  end.

(** Two passes, for [inst-a] and [inst-b], come to a ConfigMap at the same
    time, with nothing watched yet; [inst-a] takes the lock first. *)
Definition nothing : dynamicWatch.shared :=
  {| dynamicWatch.locked := false; dynamicWatch.gvks := ∅; dynamicWatch.calls := [] |}.

Definition subscribed : dynamicWatch.shared :=
  {| dynamicWatch.locked := false;
     dynamicWatch.gvks := {[ configMapKind ]} ∪ ∅;
     dynamicWatch.calls := [CallWatch configMapKind "inst-a" None] |}.

Definition bothDone : list dynamicWatch.thread :=
  [ {| dynamicWatch.th_gvk := configMapKind; dynamicWatch.th_owner := "inst-a";
       dynamicWatch.th_pc := dynamicWatch.Done None |};
    {| dynamicWatch.th_gvk := configMapKind; dynamicWatch.th_owner := "inst-b";
       dynamicWatch.th_pc := dynamicWatch.Done None |} ].

(** The same two passes when [Controller.Watch] fails for both. *)
Definition refused : dynamicWatch.shared :=
  {| dynamicWatch.locked := false;
     dynamicWatch.gvks := ∅;
     dynamicWatch.calls :=
       [ CallWatch configMapKind "inst-a" (Some (failure "no matches for kind"));
         CallWatch configMapKind "inst-b" (Some (failure "no matches for kind")) ] |}.

Definition bothFailed : list dynamicWatch.thread :=
  [ {| dynamicWatch.th_gvk := configMapKind; dynamicWatch.th_owner := "inst-a";
       dynamicWatch.th_pc := dynamicWatch.Done (Some (failure "no matches for kind")) |};
    {| dynamicWatch.th_gvk := configMapKind; dynamicWatch.th_owner := "inst-b";
       dynamicWatch.th_pc := dynamicWatch.Done (Some (failure "no matches for kind")) |} ].

(** The API server does not answer the request for [inst-a]. *)
Definition unreachable : Env :=
  env (Fail (failure "context deadline exceeded")) (Ok (pkg_a PhaseUnpacked))
    objects_a None None None.

(** [Controller.Watch] fails. *)
Definition unwatchable : Env :=
  env (Ok inst_a) (Ok (pkg_a PhaseUnpacked)) objects_a None
    (Some (failure "no matches for kind")) None.

(** [pkg-a] as in [fresh], and the API server refuses the status patch. *)
Definition conflicting : Env :=
  env (Ok inst_a) (Ok (pkg_a PhaseUnpacked)) objects_a None None
    (Some (failure "conflict")).

(** Worlds in which a collaborator after the two reads of the Bundle
    fails: the storage, the serializer, the getter of release clients, or
    the release backend. *)
Definition broken
    (storage : outcome ExtError (list unstructured.Unstructured))
    (client : outcome ExtError helmclient.ActionInterface)
    (marshal : unstructured.Unstructured -> outcome ExtError (list byte)) : Env :=
  {| Client_GetBundleInstance := fun _ => Ok inst_a;
     Client_GetBundle := fun _ _ => Ok (pkg_a PhaseUnpacked);
     Client_StatusPatch := fun _ => None;
     BundleStorage_Load := fun _ => storage;
     ActionClientFor := fun _ => client;
     Controller_Watch := fun _ _ => None;
     yaml_Marshal := marshal;
     ToUnstructured := fun obj => Ok obj |}.

Definition unstored : Env :=
  broken (Fail (failure "open pkg-a: no such file")) (Ok (helm None)) marshalConfigMap.

Definition unserializable : Env :=
  broken (Ok objects_a) (Ok (helm None))
    (fun obj =>
       if (unstructured.GetName obj =? "scripts")%string
       then Fail (failure "json: unsupported value")
       else marshalConfigMap obj).

Definition clientless : Env :=
  broken (Ok objects_a) (Fail (failure "no rest config")) marshalConfigMap.

Definition helmDown : helmclient.ActionInterface :=
  {| helmclient.Get := fun _ => Fail (failure "connection refused");
     helmclient.Install := helmclient.Install (helm None);
     helmclient.Upgrade := helmclient.Upgrade (helm None);
     helmclient.Reconcile := helmclient.Reconcile (helm None) |}.

Definition helmRefusing : helmclient.ActionInterface :=
  {| helmclient.Get := helmclient.Get (helm None);
     helmclient.Install := fun _ _ _ _ => Fail (failure "resource already exists");
     helmclient.Upgrade := helmclient.Upgrade (helm None);
     helmclient.Reconcile := helmclient.Reconcile (helm None) |}.

Definition stateless : Env := broken (Ok objects_a) (Ok helmDown) marshalConfigMap.

Definition refusing : Env := broken (Ok objects_a) (Ok helmRefusing) marshalConfigMap.

(** Between the two reads of a pass the Bundle goes from Unpacked to
    Failing. *)
Definition disagreeing : Env :=
  {| Client_GetBundleInstance := fun _ => Ok inst_a;
     Client_GetBundle := fun rd _ =>
       match rd with
       | InReconcile => Ok (pkg_a PhaseUnpacked)
       | InLoadBundle => Ok (pkg_a PhaseFailing)
       end;
     Client_StatusPatch := fun _ => None;
     BundleStorage_Load := fun _ => Ok objects_a;
     ActionClientFor := fun _ => Ok (helm None);
     Controller_Watch := fun _ _ => None;
     yaml_Marshal := marshalConfigMap;
     ToUnstructured := fun obj => Ok obj |}.

End world.

(* ===================================================================== *)
(** * Properties                                                           *)
(* ===================================================================== *)

(** ** The digest on the test vectors of the standard *)

Example sum256_empty :
  fmt.hex (sha256.Sum256 []) =
  "e3b0c44298fc1c149afbf4c8996fb92427ae41e4649b934ca495991b7852b855".
Proof. vm_compute. reflexivity. Qed.

Example sum256_abc :
  fmt.hex (sha256.Sum256 (list_byte_of_string "abc")) =
  "ba7816bf8f01cfea414140de5dae2223b00361a396177a9cb410ff61f20015ad".
Proof. vm_compute. reflexivity. Qed.

Example sum256_two_blocks :
  fmt.hex (sha256.Sum256
             (list_byte_of_string
                "abcdbcdecdefdefgefghfghighijhijkijkljklmklmnlmnomnopnopq")) =
  "248d6a61d20638b8e5c026930c3e6039a33ce45964ff2167f6ecedd419db06c1".
Proof. vm_compute. reflexivity. Qed.

(** Running the steps of a pass symbolically. *)
Ltac exec :=
  unfold mbind, controllers.M_bind, mret, controllers.M_ret,
    controllers.setStatusCondition, controllers.get_bi, controllers.modify_bi,
    controllers.emit, controllers.return_;
  cbn beta iota zeta delta [controllers.bi controllers.watched controllers.trace].

(** ** Conditions *)

Section conditions.
Import metav1.

Lemma find_set_same (cs : list Condition) (c : Condition) :
  meta.FindStatusCondition (meta.SetStatusCondition cs c) (Type_ c) = Some c.
Proof.
  induction cs as [|x cs IH]; simpl.
  - rewrite String.eqb_refl. reflexivity.
  - destruct (Type_ x =? Type_ c)%string eqn:Hx; simpl.
    + rewrite Hx. apply String.eqb_eq in Hx. rewrite Hx. destruct c; reflexivity.
    + rewrite Hx. exact IH.
Qed.

Lemma find_set_other (cs : list Condition) (c : Condition) (t : string) :
  t <> Type_ c ->
  meta.FindStatusCondition (meta.SetStatusCondition cs c) t =
  meta.FindStatusCondition cs t.
Proof.
  intros Ht. induction cs as [|x cs IH]; simpl.
  - destruct (Type_ c =? t)%string eqn:Hc; [|reflexivity].
    apply String.eqb_eq in Hc. congruence.
  - destruct (Type_ x =? Type_ c)%string eqn:Hx; simpl.
    + apply String.eqb_eq in Hx.
      destruct (Type_ x =? t)%string eqn:Hxt; [|reflexivity].
      apply String.eqb_eq in Hxt. congruence.
    + rewrite IH. reflexivity.
Qed.

End conditions.

(** ** The release state evaluator *)

Section release_state.
Import controllers rukpakv1alpha1.

(** C1. [getReleaseState] follows the state table: release not found
    gives needs-install; a dry-run manifest that differs from the current
    one gives needs-upgrade whatever the status; equal manifests with
    status failed or superseded give needs-upgrade; equal manifests with
    any other status give unchanged; any other error of the lookup, and any
    error of the dry run, gives state error together with that error. *)
Theorem getReleaseState_state_table
    (r : BundleInstanceReconciler) (cl : helmclient.ActionInterface)
    (obj : BundleInstance) (chrt : chart.Chart) :
  (forall err,
      helmclient.Get cl (Name obj) = Fail err ->
      ext_is_release_not_found err = true ->
      getReleaseState r cl obj chrt = (None, stateNeedsInstall, None)) /\
  (forall err,
      helmclient.Get cl (Name obj) = Fail err ->
      ext_is_release_not_found err = false ->
      getReleaseState r cl obj chrt = (None, stateError, Some (External err))) /\
  (forall cur err,
      helmclient.Get cl (Name obj) = Ok cur ->
      helmclient.Upgrade cl (Name obj) (ReleaseNamespace r) chrt true = Fail err ->
      getReleaseState r cl obj chrt = (Some cur, stateError, Some (External err))) /\
  (forall cur des,
      helmclient.Get cl (Name obj) = Ok cur ->
      helmclient.Upgrade cl (Name obj) (ReleaseNamespace r) chrt true = Ok des ->
      (release.Manifest des <> release.Manifest cur ->
       getReleaseState r cl obj chrt = (Some cur, stateNeedsUpgrade, None)) /\
      (release.Manifest des = release.Manifest cur ->
       release.Info_Status cur = release.StatusFailed \/
       release.Info_Status cur = release.StatusSuperseded ->
       getReleaseState r cl obj chrt = (Some cur, stateNeedsUpgrade, None)) /\
      (release.Manifest des = release.Manifest cur ->
       release.Info_Status cur <> release.StatusFailed ->
       release.Info_Status cur <> release.StatusSuperseded ->
       getReleaseState r cl obj chrt = (Some cur, stateUnchanged, None))).
Proof.
  unfold getReleaseState. repeat split.
  - intros err -> Hnf. simpl. rewrite Hnf. reflexivity.
  - intros err -> Hnf. simpl. rewrite Hnf. reflexivity.
  - intros cur err -> ->. reflexivity.
  - intros Hne. rewrite H, H0.
    apply String.eqb_neq in Hne. rewrite Hne. reflexivity.
  - intros Heq Hst. rewrite H, H0.
    destruct Hst as [Hst | Hst]; rewrite Hst; simpl.
    + rewrite orb_true_r. reflexivity.
    + rewrite orb_true_r. reflexivity.
  - intros Heq Hf Hs. rewrite H, H0.
    apply String.eqb_eq in Heq. apply String.eqb_neq in Hf, Hs.
    rewrite Heq, Hf, Hs. reflexivity.
Qed.

End release_state.

Lemma getReleaseState_state_table_witness :
  controllers.getReleaseState world.r0 (world.helm None) world.inst_a
    {| chart.Templates := [] |} = (None, controllers.stateNeedsInstall, None).
Proof.
  apply (proj1 (getReleaseState_state_table world.r0 (world.helm None) world.inst_a
                  {| chart.Templates := [] |}) world.releaseNotFound);
    reflexivity.
Defined.

(** ** Passes that stop before the bundle is loaded *)

Section early_exits.
Import controllers rukpakv1alpha1 metav1.

Lemma reconciler_eta (r : BundleInstanceReconciler) :
  {| ReleaseNamespace := ReleaseNamespace r;
     dynamicWatchGVKs := dynamicWatchGVKs r |} = r.
Proof. destruct r; reflexivity. Qed.

(** C10. When the first fetch of the Bundle fails, the pass sets
    HasValidBundle with reason BundleLookupFailed, status False exactly
    for a not-found error and Unknown for any other; it returns no error
    exactly for a not-found error and the error itself otherwise. *)
Theorem Reconcile_bundle_lookup_failed
    (E : Env) (r : BundleInstanceReconciler) (req : types.NamespacedName)
    (tr : list event) (b0 : BundleInstance) (err : ExtError) :
  Client_GetBundleInstance E req = Ok b0 ->
  Client_GetBundle E InReconcile (Spec_BundleName b0) = Fail err ->
  let c := {| Type_ := TypeHasValidBundle;
              Status := if ext_is_not_found err then ConditionFalse else ConditionUnknown;
              Reason := ReasonBundleLookupFailed;
              Message := ext_message err |} in
  let b' := SetConditions b0 (meta.SetStatusCondition (Status_Conditions b0) c) in
  Reconcile E r req tr =
    ((ctrl.Result0, if ext_is_not_found err then None else Some (External err)),
     r,
     (tr ++ [LogInfo "starting reconciliation"] ++ patchStatus E b' ++
      [LogInfo "ending reconciliation"])%list) /\
  meta.FindStatusCondition (Status_Conditions b') TypeHasValidBundle = Some c.
Proof.
  intros Hbi Hb c b'. split.
  - unfold Reconcile. rewrite Hbi.
    unfold run, reconcileBundleInstance. exec. rewrite Hb. exec.
    unfold client.IgnoreNotFound. cbn.
    rewrite reconciler_eta, <- app_assoc. reflexivity.
  - apply (find_set_same (Status_Conditions b0) c).
Qed.

(** The pass reads the Bundle twice.  [loadBundle] decides on the phase of
    the second read whether the bundle is unpacked, and the reason of the
    condition is made of the phase of the first read. *)
Lemma Reconcile_not_unpacked_two_reads
    (E : Env) (r : BundleInstanceReconciler) (req : types.NamespacedName)
    (tr : list event) (b0 : BundleInstance) (b1 b2 : Bundle) :
  Client_GetBundleInstance E req = Ok b0 ->
  Client_GetBundle E InReconcile (Spec_BundleName b0) = Ok b1 ->
  Client_GetBundle E InLoadBundle (Spec_BundleName b0) = Ok b2 ->
  Bundle_Status_Phase b2 <> PhaseUnpacked ->
  Reconcile E r req tr =
    ((ctrl.Result0, None), r,
     (tr ++ [LogInfo "starting reconciliation"] ++
      patchStatus E
        (SetConditions b0
           (meta.SetStatusCondition (Status_Conditions b0)
              {| Type_ := TypeInstalled;
                 Status := ConditionFalse;
                 Reason := if (Bundle_Status_Phase b1 =? PhaseUnpacking)%string
                           then "BundleUnpackRunning"
                           else "BundleUnpack" +:+ Bundle_Status_Phase b1;
                 Message := "" |})) ++
      [LogInfo "ending reconciliation"])%list).
Proof.
  intros Hbi Hb1 Hb2 Hph.
  unfold Reconcile. rewrite Hbi.
  unfold run, reconcileBundleInstance. exec. rewrite Hb1. exec.
  unfold loadBundle. rewrite Hb2.
  apply String.eqb_neq in Hph. rewrite Hph.
  cbn. rewrite reconciler_eta, <- app_assoc. reflexivity.
Qed.

(** C2. When the Bundle exists and its phase is not Unpacked, the
    pass returns no error and sets Installed to False, with reason
    BundleUnpackRunning for phase Unpacking and BundleUnpack followed by
    the phase otherwise; the HasValidBundle condition is left as it was. *)
Theorem Reconcile_bundle_not_unpacked
    (E : Env) (r : BundleInstanceReconciler) (req : types.NamespacedName)
    (tr : list event) (b0 : BundleInstance) (b : Bundle) :
  Client_GetBundleInstance E req = Ok b0 ->
  Client_GetBundle E InReconcile (Spec_BundleName b0) = Ok b ->
  Client_GetBundle E InLoadBundle (Spec_BundleName b0) = Ok b ->
  Bundle_Status_Phase b <> PhaseUnpacked ->
  let c := {| Type_ := TypeInstalled;
              Status := ConditionFalse;
              Reason := if (Bundle_Status_Phase b =? PhaseUnpacking)%string
                        then "BundleUnpackRunning"
                        else "BundleUnpack" +:+ Bundle_Status_Phase b;
              Message := "" |} in
  let b' := SetConditions b0 (meta.SetStatusCondition (Status_Conditions b0) c) in
  Reconcile E r req tr =
    ((ctrl.Result0, None), r,
     (tr ++ [LogInfo "starting reconciliation"] ++ patchStatus E b' ++
      [LogInfo "ending reconciliation"])%list) /\
  meta.FindStatusCondition (Status_Conditions b') TypeInstalled = Some c /\
  meta.FindStatusCondition (Status_Conditions b') TypeHasValidBundle =
    meta.FindStatusCondition (Status_Conditions b0) TypeHasValidBundle.
Proof.
  intros Hbi Hb1 Hb2 Hph c b'. split; [|split].
  - exact (Reconcile_not_unpacked_two_reads E r req tr b0 b b Hbi Hb1 Hb2 Hph).
  - apply (find_set_same (Status_Conditions b0) c).
  - apply find_set_other. discriminate.
Qed.

End early_exits.

Lemma Reconcile_bundle_lookup_failed_witness :
  fst (fst (controllers.Reconcile
              (world.env (Ok world.inst_a) (Fail (world.notFound "bundle pkg-a not found"))
                 [] None None None)
              world.r0 world.req_a [])) = (ctrl.Result0, None).
Proof.
  rewrite (proj1 (Reconcile_bundle_lookup_failed
                    (world.env (Ok world.inst_a)
                       (Fail (world.notFound "bundle pkg-a not found")) [] None None None)
                    world.r0 world.req_a [] world.inst_a
                    (world.notFound "bundle pkg-a not found") eq_refl eq_refl)).
  reflexivity.
Defined.

Lemma Reconcile_bundle_not_unpacked_witness :
  exists b',
    controllers.Reconcile
      (world.env (Ok world.inst_a) (Ok (world.pkg_a rukpakv1alpha1.PhasePending))
         [] None None None)
      world.r0 world.req_a [] =
    ((ctrl.Result0, None), world.r0,
     [controllers.LogInfo "starting reconciliation";
      controllers.CallStatusPatch b' controllers.plainBundleProvisionerID None;
      controllers.LogInfo "ending reconciliation"]) /\
    rukpakv1alpha1.Status_Conditions b' =
      [ {| metav1.Type_ := "Installed"; metav1.Status := "False";
           metav1.Reason := "BundleUnpackPending"; metav1.Message := "" |} ].
Proof.
  eexists. split.
  - rewrite (proj1 (Reconcile_bundle_not_unpacked
                      (world.env (Ok world.inst_a)
                         (Ok (world.pkg_a rukpakv1alpha1.PhasePending)) [] None None None)
                      world.r0 world.req_a [] world.inst_a
                      (world.pkg_a rukpakv1alpha1.PhasePending)
                      eq_refl eq_refl eq_refl ltac:(discriminate))).
    reflexivity.
  - reflexivity.
Defined.

(** ** Digests and template names *)

Section template_names.
Import controllers.

Lemma digest_bytes_length (s : sha256.state) : length (sha256.digest_bytes s) = 32%nat.
Proof. destruct s as [[[[[[[a b] c] d] e] f] g] h]. reflexivity. Qed.

Lemma Sum256_length (data : list byte) : length (sha256.Sum256 data) = 32%nat.
Proof. unfold sha256.Sum256. apply digest_bytes_length. Qed.

Lemma digest_prefix_length (data : list byte) :
  length (take 8 (sha256.Sum256 data)) = 8%nat.
Proof. rewrite length_take, Sum256_length. reflexivity. Qed.

Lemma hex_length (bs : list byte) :
  String.length (fmt.hex bs) = (2 * length bs)%nat.
Proof. induction bs as [|b bs IH]; simpl; [reflexivity | rewrite IH; lia]. Qed.

Lemma string_length_app (s t : string) :
  String.length (s +:+ t) = (String.length s + String.length t)%nat.
Proof. induction s as [|a s IH]; simpl; [reflexivity | rewrite IH; reflexivity]. Qed.

Lemma unhex_hex_digit (n : N) :
  (n < 16)%N -> fmt.unhex_digit (fmt.hex_digit n) = n.
Proof.
  intros Hn. destruct n as [|p]; [reflexivity|].
  do 5 (try (destruct p as [p|p|]; try reflexivity; try (exfalso; lia))).
Qed.

Lemma hex_digit_inj (m n : N) :
  (m < 16)%N -> (n < 16)%N -> fmt.hex_digit m = fmt.hex_digit n -> m = n.
Proof.
  intros Hm Hn Heq.
  rewrite <- (unhex_hex_digit m Hm), <- (unhex_hex_digit n Hn), Heq. reflexivity.
Qed.

Lemma byte_to_N_lt (b : byte) : (Byte.to_N b < 256)%N.
Proof. pose proof (Byte.to_N_bounded b). lia. Qed.

Lemma byte_of_digits (b1 b2 : byte) :
  fmt.hex_digit (Byte.to_N b1 / 16) = fmt.hex_digit (Byte.to_N b2 / 16) ->
  fmt.hex_digit (Byte.to_N b1 mod 16) = fmt.hex_digit (Byte.to_N b2 mod 16) ->
  b1 = b2.
Proof.
  intros Hhi Hlo.
  pose proof (byte_to_N_lt b1) as L1. pose proof (byte_to_N_lt b2) as L2.
  apply hex_digit_inj in Hhi;
    [| apply N.Div0.div_lt_upper_bound; lia | apply N.Div0.div_lt_upper_bound; lia].
  apply hex_digit_inj in Hlo; [| apply N.mod_lt; lia | apply N.mod_lt; lia].
  assert (Byte.to_N b1 = Byte.to_N b2) as Hn.
  { rewrite (N.div_mod (Byte.to_N b1) 16), (N.div_mod (Byte.to_N b2) 16) by lia.
    rewrite Hhi, Hlo. reflexivity. }
  apply (f_equal Byte.of_N) in Hn. rewrite !Byte.of_to_N in Hn. congruence.
Qed.

(** [%x] loses nothing: digit strings of byte slices of one length that
    agree before a common suffix come from the same bytes. *)
Lemma hex_inj (bs1 bs2 : list byte) (suffix : string) :
  length bs1 = length bs2 ->
  fmt.hex bs1 +:+ suffix = fmt.hex bs2 +:+ suffix ->
  bs1 = bs2.
Proof.
  revert bs2. induction bs1 as [|b1 bs1 IH]; intros [|b2 bs2] Hlen Heq;
    try discriminate; [reflexivity|].
  simpl in Hlen, Heq. injection Heq as Hhi Hlo Hrest.
  f_equal.
  - apply byte_of_digits; assumption.
  - apply IH; [lia | assumption].
Qed.

Lemma templateName_length (jsonData : list byte) :
  String.length (templateName jsonData) = 28%nat.
Proof.
  unfold templateName. rewrite !string_length_app, hex_length, digest_prefix_length.
  reflexivity.
Qed.

Lemma templateName_eq_iff (d1 d2 : list byte) :
  templateName d1 = templateName d2 <->
  take 8 (sha256.Sum256 d1) = take 8 (sha256.Sum256 d2).
Proof.
  unfold templateName. split.
  - intros Heq. simpl in Heq.
    injection Heq as Heq.
    apply (hex_inj _ _ ".yaml"); [| exact Heq].
    rewrite !digest_prefix_length. reflexivity.
  - intros ->. reflexivity.
Qed.

Lemma materialize_next (E : Env) (objs : list unstructured.Unstructured)
    (chrt chrt' : chart.Chart) (st st' : pass) :
  materialize E objs chrt st = (Next chrt', st') ->
  st' = st /\
  exists fs, chart.Templates chrt' = (chart.Templates chrt ++ fs)%list /\
             Forall2 (templateOf E) objs fs.
Proof.
  revert chrt. induction objs as [|obj objs IH]; intros chrt Hrun; simpl in Hrun.
  - injection Hrun as <- <-. split; [reflexivity|].
    exists []. rewrite app_nil_r. split; [reflexivity | constructor].
  - destruct (yaml_Marshal E obj) as [jsonData|err] eqn:Hy.
    + apply IH in Hrun as [-> (fs & Hfs & Hall)]. split; [reflexivity|].
      exists ({| chart.Name := templateName jsonData; chart.Data := jsonData |} :: fs).
      split.
      * rewrite Hfs. simpl. rewrite <- app_assoc. reflexivity.
      * constructor; [|exact Hall]. split; [exact Hy | reflexivity].
    + revert Hrun. exec. discriminate.
Qed.

Lemma materialize_total (E : Env) (objs : list unstructured.Unstructured)
    (chrt : chart.Chart) (st : pass) :
  Forall (fun obj => exists d, yaml_Marshal E obj = Ok d) objs ->
  exists chrt', materialize E objs chrt st = (Next chrt', st).
Proof.
  intros Hall. revert chrt. induction Hall as [|obj objs [d Hd] _ IH]; intros chrt; simpl.
  - eexists. reflexivity.
  - rewrite Hd. apply IH.
Qed.

Lemma materialize_names_from_digest_aux
    (E : Env) (objs : list unstructured.Unstructured) (st st' : pass)
    (chrt : chart.Chart) :
  materialize E objs {| chart.Templates := [] |} st = (Next chrt, st') ->
  Forall2 (templateOf E) objs (chart.Templates chrt) /\
  (forall f, f ∈ chart.Templates chrt -> chart.Name f = templateName (chart.Data f)).
Proof.
  intros Hm.
  apply materialize_next in Hm as [_ (fs & Hfs & Hall)]. simpl in Hfs.
  rewrite Hfs. clear Hfs. split; [exact Hall|].
  intros f Hf.
  induction Hall as [|o g os gs [_ Hg] _ IH]; [inversion Hf|].
  apply elem_of_cons in Hf as [-> | Hf]; [exact Hg | exact (IH Hf)].
Qed.

(** C7. When every object serializes, the materializer returns a chart
    that holds one template for each object, in the order of the loader;
    the name of a template is "object-", the sixteen hexadecimal digits of
    the first eight bytes of the SHA-256 digest of the serialized object,
    and ".yaml"; so templates with the same bytes have the same name, in
    one chart or in two. *)
Theorem materialize_names_from_digest
    (E : Env) (objs : list unstructured.Unstructured) (st : pass) :
  Forall (fun obj => exists d, yaml_Marshal E obj = Ok d) objs ->
  exists chrt,
    materialize E objs {| chart.Templates := [] |} st = (Next chrt, st) /\
    Forall2 (templateOf E) objs (chart.Templates chrt) /\
    (forall f, f ∈ chart.Templates chrt ->
               chart.Name f = templateName (chart.Data f) /\
               length (take 8 (sha256.Sum256 (chart.Data f))) = 8%nat /\
               String.length (chart.Name f) = 28%nat) /\
    (forall E2 objs2 st2 st2' chrt2 f1 f2,
        materialize E2 objs2 {| chart.Templates := [] |} st2 = (Next chrt2, st2') ->
        f1 ∈ chart.Templates chrt -> f2 ∈ chart.Templates chrt2 ->
        chart.Data f1 = chart.Data f2 -> chart.Name f1 = chart.Name f2).
Proof.
  intros Hok.
  destruct (materialize_total E objs {| chart.Templates := [] |} st Hok) as [chrt Hrun].
  exists chrt. split; [exact Hrun|].
  destruct (materialize_names_from_digest_aux _ _ _ _ _ Hrun) as [Hall Hnames].
  split; [exact Hall | split].
  - intros f Hf. pose proof (Hnames f Hf) as Hn.
    split; [exact Hn|]. split; [apply digest_prefix_length|].
    rewrite Hn. apply templateName_length.
  - intros E2 objs2 st2 st2' chrt2 f1 f2 Hrun2 Hf1 Hf2 Hdata.
    destruct (materialize_names_from_digest_aux _ _ _ _ _ Hrun2) as [_ Hnames2].
    rewrite (Hnames f1 Hf1), (Hnames2 f2 Hf2), Hdata. reflexivity.
Qed.

(** C8, as amended. Two templates of a chart have the same name exactly
    when the first eight bytes of the digests of their bytes are the
    same: objects whose serialized forms differ get different names as
    long as those eight bytes differ. *)
Theorem materialize_names_injective_in_digest_prefix
    (E : Env) (objs : list unstructured.Unstructured) (st st' : pass)
    (chrt : chart.Chart) (f1 f2 : chart.File) :
  materialize E objs {| chart.Templates := [] |} st = (Next chrt, st') ->
  f1 ∈ chart.Templates chrt -> f2 ∈ chart.Templates chrt ->
  (chart.Name f1 = chart.Name f2 <->
   take 8 (sha256.Sum256 (chart.Data f1)) = take 8 (sha256.Sum256 (chart.Data f2))).
Proof.
  intros Hrun Hf1 Hf2.
  destruct (materialize_names_from_digest_aux _ _ _ _ _ Hrun) as [H1 H2].
  rewrite (H2 f1 Hf1), (H2 f2 Hf2). apply templateName_eq_iff.
Qed.

End template_names.

(** The two ConfigMaps of [world.twins] are different objects with
    different serialized forms, and the chart of a pass over them holds two
    templates with one and the same name. *)
Lemma template_names_collide :
  exists o1 o2 d1 d2 chrt,
    controllers.loadBundle world.twins world.inst_a = Ok [o1; o2] /\
    unstructured.GetName o1 <> unstructured.GetName o2 /\
    yaml_Marshal world.twins o1 = Ok d1 /\
    yaml_Marshal world.twins o2 = Ok d2 /\
    d1 <> d2 /\
    controllers.materialize world.twins [o1; o2] {| chart.Templates := [] |} world.st_a =
      (controllers.Next chrt, world.st_a) /\
    map chart.Name (chart.Templates chrt) =
      ["object-f0f591501e0c46e4.yaml"; "object-f0f591501e0c46e4.yaml"] /\
    map chart.Data (chart.Templates chrt) = [d1; d2].
Proof.
  eexists _, _, _, _, _.
  split; [reflexivity|].
  split; [discriminate|].
  split; [reflexivity|].
  split; [reflexivity|].
  split; [intros H; vm_compute in H; discriminate H|].
  split; [reflexivity|].
  split; [vm_compute; reflexivity | reflexivity].
Qed.

Example chart_of_pkg_a :
  map chart.Name (chart.Templates (world.chartOf world.fresh)) =
  ["object-c6e6d2fa288ea51f.yaml"; "object-92d7f4877dafe310.yaml"].
Proof. vm_compute. reflexivity. Qed.

Lemma materialize_names_from_digest_witness :
  exists chrt,
    controllers.materialize world.fresh (world.desired world.fresh)
      {| chart.Templates := [] |} world.st_a = (controllers.Next chrt, world.st_a) /\
    Forall2 (controllers.templateOf world.fresh) (world.desired world.fresh)
      (chart.Templates chrt).
Proof.
  destruct (materialize_names_from_digest world.fresh (world.desired world.fresh) world.st_a)
    as (chrt & Hrun & Hall & _).
  - repeat constructor; eexists; reflexivity.
  - exists chrt. split; assumption.
Defined.

Lemma materialize_names_injective_in_digest_prefix_witness :
  chart.Name (world.template world.fresh 0) = chart.Name (world.template world.fresh 1) <->
  take 8 (sha256.Sum256 (chart.Data (world.template world.fresh 0))) =
  take 8 (sha256.Sum256 (chart.Data (world.template world.fresh 1))).
Proof.
  apply (materialize_names_injective_in_digest_prefix world.fresh
           (world.desired world.fresh) world.st_a world.st_a (world.chartOf world.fresh)).
  - vm_compute. reflexivity.
  - apply (list_elem_of_lookup_2 _ 0%nat). vm_compute. reflexivity.
  - apply (list_elem_of_lookup_2 _ 1%nat). vm_compute. reflexivity.
Defined.

(** ** The ownership labeler *)

Section labeler.
Import controllers rukpakv1alpha1 lifetime.

Lemma MergeMaps_two (m o : gmap string string) (k : string) :
  util.MergeMaps [m; o] !! k =
  match o !! k with
  | Some v => Some v
  | None => m !! k
  end.
Proof.
  unfold util.MergeMaps. simpl.
  destruct (o !! k) as [v|] eqn:Ho.
  - apply lookup_union_Some_l. exact Ho.
  - rewrite lookup_union_r by exact Ho.
    rewrite lookup_union_l by apply lookup_empty. reflexivity.
Qed.

Lemma ownerLabels_lookup (bi : BundleInstance) (k : string) :
  ownerLabels bi !! k =
  if decide (k = "core.rukpak.io/owner-kind") then Some "BundleInstance"
  else if decide (k = "core.rukpak.io/owner-name") then Some (Name bi)
  else None.
Proof.
  unfold ownerLabels.
  destruct (decide (k = "core.rukpak.io/owner-kind")) as [->|Hk].
  - rewrite lookup_insert_eq. reflexivity.
  - rewrite lookup_insert_ne by congruence.
    destruct (decide (k = "core.rukpak.io/owner-name")) as [->|Hn].
    + rewrite lookup_singleton_eq. reflexivity.
    + rewrite lookup_singleton_ne by congruence. reflexivity.
Qed.

(** What the labeler does to one object. *)
Lemma withOwnerLabels_spec (bi : BundleInstance) (obj : unstructured.Unstructured) :
  carriesOwnerLabels bi (withOwnerLabels bi obj) /\
  (forall k, k <> "core.rukpak.io/owner-kind" -> k <> "core.rukpak.io/owner-name" ->
             unstructured.GetLabels (withOwnerLabels bi obj) !! k =
             unstructured.GetLabels obj !! k) /\
  unstructured.GroupVersionKind (withOwnerLabels bi obj) = unstructured.GroupVersionKind obj /\
  unstructured.GetNamespace (withOwnerLabels bi obj) = unstructured.GetNamespace obj /\
  unstructured.GetName (withOwnerLabels bi obj) = unstructured.GetName obj /\
  unstructured.Body (withOwnerLabels bi obj) = unstructured.Body obj.
Proof.
  unfold carriesOwnerLabels, withOwnerLabels. simpl.
  repeat split.
  - rewrite MergeMaps_two, ownerLabels_lookup. reflexivity.
  - rewrite MergeMaps_two, ownerLabels_lookup. reflexivity.
  - intros k Hk Hn. rewrite MergeMaps_two, ownerLabels_lookup.
    destruct (decide (k = "core.rukpak.io/owner-kind")); [contradiction|].
    destruct (decide (k = "core.rukpak.io/owner-name")); [contradiction|].
    reflexivity.
Qed.

Lemma labelObjects_map (bi : BundleInstance)
    (objects objs : list unstructured.Unstructured) :
  labelObjects bi objects objs = (objs ++ map (withOwnerLabels bi) objects)%list.
Proof.
  revert objs. induction objects as [|obj rest IH]; intros objs; simpl.
  - rewrite app_nil_r. reflexivity.
  - rewrite IH, <- app_assoc. reflexivity.
Qed.

(** What [loadBundle] returns when it returns objects. *)
Lemma loadBundle_ok (E : Env) (bi : BundleInstance)
    (objs : list unstructured.Unstructured) :
  loadBundle E bi = Ok objs ->
  exists b objects,
    Client_GetBundle E InLoadBundle (Spec_BundleName bi) = Ok b /\
    Bundle_Status_Phase b = PhaseUnpacked /\
    BundleStorage_Load E b = Ok objects /\
    objs = map (withOwnerLabels bi) objects.
Proof.
  unfold loadBundle. intros Hload.
  destruct (Client_GetBundle E InLoadBundle (Spec_BundleName bi)) as [b|err] eqn:Hget;
    [|discriminate].
  destruct (Bundle_Status_Phase b =? PhaseUnpacked)%string eqn:Hph; [|discriminate].
  simpl in Hload.
  destruct (BundleStorage_Load E b) as [objects|err] eqn:Hobjs; [|discriminate].
  injection Hload as <-. exists b, objects.
  apply String.eqb_eq in Hph. rewrite labelObjects_map.
  repeat split; assumption.
Qed.

End labeler.

(** ** The steps of a pass *)

Section steps.
Import controllers rukpakv1alpha1 metav1 lifetime.

Lemma run_bind_next {A : Type} (m : M A) (k : A -> M (ctrl.Result * option error))
    (st st' : pass) (a : A) :
  m st = (Next a, st') -> run (m ≫= k) st = run (k a) st'.
Proof. intros Hm. unfold run, mbind, M_bind. rewrite Hm. reflexivity. Qed.

Lemma run_bind_return {A : Type} (m : M A) (k : A -> M (ctrl.Result * option error))
    (st st' : pass) (res : ctrl.Result) (err : option error) :
  m st = (Return res err, st') -> run (m ≫= k) st = ((res, err), st').
Proof. intros Hm. unfold run, mbind, M_bind. rewrite Hm. reflexivity. Qed.

Lemma keeps_refl (b : BundleInstance) : keeps b b.
Proof. repeat split. Qed.

Lemma keeps_conditions (b : BundleInstance) (cs : list Condition) :
  keeps b (SetConditions b cs).
Proof. repeat split. Qed.

Lemma keeps_trans (b1 b2 b3 : BundleInstance) :
  keeps b1 b2 -> keeps b2 b3 -> keeps b1 b3.
Proof. unfold keeps. intros (?&?&?&?) (?&?&?&?). repeat split; congruence. Qed.

Lemma quiet_refl (st : pass) : quiet st st.
Proof. repeat split. Qed.

Lemma materialize_return (E : Env) (objs : list unstructured.Unstructured)
    (chrt : chart.Chart) (st st' : pass) (res : ctrl.Result) (err : option error) :
  materialize E objs chrt st = (Return res err, st') ->
  res = ctrl.Result0 /\ (exists e, err = Some (External e)) /\ quiet st st'.
Proof.
  revert chrt. induction objs as [|obj objs IH]; intros chrt Hrun; simpl in Hrun.
  - discriminate.
  - destruct (yaml_Marshal E obj) as [jsonData|e] eqn:Hy.
    + exact (IH _ Hrun).
    + revert Hrun. exec. intros [= <- <- <-].
      split; [reflexivity|]. split; [eauto|]. repeat split.
Qed.

Lemma established_app (K : schema.GroupVersionKind) (tr evs : list event) :
  established K (tr ++ evs) = (established K tr + established K evs)%nat.
Proof. unfold established. rewrite filter_app, length_app. reflexivity. Qed.

Lemma statusPatches_app (tr evs : list event) :
  statusPatches (tr ++ evs) = (statusPatches tr ++ statusPatches evs)%list.
Proof. unfold statusPatches. apply filter_app. Qed.

(** The release applier either makes one call that goes well, or leaves
    the pass with the error of the call it made. *)
Lemma applyRelease_cases (r : BundleInstanceReconciler) (cl : helmclient.ActionInterface)
    (chrt : chart.Chart) (rel : option release.Release) (state : releaseState)
    (st : pass) :
  (exists ev,
      applied ev = true /\ appliesChart chrt ev /\
      applyRelease r cl chrt rel state st =
        (Next tt, {| bi := bi st; watched := watched st; trace := trace st ++ [ev] |})) \/
  (exists evs err st',
      applyRelease r cl chrt rel state st = (Return ctrl.Result0 (Some err), st') /\
      trace st' = (trace st ++ evs)%list /\
      Forall (appliesChart chrt) evs /\
      Forall (fun ev => applied ev = false) evs /\
      watched st' = watched st /\
      keeps (bi st) (bi st')).
Proof.
  destruct state; unfold applyRelease, applyFailed; exec.
  - destruct (helmclient.Install cl (Name (bi st)) (ReleaseNamespace r) chrt false)
      as [rel'|err] eqn:Hcall.
    + left. eexists. split; [|split; [|reflexivity]]; [reflexivity | reflexivity].
    + right. eexists [_], _, _. split; [reflexivity|]. cbn.
      repeat split; repeat constructor.
  - destruct (helmclient.Upgrade cl (Name (bi st)) (ReleaseNamespace r) chrt false)
      as [rel'|err] eqn:Hcall.
    + left. eexists. split; [|split; [|reflexivity]]; [reflexivity | reflexivity].
    + right. eexists [_], _, _. split; [reflexivity|]. cbn.
      repeat split; repeat constructor.
  - destruct (helmclient.Reconcile cl rel) as [err|] eqn:Hcall.
    + right. eexists [_], _, _. split; [reflexivity|]. cbn.
      repeat split; repeat constructor.
    + left. eexists. split; [|split; [|reflexivity]]; [reflexivity | exact I].
  - right. eexists [], _, _. split; [reflexivity|]. cbn.
    rewrite app_nil_r. repeat split; constructor.
Qed.

(** *** The watch registry *)

Lemma ensureWatched_present (E : Env) (owner : BundleInstance)
    (u : unstructured.Unstructured) (st : pass) :
  unstructured.GroupVersionKind u ∈ watched st ->
  ensureWatched E owner u st = (Next None, st).
Proof.
  intros Hin. unfold ensureWatched. rewrite bool_decide_eq_true_2 by exact Hin.
  reflexivity.
Qed.

Lemma ensureWatched_absent_failure (E : Env) (owner : BundleInstance)
    (u : unstructured.Unstructured) (st : pass) (err : ExtError) :
  unstructured.GroupVersionKind u ∉ watched st ->
  Controller_Watch E u owner = Some err ->
  ensureWatched E owner u st =
    (Next (Some err),
     {| bi := bi st; watched := watched st;
        trace := trace st ++
                 [CallWatch (unstructured.GroupVersionKind u) (Name owner) (Some err)] |}).
Proof.
  intros Hout Hw. unfold ensureWatched. rewrite bool_decide_eq_false_2 by exact Hout.
  rewrite Hw. reflexivity.
Qed.

Lemma ensureWatched_absent_success (E : Env) (owner : BundleInstance)
    (u : unstructured.Unstructured) (st : pass) :
  unstructured.GroupVersionKind u ∉ watched st ->
  Controller_Watch E u owner = None ->
  ensureWatched E owner u st =
    (Next None,
     {| bi := bi st; watched := {[ unstructured.GroupVersionKind u ]} ∪ watched st;
        trace := trace st ++
                 [CallWatch (unstructured.GroupVersionKind u) (Name owner) None] |}).
Proof.
  intros Hout Hw. unfold ensureWatched. rewrite bool_decide_eq_false_2 by exact Hout.
  rewrite Hw. reflexivity.
Qed.

Lemma established_one (K gvk : schema.GroupVersionKind) (o : string) (res : option ExtError) :
  established K [CallWatch gvk o res] =
  match res with
  | None => if bool_decide (gvk = K) then 1%nat else 0%nat
  | Some _ => 0%nat
  end.
Proof.
  unfold established. destruct res as [e|]; cbn.
  - reflexivity.
  - destruct (bool_decide (gvk = K)); reflexivity.
Qed.

(** The check and the insertion keep the registry and the trace in
    agreement. *)
Lemma ensureWatched_agrees (E : Env) (owner : BundleInstance)
    (u : unstructured.Unstructured) (st st' : pass) (res : option ExtError) :
  ensureWatched E owner u st = (Next res, st') ->
  agrees (watched st) (trace st) -> agrees (watched st') (trace st').
Proof.
  intros Hrun Hag.
  destruct (decide (unstructured.GroupVersionKind u ∈ watched st)) as [Hin|Hout].
  - rewrite ensureWatched_present in Hrun by exact Hin.
    injection Hrun as Hres <-. exact Hag.
  - destruct (Controller_Watch E u owner) as [err|] eqn:Hw.
    + rewrite (ensureWatched_absent_failure _ _ _ _ err Hout Hw) in Hrun.
      injection Hrun as Hres <-. intros K. simpl.
      rewrite established_app, established_one, Hag. lia.
    + rewrite (ensureWatched_absent_success _ _ _ _ Hout Hw) in Hrun.
      injection Hrun as Hres <-. intros K. simpl.
      rewrite established_app, established_one, Hag.
      destruct (decide (unstructured.GroupVersionKind u = K)) as [<-|Hne].
      * rewrite (bool_decide_eq_false_2 _ Hout).
        rewrite !bool_decide_eq_true_2 by (reflexivity || set_solver). reflexivity.
      * rewrite (bool_decide_eq_false_2 _ Hne).
        destruct (decide (K ∈ watched st)) as [HK|HK].
        -- rewrite (bool_decide_eq_true_2 _ HK).
           rewrite bool_decide_eq_true_2 by (apply elem_of_union_r; exact HK). lia.
        -- rewrite (bool_decide_eq_false_2 _ HK).
           rewrite bool_decide_eq_false_2; [lia|].
           intros [H1|H2]%elem_of_union; [|contradiction].
           apply elem_of_singleton in H1. congruence.
Qed.

Lemma ensureWatched_shape (E : Env) (owner : BundleInstance)
    (u : unstructured.Unstructured) (st : pass) :
  exists res st', ensureWatched E owner u st = (Next res, st').
Proof.
  unfold ensureWatched.
  destruct (bool_decide _); [eauto|].
  destruct (Controller_Watch E u owner); eauto.
Qed.

Lemma watchObjects_agrees (E : Env) (objs : list unstructured.Unstructured)
    (st : pass) :
  agrees (watched st) (trace st) ->
  agrees (watched (watchObjects E objs st).2) (trace (watchObjects E objs st).2).
Proof.
  revert st. induction objs as [|obj objs IH]; intros st Hag; simpl.
  - exact Hag.
  - destruct (ToUnstructured E obj) as [u|err] eqn:Hu.
    + exec.
      destruct (ensureWatched_shape E (bi st) u st) as (res & st1 & Hrun).
      rewrite Hrun. pose proof (ensureWatched_agrees _ _ _ _ _ _ Hrun Hag) as Hag1.
      destruct res as [err|].
      * unfold watchFailed. exec. exact Hag1.
      * apply IH. exact Hag1.
    + unfold watchFailed. exec. exact Hag.
Qed.

(** What the loop over the objects does to the pass. *)
Lemma watchObjects_run (E : Env) (objs : list unstructured.Unstructured) (st : pass) :
  exists wevs,
    let '(f, st') := watchObjects E objs st in
    trace st' = (trace st ++ wevs)%list /\
    Forall isWatch wevs /\
    keeps (bi st) (bi st') /\
    watched st ⊆ watched st' /\
    match f with
    | Next _ =>
        bi st' = bi st /\
        Forall (fun ev => isWatchFailure ev = false) wevs /\
        Forall (fun obj => exists u, ToUnstructured E obj = Ok u /\
                                     unstructured.GroupVersionKind u ∈ watched st') objs
    | Return res err =>
        res = ctrl.Result0 /\
        exists e,
          err = Some (External e) /\
          meta.FindStatusCondition (Status_Conditions (bi st')) TypeInstalled =
            Some {| Type_ := TypeInstalled; Status := ConditionFalse;
                    Reason := ReasonCreateDynamicWatchFailed;
                    Message := ext_message e |} /\
          (forall g o e', CallWatch g o (Some e') ∈ wevs -> e' = e /\ g ∉ watched st')
    end.
Proof.
  revert st. induction objs as [|obj objs IH]; intros st; simpl.
  - exists []. rewrite app_nil_r. repeat split; try constructor. set_solver.
  - destruct (ToUnstructured E obj) as [u|err] eqn:Hu.
    + exec.
      destruct (decide (unstructured.GroupVersionKind u ∈ watched st)) as [Hin|Hout].
      * rewrite ensureWatched_present by exact Hin.
        destruct (IH st) as [wevs Hrest]. exists wevs.
        destruct (watchObjects E objs st) as [[[]|res err] st'].
        -- destruct Hrest as (Htr & Hw & Hk & Hsub & Hbi & Hnf & Hall).
           split; [exact Htr|]. split; [exact Hw|]. split; [exact Hk|].
           split; [exact Hsub|]. split; [exact Hbi|]. split; [exact Hnf|].
           constructor; [|exact Hall]. exists u. split; [exact Hu|]. set_solver.
        -- exact Hrest.
      * destruct (Controller_Watch E u (bi st)) as [err|] eqn:Hw.
        -- rewrite (ensureWatched_absent_failure _ _ _ _ err Hout Hw).
           unfold watchFailed. exec.
           exists [CallWatch (unstructured.GroupVersionKind u) (Name (bi st)) (Some err)].
           split; [reflexivity|]. split; [repeat constructor|].
           split; [repeat split|]. split; [set_solver|]. split; [reflexivity|].
           exists err. split; [reflexivity|]. split.
           ++ apply (find_set_same (Status_Conditions (bi st))
                       {| Type_ := TypeInstalled; Status := ConditionFalse;
                          Reason := ReasonCreateDynamicWatchFailed;
                          Message := ext_message err |}).
           ++ intros g o e' Hin. apply list_elem_of_singleton in Hin.
              injection Hin as -> -> ->. split; [reflexivity | exact Hout].
        -- rewrite (ensureWatched_absent_success _ _ _ _ Hout Hw).
           set (st1 := {| bi := bi st;
                          watched := {[ unstructured.GroupVersionKind u ]} ∪ watched st;
                          trace := trace st ++ [CallWatch (unstructured.GroupVersionKind u)
                                                          (Name (bi st)) None] |}).
           destruct (IH st1) as [wevs Hrest].
           exists (CallWatch (unstructured.GroupVersionKind u) (Name (bi st)) None :: wevs).
           destruct (watchObjects E objs st1) as [[[]|res err] st'].
           ++ destruct Hrest as (Htr & Hwv & Hk & Hsub & Hbi & Hnf & Hall).
              simpl in Htr, Hk, Hsub, Hbi.
              split; [rewrite Htr, <- app_assoc; reflexivity|].
              split; [constructor; [exact I | exact Hwv]|].
              split; [exact Hk|]. split; [set_solver|].
              split; [exact Hbi|]. split; [constructor; [reflexivity | exact Hnf]|].
              constructor; [|exact Hall]. exists u. split; [exact Hu|]. set_solver.
           ++ destruct Hrest as (Htr & Hwv & Hk & Hsub & Hres & e & He & Hfind & Hfail).
              simpl in Htr, Hk, Hsub.
              split; [rewrite Htr, <- app_assoc; reflexivity|].
              split; [constructor; [exact I | exact Hwv]|].
              split; [exact Hk|].
              split; [transitivity ({[ unstructured.GroupVersionKind u ]} ∪ watched st);
                      [apply union_subseteq_r | exact Hsub]|].
              split; [exact Hres|]. exists e. split; [exact He|]. split; [exact Hfind|].
              intros g o e' Hin. apply elem_of_cons in Hin as [Hin|Hin]; [discriminate|].
              exact (Hfail g o e' Hin).
    + unfold watchFailed. exec. exists []. rewrite app_nil_r.
      split; [reflexivity|]. split; [constructor|].
      split; [repeat split|]. split; [set_solver|]. split; [reflexivity|].
      exists err. split; [reflexivity|]. split.
      * apply (find_set_same (Status_Conditions (bi st))
                 {| Type_ := TypeInstalled; Status := ConditionFalse;
                    Reason := ReasonCreateDynamicWatchFailed;
                    Message := ext_message err |}).
      * intros g o e' Hin. inversion Hin.
Qed.

(** *** Up to the release applier

    A pass either leaves early, with the trace and the registry as they
    were, or comes to the release applier with the objects of the bundle,
    their chart, a client and a release state. *)
Lemma reconcile_cases (E : Env) (r : BundleInstanceReconciler) (st : pass) :
  (exists b objs chrt cl rel state,
      Client_GetBundle E InReconcile (Spec_BundleName (bi st)) = Ok b /\
      loadBundle E (bi st) = Ok objs /\
      materialize E objs {| chart.Templates := [] |} st = (Next chrt, st) /\
      ActionClientFor E (SetNamespace (bi st) (ReleaseNamespace r)) = Ok cl /\
      getReleaseState r cl (SetNamespace (bi st) "") chrt = (rel, state, None) /\
      run (reconcileBundleInstance E r) st =
        run (applyAndWatch E r cl chrt rel state objs)
            {| bi := SetNamespace (bi st) ""; watched := watched st; trace := trace st |}) \/
  (exists err st',
      run (reconcileBundleInstance E r) st = ((ctrl.Result0, err), st') /\
      quiet st st').
Proof.
  unfold reconcileBundleInstance.
  rewrite (run_bind_next get_bi _ st st (bi st) eq_refl).
  destruct (Client_GetBundle E InReconcile (Spec_BundleName (bi st))) as [b|err] eqn:Hb.
  2: { right. erewrite run_bind_return by (exec; reflexivity).
       eexists _, _. split; [reflexivity | repeat split]. }
  erewrite run_bind_next by reflexivity.
  destruct (loadBundle E (bi st)) as [objs|lerr] eqn:Hl.
  2: { right. destruct (errors.As_errBundleNotUnpacked lerr);
         erewrite run_bind_return by (exec; reflexivity);
         eexists _, _; (split; [reflexivity | repeat split]). }
  erewrite run_bind_next by reflexivity.
  destruct (materialize E objs {| chart.Templates := [] |} st) as [[chrt|res err] st1] eqn:Hm.
  2: { right. pose proof (materialize_return _ _ _ _ _ _ _ Hm) as (-> & _ & Hq).
       erewrite run_bind_return by exact Hm. eauto. }
  pose proof (materialize_next _ _ _ _ _ _ Hm) as [-> _].
  erewrite run_bind_next by exact Hm.
  erewrite run_bind_next by reflexivity.
  erewrite run_bind_next by reflexivity.
  cbn zeta. erewrite run_bind_next by reflexivity.
  cbn [bi].
  destruct (ActionClientFor E (SetNamespace (bi st) (ReleaseNamespace r))) as [cl|err] eqn:Hcl.
  2: { right. erewrite run_bind_return by (exec; reflexivity).
       eexists _, _. split; [reflexivity | repeat split]. }
  erewrite run_bind_next by reflexivity.
  erewrite run_bind_next by reflexivity.
  cbn [bi].
  change (SetNamespace (SetNamespace (bi st) (ReleaseNamespace r)) "")
    with (SetNamespace (bi st) "").
  destruct (getReleaseState r cl (SetNamespace (bi st) "") chrt) as [[rel state] [err|]] eqn:Hrs.
  - right. erewrite run_bind_return by (exec; reflexivity).
    eexists _, _. split; [reflexivity | repeat split].
  - left. erewrite run_bind_next by reflexivity.
    exists b, objs, chrt, cl, rel, state. repeat split; assumption || reflexivity.
Qed.

(** *** From the release applier to the end *)

Lemma established_not_watch (K : schema.GroupVersionKind) (chrt : chart.Chart) (ev : event) :
  appliesChart chrt ev -> established K [ev] = 0%nat.
Proof. destruct ev; simpl; intros H; try contradiction; reflexivity. Qed.

Lemma agrees_apply (w : gset schema.GroupVersionKind) (tr : list event)
    (chrt : chart.Chart) (evs : list event) :
  Forall (appliesChart chrt) evs -> agrees w tr -> agrees w (tr ++ evs).
Proof.
  intros Hall Hag K. rewrite established_app, Hag.
  assert (established K evs = 0%nat) as ->; [|lia].
  induction Hall as [|ev evs Hev _ IH]; [reflexivity|].
  change (ev :: evs) with ([ev] ++ evs)%list.
  rewrite established_app, (established_not_watch K chrt ev Hev), IH. reflexivity.
Qed.

Lemma applyAndWatch_run (E : Env) (r : BundleInstanceReconciler)
    (cl : helmclient.ActionInterface) (chrt : chart.Chart)
    (rel : option release.Release) (state : releaseState)
    (objs : list unstructured.Unstructured) (st : pass) :
  exists evs,
    (run (applyAndWatch E r cl chrt rel state objs) st).1.1 = ctrl.Result0 /\
    outcomeOf E chrt objs st (run (applyAndWatch E r cl chrt rel state objs) st).2
      (run (applyAndWatch E r cl chrt rel state objs) st).1.2 evs.
Proof.
  unfold applyAndWatch.
  destruct (applyRelease_cases r cl chrt rel state st)
    as [(ev & Hok & Hch & Happ) | (aevs & err & st' & Happ & Htr & Hch & Hnok & Hw & Hk)].
  - erewrite run_bind_next by exact Happ.
    set (st1 := {| bi := bi st; watched := watched st; trace := trace st ++ [ev] |}).
    assert (Hag1 : agrees (watched st) (trace st) -> agrees (watched st1) (trace st1)).
    { intros Hag. apply (agrees_apply _ _ chrt); [repeat constructor; exact Hch | exact Hag]. }
    destruct (watchObjects_run E objs st1) as [wevs Hwr].
    pose proof (watchObjects_agrees E objs st1) as Hag2.
    destruct (watchObjects E objs st1) as [[[]|res err] st2] eqn:Hwo; simpl in Hag2.
    + destruct Hwr as (Htr & Hwv & Hk & Hsub & Hbi & Hnf & Hall).
      erewrite run_bind_next by exact Hwo.
      erewrite run_bind_next by reflexivity.
      erewrite run_bind_next by reflexivity.
      unfold run, mret, M_ret. cbn [fst snd bi watched trace].
      exists (ev :: wevs). split; [reflexivity|]. split.
      * rewrite Htr. simpl. rewrite <- app_assoc. reflexivity.
      * exact Hsub.
      * constructor; [left; exact Hch|].
        eapply Forall_impl; [exact Hwv|]. intros x Hx. right. exact Hx.
      * intros Hag. auto.
      * intros g o e Hin. exfalso.
        apply elem_of_cons in Hin as [Hin|Hin].
        -- subst ev. discriminate Hok.
        -- rewrite Forall_forall in Hnf. specialize (Hnf _ Hin). discriminate Hnf.
      * right. split; [reflexivity|]. split; [rewrite Hbi; reflexivity|].
        split; [|exact Hall].
        exists ev, wevs. repeat split; assumption.
    + destruct Hwr as (Htr & Hwv & Hk & Hsub & Hres & e & He & Hfind & Hfail).
      erewrite run_bind_return by exact Hwo. cbn [fst snd].
      exists (ev :: wevs). split; [exact Hres|]. split.
      * rewrite Htr. simpl. rewrite <- app_assoc. reflexivity.
      * exact Hsub.
      * constructor; [left; exact Hch|].
        eapply Forall_impl; [exact Hwv|]. intros x Hx. right. exact Hx.
      * intros Hag. auto.
      * intros g o e' Hin.
        apply elem_of_cons in Hin as [Hin|Hin].
        -- subst ev. discriminate Hok.
        -- destruct (Hfail g o e' Hin) as [-> Hout]. auto.
      * left. split; [rewrite He; discriminate | exact Hk].
  - erewrite run_bind_return by exact Happ. cbn [fst snd].
    exists aevs. split; [reflexivity|]. split.
    + exact Htr.
    + rewrite Hw. reflexivity.
    + eapply Forall_impl; [exact Hch|]. intros x Hx. left. exact Hx.
    + intros Hag. rewrite Hw, Htr. apply (agrees_apply _ _ chrt); assumption.
    + intros g o e Hin. exfalso.
      rewrite Forall_forall in Hch. specialize (Hch _ Hin). exact Hch.
    + left. split; [discriminate | exact Hk].
Qed.

(** *** The whole pass *)

Lemma Reconcile_fetched (E : Env) (r : BundleInstanceReconciler)
    (req : types.NamespacedName) (tr : list event) (b0 : BundleInstance) :
  Client_GetBundleInstance E req = Ok b0 ->
  Reconcile E r req tr =
    ((run (reconcileBundleInstance E r) (entry r tr b0)).1,
     {| ReleaseNamespace := ReleaseNamespace r;
        dynamicWatchGVKs := watched (run (reconcileBundleInstance E r) (entry r tr b0)).2 |},
     (trace (run (reconcileBundleInstance E r) (entry r tr b0)).2 ++
      patchStatus E (bi (run (reconcileBundleInstance E r) (entry r tr b0)).2) ++
      [LogInfo "ending reconciliation"])%list).
Proof.
  intros Hbi. unfold Reconcile. rewrite Hbi. fold (entry r tr b0).
  destruct (run (reconcileBundleInstance E r) (entry r tr b0)) as [ret st']. reflexivity.
Qed.

Lemma Reconcile_not_fetched (E : Env) (r : BundleInstanceReconciler)
    (req : types.NamespacedName) (tr : list event) (err : ExtError) :
  Client_GetBundleInstance E req = Fail err ->
  Reconcile E r req tr =
    ((ctrl.Result0, client.IgnoreNotFound (External err)), r,
     (tr ++ [LogInfo "starting reconciliation"; LogInfo "ending reconciliation"])%list).
Proof.
  intros Hbi. unfold Reconcile. rewrite Hbi, <- app_assoc. reflexivity.
Qed.

(** Either the pass left before the release applier, and added nothing to
    the trace, or it went through the applier with the chart of the
    labelled objects of the bundle. *)
Lemma reconcile_run (E : Env) (r : BundleInstanceReconciler) (st : pass) :
  (run (reconcileBundleInstance E r) st).1.1 = ctrl.Result0 /\
  (quiet st (run (reconcileBundleInstance E r) st).2 \/
   exists objs chrt evs,
     loadBundle E (bi st) = Ok objs /\
     materialize E objs {| chart.Templates := [] |} st = (Next chrt, st) /\
     outcomeOf E chrt objs
       {| bi := SetNamespace (bi st) ""; watched := watched st; trace := trace st |}
       (run (reconcileBundleInstance E r) st).2
       (run (reconcileBundleInstance E r) st).1.2 evs).
Proof.
  destruct (reconcile_cases E r st)
    as [(b & objs & chrt & cl & rel & state & Hb & Hl & Hm & Hcl & Hrs & Hrun)
       | (err & st' & Hrun & Hq)].
  - rewrite Hrun.
    destruct (applyAndWatch_run E r cl chrt rel state objs
                {| bi := SetNamespace (bi st) ""; watched := watched st; trace := trace st |})
      as (evs & Hres & Hout).
    split; [exact Hres|]. right. exists objs, chrt, evs. auto.
  - rewrite Hrun. split; [reflexivity|]. left. exact Hq.
Qed.

End steps.

(** ** The recorded bundle name *)

Section installed_bundle_name.
Import controllers rukpakv1alpha1 metav1 lifetime.

(** C3. The BundleInstance that a pass patches carries a new
    [Status.InstalledBundleName] only when the pass returned no error, after
    a call of the release applier that went well and after every object's
    kind was found or put in the watch registry; on every exit with an error
    the name is the one the pass started with. *)
Theorem Reconcile_installed_bundle_name
    (E : Env) (r r' : BundleInstanceReconciler) (req : types.NamespacedName)
    (tr tr' : list event) (b0 : BundleInstance)
    (res : ctrl.Result) (err : option error) :
  Client_GetBundleInstance E req = Ok b0 ->
  Reconcile E r req tr = ((res, err), r', tr') ->
  exists evs b',
    tr' = (tr ++ [LogInfo "starting reconciliation"] ++ evs ++ patchStatus E b' ++
           [LogInfo "ending reconciliation"])%list /\
    (Status_InstalledBundleName b' = Status_InstalledBundleName b0 \/
     (err = None /\
      Status_InstalledBundleName b' = Spec_BundleName b0 /\
      exists objs ev wevs,
        loadBundle E b0 = Ok objs /\
        evs = ev :: wevs /\ applied ev = true /\
        Forall isWatch wevs /\ Forall (fun ev => isWatchFailure ev = false) wevs /\
        watchedAll E objs (dynamicWatchGVKs r'))) /\
    (err <> None -> Status_InstalledBundleName b' = Status_InstalledBundleName b0).
Proof.
  intros Hbi Hrun. rewrite (Reconcile_fetched _ _ _ _ _ Hbi) in Hrun.
  destruct (reconcile_run E r (entry r tr b0)) as [_ Hcases].
  destruct (run (reconcileBundleInstance E r) (entry r tr b0)) as [[res0 err0] st'].
  cbn [fst snd] in *. injection Hrun as <- <- <- <-.
  exists (drop (length (tr ++ [LogInfo "starting reconciliation"])) (trace st')), (bi st').
  destruct Hcases as [(Htr & _ & _ & _ & _ & Hname)
                     | (objs & chrt & evs & Hl & Hm & [Htr _ _ _ _ Hend])].
  - cbn [entry trace bi] in *.
    rewrite Htr, drop_all. cbn [app]. split; [rewrite <- app_assoc; reflexivity|].
    split; [left; exact Hname | intros _; exact Hname].
  - cbn [entry trace bi watched] in *.
    rewrite Htr, drop_app_length. split; [rewrite <- !app_assoc; reflexivity|].
    destruct Hend as [[Herr (_ & _ & _ & Hname)]
                     | (-> & Hbi' & (ev & wevs & -> & Hok & Hw & Hnf) & Hall)].
    + split; [left; exact Hname | intros _; exact Hname].
    + split; [|intros Hne; contradiction].
      right. split; [reflexivity|]. split; [rewrite Hbi'; reflexivity|].
      exists objs, ev, wevs. repeat split; assumption.
Qed.

End installed_bundle_name.

Lemma Reconcile_installed_bundle_name_witness :
  let '((res, err), r', tr') := controllers.Reconcile world.fresh world.r0 world.req_a [] in
  exists evs b',
    tr' = ([] ++ [controllers.LogInfo "starting reconciliation"] ++ evs ++
           controllers.patchStatus world.fresh b' ++
           [controllers.LogInfo "ending reconciliation"])%list /\
    (rukpakv1alpha1.Status_InstalledBundleName b' = "" \/
     (err = None /\ rukpakv1alpha1.Status_InstalledBundleName b' = "pkg-a")).
Proof.
  destruct (controllers.Reconcile world.fresh world.r0 world.req_a [])
    as [[[res err] r'] tr'] eqn:Hrun.
  destruct (Reconcile_installed_bundle_name world.fresh world.r0 r' world.req_a [] tr'
              world.inst_a res err eq_refl Hrun) as (evs & b' & Htr & Hname & _).
  exists evs, b'. split; [exact Htr|].
  destruct Hname as [Hname | (Herr & Hname & _)]; [left | right; split]; assumption.
Defined.

(** A first pass over [pkg-a]: the release is not found, the chart of the
    two ConfigMaps is installed, their kind is subscribed to once, and the
    patch records the bundle. *)
Example first_pass_installs :
  (controllers.Reconcile world.fresh world.r0 world.req_a []).1.1 = (ctrl.Result0, None) /\
  elements (controllers.dynamicWatchGVKs
              (controllers.Reconcile world.fresh world.r0 world.req_a []).1.2) =
    [world.configMapKind] /\
  map world.describe (controllers.Reconcile world.fresh world.r0 world.req_a []).2 =
    [ "starting reconciliation";
      "install inst-a in rukpak-system: object-c6e6d2fa288ea51f.yaml object-92d7f4877dafe310.yaml";
      "watch ConfigMap for inst-a";
      "patch installed=pkg-a Installed=True/InstallationSucceeded";
      "ending reconciliation" ].
Proof. vm_compute. repeat split. Qed.

(** A second pass with nothing changed heals the release: no Install, no
    Upgrade, and no second subscription. *)
Example second_pass_heals :
  map world.describe
    (lifetime.runPasses [(world.fresh, world.req_a); (world.settled, world.req_a)]
       world.r0 []).2 =
    [ "starting reconciliation";
      "install inst-a in rukpak-system: object-c6e6d2fa288ea51f.yaml object-92d7f4877dafe310.yaml";
      "watch ConfigMap for inst-a";
      "patch installed=pkg-a Installed=True/InstallationSucceeded";
      "ending reconciliation";
      "starting reconciliation";
      "reconcile";
      "patch installed=pkg-a Installed=True/InstallationSucceeded";
      "ending reconciliation" ].
Proof. vm_compute. reflexivity. Qed.

(** A release of other content is upgraded. *)
Example changed_content_upgrades :
  map world.describe (controllers.Reconcile world.changed world.r0 world.req_a []).2 =
    [ "starting reconciliation";
      "upgrade inst-a in rukpak-system: object-c6e6d2fa288ea51f.yaml object-92d7f4877dafe310.yaml";
      "watch ConfigMap for inst-a";
      "patch installed=pkg-a Installed=True/InstallationSucceeded";
      "ending reconciliation" ].
Proof. vm_compute. reflexivity. Qed.

(** A subscription that fails: the pass returns the error, the kind is not
    registered, the bundle is not recorded. *)
Example failed_watch_aborts :
  (controllers.Reconcile world.unwatchable world.r0 world.req_a []).1.1 =
    (ctrl.Result0, Some (External (world.failure "no matches for kind"))) /\
  elements (controllers.dynamicWatchGVKs
              (controllers.Reconcile world.unwatchable world.r0 world.req_a []).1.2) = [] /\
  map world.describe (controllers.Reconcile world.unwatchable world.r0 world.req_a []).2 =
    [ "starting reconciliation";
      "install inst-a in rukpak-system: object-c6e6d2fa288ea51f.yaml object-92d7f4877dafe310.yaml";
      "watch ConfigMap for inst-a: no matches for kind";
      "patch installed= Installed=False/CreateDynamicWatchFailed";
      "ending reconciliation" ].
Proof. vm_compute. repeat split. Qed.

(** ** The watch registry over the life of the process *)

Section registry.
Import controllers rukpakv1alpha1 metav1 lifetime.

Lemma established_zero (K : schema.GroupVersionKind) (evs : list event) :
  Forall (fun ev => isEstablished K ev = false) evs -> established K evs = 0%nat.
Proof.
  intros Hall. induction Hall as [|ev evs Hev _ IH]; [reflexivity|].
  change (ev :: evs) with ([ev] ++ evs)%list. rewrite established_app, IH.
  unfold established. cbn. rewrite Hev. reflexivity.
Qed.

Lemma patchStatus_not_established (E : Env) (b : BundleInstance)
    (K : schema.GroupVersionKind) :
  Forall (fun ev => isEstablished K ev = false) (patchStatus E b).
Proof.
  unfold patchStatus. destruct (Client_StatusPatch E _); repeat constructor.
Qed.

Lemma agrees_quiet (w : gset schema.GroupVersionKind) (tr evs : list event) :
  (forall K, Forall (fun ev => isEstablished K ev = false) evs) ->
  agrees w tr -> agrees w (tr ++ evs).
Proof.
  intros Hq Hag K. rewrite established_app, (established_zero K evs (Hq K)), Hag. lia.
Qed.

(** A pass keeps the registry and the trace in agreement. *)
Lemma Reconcile_agrees (E : Env) (r : BundleInstanceReconciler)
    (req : types.NamespacedName) (tr : list event) :
  agrees (dynamicWatchGVKs r) tr ->
  agrees (dynamicWatchGVKs (Reconcile E r req tr).1.2) (Reconcile E r req tr).2.
Proof.
  intros Hag.
  destruct (Client_GetBundleInstance E req) as [b0|err] eqn:Hbi.
  - rewrite (Reconcile_fetched _ _ _ _ _ Hbi). cbn [fst snd dynamicWatchGVKs].
    assert (Hag0 : agrees (watched (entry r tr b0)) (trace (entry r tr b0))).
    { apply agrees_quiet; [intros K; repeat constructor | exact Hag]. }
    destruct (reconcile_run E r (entry r tr b0)) as [_ Hcases].
    destruct (run (reconcileBundleInstance E r) (entry r tr b0)) as [[res0 err0] st'].
    cbn [fst snd] in *.
    assert (Hag' : agrees (watched st') (trace st')).
    { destruct Hcases as [(Htr & Hw & _) | (objs & chrt & evs & _ & _ & [_ _ _ Hk _ _])].
      - rewrite Htr, Hw. exact Hag0.
      - apply Hk. exact Hag0. }
    apply agrees_quiet; [|exact Hag'].
    intros K. apply Forall_app. split; [apply patchStatus_not_established|].
    repeat constructor.
  - rewrite (Reconcile_not_fetched _ _ _ _ _ Hbi). cbn [fst snd].
    apply agrees_quiet; [intros K; repeat constructor | exact Hag].
Qed.

Lemma runPasses_agrees (passes : list (Env * types.NamespacedName))
    (r : BundleInstanceReconciler) (tr : list event) :
  agrees (dynamicWatchGVKs r) tr ->
  agrees (dynamicWatchGVKs (runPasses passes r tr).1) (runPasses passes r tr).2.
Proof.
  revert r tr. induction passes as [|[E req] passes IH]; intros r tr Hag; simpl.
  - exact Hag.
  - pose proof (Reconcile_agrees E r req tr Hag) as Hag1.
    destruct (Reconcile E r req tr) as [[ret r1] tr1]. apply IH. exact Hag1.
Qed.

Lemma agrees_start (ns : string) : agrees (dynamicWatchGVKs (SetupWithManager ns)) [].
Proof. intros K. reflexivity. Qed.

Lemma no_watch_in_tail (E : Env) (b : BundleInstance) (s : string)
    (g : schema.GroupVersionKind) (o : string) (res : option ExtError) :
  CallWatch g o res ∉ (patchStatus E b ++ [LogInfo s])%list.
Proof.
  intros Hin. apply elem_of_app in Hin as [Hin|Hin].
  - unfold patchStatus in Hin.
    destruct (Client_StatusPatch E _);
      repeat (apply elem_of_cons in Hin as [Hin|Hin]; [discriminate|]);
      inversion Hin.
  - apply list_elem_of_singleton in Hin. discriminate.
Qed.

(** A failed subscription, seen from the whole pass. *)
Lemma Reconcile_watch_failure (E : Env) (r r' : BundleInstanceReconciler)
    (req : types.NamespacedName) (tr tr' : list event)
    (res : ctrl.Result) (err : option error) :
  Reconcile E r req tr = ((res, err), r', tr') ->
  exists news,
    tr' = (tr ++ news)%list /\
    forall g o e, CallWatch g o (Some e) ∈ news ->
      err = Some (External e) /\ (g ∉ dynamicWatchGVKs r') /\
      exists b' p,
        CallStatusPatch b' plainBundleProvisionerID p ∈ news /\
        meta.FindStatusCondition (Status_Conditions b') TypeInstalled =
          Some (createDynamicWatchFailed e).
Proof.
  intros Hrun.
  destruct (Client_GetBundleInstance E req) as [b0|e0] eqn:Hbi.
  - rewrite (Reconcile_fetched _ _ _ _ _ Hbi) in Hrun.
    destruct (reconcile_run E r (entry r tr b0)) as [_ Hcases].
    destruct (run (reconcileBundleInstance E r) (entry r tr b0)) as [[res0 err0] st'].
    cbn [fst snd] in *. injection Hrun as <- <- <- <-.
    destruct Hcases as [(Htr & _) | (objs & chrt & evs & _ & _ & [Htr _ _ _ Hfail _])];
      cbn [entry trace] in Htr; rewrite Htr.
    + exists ([LogInfo "starting reconciliation"] ++
              patchStatus E (bi st') ++ [LogInfo "ending reconciliation"])%list.
      split; [rewrite <- app_assoc; reflexivity|].
      intros g o e Hin. exfalso.
      apply elem_of_app in Hin as [Hin|Hin].
      * apply list_elem_of_singleton in Hin. discriminate.
      * exact (no_watch_in_tail _ _ _ _ _ _ Hin).
    + exists ([LogInfo "starting reconciliation"] ++ evs ++
              patchStatus E (bi st') ++ [LogInfo "ending reconciliation"])%list.
      split; [rewrite <- !app_assoc; reflexivity|].
      intros g o e Hin.
      apply elem_of_app in Hin as [Hin|Hin];
        [apply list_elem_of_singleton in Hin; discriminate|].
      apply elem_of_app in Hin as [Hin|Hin];
        [|exfalso; exact (no_watch_in_tail _ _ _ _ _ _ Hin)].
      destruct (Hfail g o e Hin) as (He & Hg & Hfind).
      split; [exact He|]. split; [exact Hg|].
      exists (SetManagedFields (bi st') []),
             (Client_StatusPatch E (SetManagedFields (bi st') [])).
      split; [|exact Hfind].
      apply elem_of_app. right. apply elem_of_app. right.
      apply elem_of_app. left. unfold patchStatus. apply elem_of_cons. left. reflexivity.
  - rewrite (Reconcile_not_fetched _ _ _ _ _ Hbi) in Hrun.
    injection Hrun as <- <- <- <-.
    eexists. split; [reflexivity|].
    intros g o e Hin. exfalso.
    repeat (apply elem_of_cons in Hin as [Hin|Hin]; [discriminate|]). inversion Hin.
Qed.

(** C4. A kind that is in the registry is not subscribed to again and the
    registry stays as it is; a kind that is not in it and whose
    subscription fails is not put in, the pass sets Installed to False with
    reason CreateDynamicWatchFailed and returns the error; and over any
    sequence of passes from [SetupWithManager] no kind has more than one
    established subscription, the kinds with one being those of the
    registry. *)
Theorem dynamic_watch_registered_once :
  (forall E owner u st,
      unstructured.GroupVersionKind u ∈ watched st ->
      ensureWatched E owner u st = (Next None, st)) /\
  (forall E owner u st err,
      unstructured.GroupVersionKind u ∉ watched st ->
      Controller_Watch E u owner = Some err ->
      exists st',
        ensureWatched E owner u st = (Next (Some err), st') /\
        watched st' = watched st /\ bi st' = bi st /\
        established (unstructured.GroupVersionKind u) (trace st') =
          established (unstructured.GroupVersionKind u) (trace st)) /\
  (forall E r r' req tr tr' res err,
      Reconcile E r req tr = ((res, err), r', tr') ->
      exists news,
        tr' = (tr ++ news)%list /\
        forall g o e, CallWatch g o (Some e) ∈ news ->
          err = Some (External e) /\ (g ∉ dynamicWatchGVKs r') /\
          exists b' p,
            CallStatusPatch b' plainBundleProvisionerID p ∈ news /\
            meta.FindStatusCondition (Status_Conditions b') TypeInstalled =
              Some (createDynamicWatchFailed e)) /\
  (forall passes ns K,
      (established K (runPasses passes (SetupWithManager ns) []).2 <= 1)%nat /\
      (K ∈ dynamicWatchGVKs (runPasses passes (SetupWithManager ns) []).1 <->
       established K (runPasses passes (SetupWithManager ns) []).2 = 1%nat)).
Proof.
  split; [|split; [|split]].
  - intros E owner u st Hin. apply ensureWatched_present. exact Hin.
  - intros E owner u st err Hout Hw.
    rewrite (ensureWatched_absent_failure _ _ _ _ err Hout Hw).
    eexists. split; [reflexivity|]. cbn [watched bi trace].
    split; [reflexivity|]. split; [reflexivity|].
    rewrite established_app, established_one. lia.
  - intros E r r' req tr tr' res err Hrun.
    exact (Reconcile_watch_failure _ _ _ _ _ _ _ _ Hrun).
  - intros passes ns K.
    pose proof (runPasses_agrees passes (SetupWithManager ns) [] (agrees_start ns) K) as Hag.
    rewrite Hag. destruct (decide (K ∈ dynamicWatchGVKs (runPasses passes (SetupWithManager ns) []).1))
      as [Hin|Hout].
    + rewrite (bool_decide_eq_true_2 _ Hin). split; [lia|]. split; auto.
    + rewrite (bool_decide_eq_false_2 _ Hout). split; [lia|]. split; [contradiction | discriminate].
Qed.

End registry.

Lemma dynamic_watch_registered_once_witness :
  (lifetime.established world.configMapKind
     (lifetime.runPasses [(world.fresh, world.req_a); (world.fresh, world.req_a)]
        (controllers.SetupWithManager "rukpak-system") []).2 <= 1)%nat.
Proof.
  apply (proj1 (proj2 (proj2 (proj2 dynamic_watch_registered_once))
                  [(world.fresh, world.req_a); (world.fresh, world.req_a)]
                  "rukpak-system" world.configMapKind)).
Defined.

(** ** The status patch *)

Section status_patch.
Import controllers rukpakv1alpha1 metav1 lifetime.

Lemma reconcile_withStatusPatch (E : Env)
    (patch : BundleInstance -> option ExtError) (r : BundleInstanceReconciler) :
  reconcileBundleInstance (withStatusPatch E patch) r = reconcileBundleInstance E r.
Proof. reflexivity. Qed.

Lemma statusPatches_backend (chrt : chart.Chart) (evs : list event) :
  Forall (fun ev => appliesChart chrt ev \/ isWatch ev) evs -> statusPatches evs = [].
Proof.
  intros Hall. induction Hall as [|ev evs Hev _ IH]; [reflexivity|].
  change (ev :: evs) with ([ev] ++ evs)%list. rewrite statusPatches_app, IH.
  destruct ev; try reflexivity; destruct Hev as [[]|[]].
Qed.

(** C9, as amended. Once the BundleInstance has been fetched, the pass
    attempts one status patch, after everything else, with the
    BundleInstance as the pass leaves it; when the patch fails, its error
    is logged with "failed to patch status" right after the attempt, and
    nothing else of the pass is logged as an error; what [Reconcile]
    returns and what it does to the registry is the same whatever the
    patch answers; when the fetch of the BundleInstance fails, [Reconcile]
    returns without a status patch. *)
Theorem Reconcile_status_patch_once
    (E : Env) (r : BundleInstanceReconciler) (req : types.NamespacedName)
    (tr : list event) :
  (forall patch,
      (Reconcile (withStatusPatch E patch) r req tr).1 = (Reconcile E r req tr).1) /\
  (forall b0,
      Client_GetBundleInstance E req = Ok b0 ->
      exists evs b',
        (Reconcile E r req tr).2 =
          (tr ++ [LogInfo "starting reconciliation"] ++ evs ++ patchStatus E b' ++
           [LogInfo "ending reconciliation"])%list /\
        b' = bi (run (reconcileBundleInstance E r) (entry r tr b0)).2 /\
        statusPatches evs = [] /\
        statusPatches (patchStatus E b') =
          [CallStatusPatch (SetManagedFields b' []) plainBundleProvisionerID
             (Client_StatusPatch E (SetManagedFields b' []))] /\
        (forall perr,
            Client_StatusPatch E (SetManagedFields b' []) = Some perr ->
            patchStatus E b' =
              [CallStatusPatch (SetManagedFields b' []) plainBundleProvisionerID (Some perr);
               LogError perr "failed to patch status"]) /\
        (Client_StatusPatch E (SetManagedFields b' []) = None ->
         patchStatus E b' =
           [CallStatusPatch (SetManagedFields b' []) plainBundleProvisionerID None]) /\
        (forall e msg, LogError e msg ∉ evs)) /\
  (forall err,
      Client_GetBundleInstance E req = Fail err ->
      Reconcile E r req tr =
        ((ctrl.Result0, client.IgnoreNotFound (External err)), r,
         (tr ++ [LogInfo "starting reconciliation"; LogInfo "ending reconciliation"])%list)).
Proof.
  split; [|split].
  - intros patch. unfold Reconcile. cbn [withStatusPatch Client_GetBundleInstance].
    destruct (Client_GetBundleInstance E req) as [b0|err]; [|reflexivity].
    rewrite reconcile_withStatusPatch.
    destruct (run (reconcileBundleInstance E r) _) as [ret st']. reflexivity.
  - intros b0 Hbi. rewrite (Reconcile_fetched _ _ _ _ _ Hbi). cbn [snd].
    destruct (reconcile_run E r (entry r tr b0)) as [_ Hcases].
    destruct (run (reconcileBundleInstance E r) (entry r tr b0)) as [[res0 err0] st'].
    cbn [fst snd] in *.
    assert (Hpatch : forall b, statusPatches (patchStatus E b) =
              [CallStatusPatch (SetManagedFields b []) plainBundleProvisionerID
                 (Client_StatusPatch E (SetManagedFields b []))]).
    { intros b. unfold patchStatus. destruct (Client_StatusPatch E _); reflexivity. }
    assert (Hlog : forall b,
              (forall perr,
                  Client_StatusPatch E (SetManagedFields b []) = Some perr ->
                  patchStatus E b =
                    [CallStatusPatch (SetManagedFields b []) plainBundleProvisionerID (Some perr);
                     LogError perr "failed to patch status"]) /\
              (Client_StatusPatch E (SetManagedFields b []) = None ->
               patchStatus E b =
                 [CallStatusPatch (SetManagedFields b []) plainBundleProvisionerID None])).
    { intros b. unfold patchStatus. split; [intros perr Hp | intros Hp]; rewrite Hp; reflexivity. }
    destruct Hcases as [(Htr & _) | (objs & chrt & evs & _ & _ & [Htr _ Hevs _ _ _])];
      cbn [entry trace] in Htr; rewrite Htr.
    + exists [], (bi st'). split; [rewrite <- app_assoc; reflexivity|].
      split; [reflexivity|]. split; [reflexivity|]. split; [apply Hpatch|].
      split; [apply Hlog|]. split; [apply Hlog|].
      intros e msg Hin. inversion Hin.
    + exists evs, (bi st'). split; [rewrite <- !app_assoc; reflexivity|].
      split; [reflexivity|]. split; [exact (statusPatches_backend chrt evs Hevs)|].
      split; [apply Hpatch|]. split; [apply Hlog|]. split; [apply Hlog|].
      intros e msg Hin. rewrite Forall_forall in Hevs.
      destruct (Hevs _ Hin) as [[]|[]].
  - intros err Hbi. exact (Reconcile_not_fetched _ _ _ _ _ Hbi).
Qed.

End status_patch.

(** A pass that cannot fetch its BundleInstance returns the error and
    attempts no status patch. *)
Lemma Reconcile_exit_without_status_patch :
  (controllers.Reconcile world.unreachable world.r0 world.req_a []).1.1 =
    (ctrl.Result0, Some (External (world.failure "context deadline exceeded"))) /\
  lifetime.statusPatches (controllers.Reconcile world.unreachable world.r0 world.req_a []).2 = [].
Proof. split; reflexivity. Qed.

(** A pass whose status patch is refused: the error is logged, and the
    pass returns what it returns when the patch goes through. *)
Example failed_patch_is_logged :
  (controllers.Reconcile world.conflicting world.r0 world.req_a []).1 =
    (controllers.Reconcile world.fresh world.r0 world.req_a []).1 /\
  map world.describe
    (drop 3 (controllers.Reconcile world.conflicting world.r0 world.req_a []).2) =
    [ "patch installed=pkg-a Installed=True/InstallationSucceeded";
      "failed to patch status: conflict";
      "ending reconciliation" ].
Proof. split; vm_compute; reflexivity. Qed.

Lemma Reconcile_status_patch_once_witness :
  exists evs b',
    (controllers.Reconcile world.conflicting world.r0 world.req_a []).2 =
      ([] ++ [controllers.LogInfo "starting reconciliation"] ++ evs ++
       controllers.patchStatus world.conflicting b' ++
       [controllers.LogInfo "ending reconciliation"])%list /\
    lifetime.statusPatches evs = [] /\
    controllers.patchStatus world.conflicting b' =
      [controllers.CallStatusPatch (rukpakv1alpha1.SetManagedFields b' [])
         controllers.plainBundleProvisionerID (Some (world.failure "conflict"));
       controllers.LogError (world.failure "conflict") "failed to patch status"].
Proof.
  destruct (proj1 (proj2 (Reconcile_status_patch_once world.conflicting world.r0
                            world.req_a []))
              world.inst_a eq_refl) as (evs & b' & Htr & _ & Hevs & _ & Hlog & _).
  exists evs, b'. split; [exact Htr|]. split; [exact Hevs|].
  apply Hlog. reflexivity.
Defined.

(** ** Owner labels on everything that is installed *)

Section owner_labels.
Import controllers rukpakv1alpha1 metav1 lifetime.

Lemma Forall2_map_r {A B : Type} (P : A -> B -> Prop) (f : A -> B) (l : list A) :
  (forall x, P x (f x)) -> Forall2 P l (map f l).
Proof. intros HP. induction l; simpl; constructor; auto. Qed.

Lemma Forall_map_labelled (b0 : BundleInstance) (objects : list unstructured.Unstructured) :
  Forall (carriesOwnerLabels b0) (map (withOwnerLabels b0) objects).
Proof.
  induction objects as [|obj objects IH]; simpl; constructor; [|exact IH].
  apply (withOwnerLabels_spec b0 obj).
Qed.

(** C6. Every object that [loadBundle] returns is the stored object with
    the labels owner-kind = "BundleInstance" and owner-name = the name of
    the BundleInstance merged in: both labels are there, every other label
    is as it was stored, and so is the rest of the object; and every chart
    that a pass hands to Install or Upgrade is made of the serialized forms
    of these labelled objects. *)
Theorem loadBundle_owner_labels (E : Env) (b0 : BundleInstance) :
  (forall objs,
      loadBundle E b0 = Ok objs ->
      exists b objects,
        Client_GetBundle E InLoadBundle (Spec_BundleName b0) = Ok b /\
        BundleStorage_Load E b = Ok objects /\
        Forall2
          (fun stored obj =>
             unstructured.GetLabels obj !! "core.rukpak.io/owner-kind" =
               Some "BundleInstance" /\
             unstructured.GetLabels obj !! "core.rukpak.io/owner-name" = Some (Name b0) /\
             (forall k, k <> "core.rukpak.io/owner-kind" ->
                        k <> "core.rukpak.io/owner-name" ->
                        unstructured.GetLabels obj !! k =
                        unstructured.GetLabels stored !! k) /\
             unstructured.GroupVersionKind obj = unstructured.GroupVersionKind stored /\
             unstructured.GetNamespace obj = unstructured.GetNamespace stored /\
             unstructured.GetName obj = unstructured.GetName stored /\
             unstructured.Body obj = unstructured.Body stored)
          objects objs) /\
  (forall r req tr,
      Client_GetBundleInstance E req = Ok b0 ->
      exists news,
        (Reconcile E r req tr).2 = (tr ++ news)%list /\
        forall ev chrt,
          ev ∈ news -> eventChart ev = Some chrt ->
          exists objs,
            loadBundle E b0 = Ok objs /\
            Forall (carriesOwnerLabels b0) objs /\
            Forall2 (templateOf E) objs (chart.Templates chrt)).
Proof.
  split.
  - intros objs Hload.
    apply loadBundle_ok in Hload as (b & objects & Hb & _ & Hobjs & ->).
    exists b, objects. split; [exact Hb|]. split; [exact Hobjs|].
    apply Forall2_map_r. intros stored.
    destruct (withOwnerLabels_spec b0 stored) as ([Hk Hn] & Hrest).
    split; [exact Hk|]. split; [exact Hn|]. exact Hrest.
  - intros r req tr Hbi. rewrite (Reconcile_fetched _ _ _ _ _ Hbi). cbn [snd].
    destruct (reconcile_run E r (entry r tr b0)) as [_ Hcases].
    destruct (run (reconcileBundleInstance E r) (entry r tr b0)) as [[res0 err0] st'].
    cbn [fst snd] in *.
    assert (Htail : forall ev chrt,
               ev ∈ (patchStatus E (bi st') ++ [LogInfo "ending reconciliation"])%list ->
               eventChart ev = Some chrt -> False).
    { intros ev chrt Hin Hc. apply elem_of_app in Hin as [Hin|Hin].
      - unfold patchStatus in Hin. destruct (Client_StatusPatch E _);
          repeat (apply elem_of_cons in Hin as [->|Hin]; [discriminate|]); inversion Hin.
      - apply list_elem_of_singleton in Hin. subst ev. discriminate. }
    destruct Hcases as [(Htr & _) | (objs & chrt0 & evs & Hl & Hm & [Htr _ Hevs _ _ _])];
      cbn [entry trace bi] in *; rewrite Htr.
    + exists ([LogInfo "starting reconciliation"] ++
              patchStatus E (bi st') ++ [LogInfo "ending reconciliation"])%list.
      split; [rewrite <- app_assoc; reflexivity|].
      intros ev chrt Hin Hc. exfalso.
      apply elem_of_app in Hin as [Hin|Hin]; [|exact (Htail _ _ Hin Hc)].
      apply list_elem_of_singleton in Hin. subst ev. discriminate.
    + exists ([LogInfo "starting reconciliation"] ++ evs ++
              patchStatus E (bi st') ++ [LogInfo "ending reconciliation"])%list.
      split; [rewrite <- !app_assoc; reflexivity|].
      intros ev chrt Hin Hc.
      apply elem_of_app in Hin as [Hin|Hin];
        [apply list_elem_of_singleton in Hin; subst ev; discriminate|].
      apply elem_of_app in Hin as [Hin|Hin]; [|exfalso; exact (Htail _ _ Hin Hc)].
      rewrite Forall_forall in Hevs. specialize (Hevs ev Hin).
      assert (chrt = chrt0) as ->.
      { destruct ev; try discriminate; destruct Hevs as [Hev|[]];
          simpl in Hev, Hc; congruence. }
      exists objs. split; [exact Hl|]. split.
      * apply loadBundle_ok in Hl as (b & objects & _ & _ & _ & ->).
        apply Forall_map_labelled.
      * exact (proj1 (materialize_names_from_digest_aux _ _ _ _ _ Hm)).
Qed.

End owner_labels.

(** A stored object that has labels of its own, one of them an owner
    label of somebody else. *)
Example labels_merged :
  let stored :=
    unstructured.SetLabels (world.configMap "settings")
      {[ "app" := "web"; "core.rukpak.io/owner-name" := "somebody" ]} in
  let obj := controllers.withOwnerLabels world.inst_a stored in
  unstructured.GetLabels obj !! "app" = Some "web" /\
  unstructured.GetLabels obj !! "core.rukpak.io/owner-kind" = Some "BundleInstance" /\
  unstructured.GetLabels obj !! "core.rukpak.io/owner-name" = Some "inst-a" /\
  size (unstructured.GetLabels obj) = 3%nat.
Proof. vm_compute. repeat split. Qed.

Lemma loadBundle_owner_labels_witness :
  exists b objects,
    Client_GetBundle world.fresh InLoadBundle "pkg-a" = Ok b /\
    BundleStorage_Load world.fresh b = Ok objects /\
    length objects = length (world.desired world.fresh).
Proof.
  destruct (proj1 (loadBundle_owner_labels world.fresh world.inst_a)
              (world.desired world.fresh) eq_refl) as (b & objects & Hb & Hobjs & Hall).
  exists b, objects. split; [exact Hb|]. split; [exact Hobjs|].
  exact (Forall2_length _ _ _ Hall).
Defined.

(** ** Passes at the same time *)

Section concurrent.
Import controllers lifetime dynamicWatch.

Lemma count_insert (f : thread -> bool) (ts : list thread) (i : nat) (t t' : thread) :
  ts !! i = Some t ->
  (count f (<[i := t']> ts) + (if f t then 1 else 0) =
   count f ts + (if f t' then 1 else 0))%nat.
Proof.
  revert i. induction ts as [|x ts IH]; intros [|i] Hi; simpl in *; try discriminate.
  - injection Hi as ->. lia.
  - specialize (IH i Hi). lia.
Qed.

Lemma count_lookup (f : thread -> bool) (ts : list thread) (i : nat) (t : thread) :
  ts !! i = Some t -> f t = true -> (1 <= count f ts)%nat.
Proof.
  revert i. induction ts as [|x ts IH]; intros [|i] Hi Hf; simpl in *; try discriminate.
  - injection Hi as ->. rewrite Hf. lia.
  - specialize (IH i Hi Hf). lia.
Qed.

(** With one thread counted, no other thread counts. *)
Lemma count_alone (f : thread -> bool) (ts : list thread) (i j : nat) (t t2 : thread) :
  (count f ts <= 1)%nat ->
  ts !! i = Some t -> f t = true ->
  ts !! j = Some t2 -> j <> i -> f t2 = false.
Proof.
  revert i j. induction ts as [|x ts IH]; intros [|i] [|j] Hc Hi Hf Hj Hne;
    simpl in *; try discriminate; try congruence.
  - injection Hi as ->. rewrite Hf in Hc.
    destruct (f t2) eqn:Hf2; [|reflexivity].
    pose proof (count_lookup f ts j t2 Hj Hf2). lia.
  - injection Hj as ->. destruct (f t2) eqn:Hf2; [|reflexivity].
    pose proof (count_lookup f ts i t Hi Hf). lia.
  - apply (IH i j); try assumption; [|congruence].
    destruct (f x); lia.
Qed.

Lemma count_exists (f : thread -> bool) (ts : list thread) :
  (1 <= count f ts)%nat -> exists i t, ts !! i = Some t /\ f t = true.
Proof.
  induction ts as [|x ts IH]; simpl; [lia|].
  destruct (f x) eqn:Hf.
  - intros _. exists 0%nat, x. split; [reflexivity | exact Hf].
  - intros Hc. destruct (IH Hc) as (i & t & Hi & Ht). exists (S i), t. auto.
Qed.

Lemma lookup_insert_cases (ts : list thread) (i j : nat) (t t' t2 : thread) :
  ts !! i = Some t ->
  <[i := t']> ts !! j = Some t2 ->
  (j = i /\ t2 = t') \/ (j <> i /\ ts !! j = Some t2).
Proof.
  intros Hi Hj. destruct (decide (j = i)) as [->|Hne].
  - left. split; [reflexivity|].
    rewrite list_lookup_insert_eq in Hj by (eapply lookup_lt_Some; exact Hi).
    congruence.
  - right. split; [exact Hne|].
    rewrite list_lookup_insert_ne in Hj by congruence. exact Hj.
Qed.

Lemma watchFailures_app (tr evs : list event) :
  watchFailures (tr ++ evs) = (watchFailures tr ++ watchFailures evs)%list.
Proof. unfold watchFailures. apply filter_app. Qed.

Lemma watchFailures_one (g : schema.GroupVersionKind) (o : string)
    (res : option ExtError) :
  length (watchFailures [CallWatch g o res]) =
  match res with Some _ => 1%nat | None => 0%nat end.
Proof. destruct res; reflexivity. Qed.

Lemma inCS_at (t : thread) (p : pc) :
  inCS (at_ t p) = match p with
                   | AtCheck | AtWatch | AtInsert | AtUnlock _ => true
                   | AtLock | Done _ => false
                   end.
Proof. reflexivity. Qed.

Lemma inserting_at (K : schema.GroupVersionKind) (t : thread) (p : pc) :
  inserting K (at_ t p) = match p with
                          | AtInsert => bool_decide (th_gvk t = K)
                          | _ => false
                          end.
Proof. reflexivity. Qed.

(** Every statement of every thread keeps the invariant. *)
Lemma step_invariant (n0 : nat) (s s' : system) :
  step s s' -> invariant n0 s -> invariant n0 s'.
Proof.
  intros Hstep [I1 I2 I3 I4 I5 I6].
  destruct Hstep as [i answer sh sh' ts t t' Hi Hts]. cbn [fst snd] in *.
  pose proof (count_insert inCS ts i t t' Hi) as Hcs.
  assert (Hins : forall K, (count (inserting K) (<[i := t']> ts) +
                              (if inserting K t then 1 else 0) =
                            count (inserting K) ts + (if inserting K t' then 1 else 0))%nat)
    by (intros K; apply count_insert; exact Hi).
  unfold thread_step in Hts.
  destruct (th_pc t) as [| | | |res|res] eqn:Hpc.
  - (* Lock *)
    destruct (locked sh) eqn:Hl; [discriminate|]. injection Hts as <- <-.
    unfold inCS in Hcs at 2. rewrite Hpc, inCS_at in Hcs.
    split; cbn [fst snd locked gvks calls].
    + lia.
    + intros K. specialize (Hins K). unfold inserting in Hins at 2.
      rewrite Hpc, inserting_at in Hins. rewrite I2. lia.
    + intros j t2 Hj Hp.
      destruct (lookup_insert_cases _ _ _ _ _ _ Hi Hj) as [[-> ->]|[Hne Hj']];
        [destruct Hp; discriminate | eauto].
    + intros j t2 Hj Hp.
      destruct (lookup_insert_cases _ _ _ _ _ _ Hi Hj) as [[-> ->]|[Hne Hj']];
        [destruct Hp; discriminate | eauto].
    + intros j t2 e Hj Hp.
      destruct (lookup_insert_cases _ _ _ _ _ _ Hi Hj) as [[-> ->]|[Hne Hj']];
        [destruct Hp; discriminate | eauto].
    + exact I6.
  - (* the membership check *)
    unfold inCS in Hcs at 2. rewrite Hpc in Hcs.
    assert (Hcs' : count inCS (<[i := t']> ts) = count inCS ts).
    { destruct (bool_decide (th_gvk t ∈ gvks sh)); injection Hts as <- <-;
        rewrite inCS_at in Hcs; lia. }
    assert (Hins' : forall K, count (inserting K) (<[i := t']> ts) = count (inserting K) ts).
    { intros K. specialize (Hins K). unfold inserting in Hins at 2. rewrite Hpc in Hins.
      destruct (bool_decide (th_gvk t ∈ gvks sh)); injection Hts as <- <-;
        rewrite inserting_at in Hins; lia. }
    destruct (bool_decide (th_gvk t ∈ gvks sh)) eqn:Hin; injection Hts as <- <-;
      split; cbn [fst snd locked gvks calls]; try (rewrite Hcs'; exact I1);
      try (intros K; rewrite Hins'; apply I2); try exact I6.
    + intros j t2 Hj Hp.
      destruct (lookup_insert_cases _ _ _ _ _ _ Hi Hj) as [[-> ->]|[Hne Hj']];
        [destruct Hp; discriminate | eauto].
    + intros j t2 Hj Hp.
      destruct (lookup_insert_cases _ _ _ _ _ _ Hi Hj) as [[-> ->]|[Hne Hj']];
        [|eauto]. apply bool_decide_eq_true_1 in Hin. exact Hin.
    + intros j t2 e Hj Hp.
      destruct (lookup_insert_cases _ _ _ _ _ _ Hi Hj) as [[-> ->]|[Hne Hj']];
        [destruct Hp; discriminate | eauto].
    + intros j t2 Hj Hp.
      destruct (lookup_insert_cases _ _ _ _ _ _ Hi Hj) as [[-> ->]|[Hne Hj']];
        [|eauto]. apply bool_decide_eq_false_1 in Hin. exact Hin.
    + intros j t2 Hj Hp.
      destruct (lookup_insert_cases _ _ _ _ _ _ Hi Hj) as [[-> ->]|[Hne Hj']];
        [destruct Hp; discriminate | eauto].
    + intros j t2 e Hj Hp.
      destruct (lookup_insert_cases _ _ _ _ _ _ Hi Hj) as [[-> ->]|[Hne Hj']];
        [destruct Hp; discriminate | eauto].
  - (* the call of Watch *)
    unfold inCS in Hcs at 2. rewrite Hpc in Hcs.
    assert (Hout : th_gvk t ∉ gvks sh) by (apply (I3 i t Hi); left; exact Hpc).
    destruct answer as [err|]; injection Hts as <- <-;
      rewrite inCS_at in Hcs; split; cbn [fst snd locked gvks calls].
    + rewrite <- I1. lia.
    + intros K. specialize (Hins K). unfold inserting in Hins at 2.
      rewrite Hpc, inserting_at in Hins.
      rewrite established_app, established_one, I2. lia.
    + intros j t2 Hj Hp.
      destruct (lookup_insert_cases _ _ _ _ _ _ Hi Hj) as [[-> ->]|[Hne Hj']];
        [destruct Hp; discriminate | eauto].
    + intros j t2 Hj Hp.
      destruct (lookup_insert_cases _ _ _ _ _ _ Hi Hj) as [[-> ->]|[Hne Hj']];
        [destruct Hp; discriminate | eauto].
    + intros j t2 e Hj Hp. rewrite watchFailures_app, length_app, watchFailures_one. lia.
    + rewrite watchFailures_app, length_app, watchFailures_one. lia.
    + rewrite <- I1. lia.
    + intros K. specialize (Hins K). unfold inserting in Hins at 2.
      rewrite Hpc, inserting_at in Hins.
      rewrite established_app, established_one, I2.
      destruct (bool_decide (th_gvk t = K)); lia.
    + intros j t2 Hj Hp.
      destruct (lookup_insert_cases _ _ _ _ _ _ Hi Hj) as [[-> ->]|[Hne Hj']];
        [exact Hout | eauto].
    + intros j t2 Hj Hp.
      destruct (lookup_insert_cases _ _ _ _ _ _ Hi Hj) as [[-> ->]|[Hne Hj']];
        [destruct Hp; discriminate | eauto].
    + intros j t2 e Hj Hp. rewrite watchFailures_app, length_app, watchFailures_one.
      destruct (lookup_insert_cases _ _ _ _ _ _ Hi Hj) as [[-> ->]|[Hne Hj']];
        [destruct Hp; discriminate|].
      pose proof (I5 j t2 e Hj' Hp). lia.
    + rewrite watchFailures_app, length_app, watchFailures_one. lia.
  - (* the insertion *)
    injection Hts as <- <-.
    unfold inCS in Hcs at 2. rewrite Hpc, inCS_at in Hcs.
    assert (Hout : th_gvk t ∉ gvks sh) by (apply (I3 i t Hi); right; exact Hpc).
    assert (Hone : (count inCS ts <= 1)%nat) by (rewrite I1; destruct (locked sh); lia).
    assert (Hcst : inCS t = true) by (unfold inCS; rewrite Hpc; reflexivity).
    split; cbn [fst snd locked gvks calls].
    + rewrite <- I1. lia.
    + intros K. specialize (Hins K). unfold inserting in Hins at 2.
      rewrite Hpc, inserting_at in Hins. rewrite I2.
      destruct (decide (th_gvk t = K)) as [<-|Hne].
      * rewrite (bool_decide_eq_true_2 (th_gvk t = th_gvk t)) in Hins by reflexivity.
        rewrite (bool_decide_eq_false_2 _ Hout).
        rewrite bool_decide_eq_true_2 by (apply elem_of_union_l, elem_of_singleton; reflexivity).
        lia.
      * rewrite (bool_decide_eq_false_2 _ Hne) in Hins.
        destruct (decide (K ∈ gvks sh)) as [HK|HK].
        -- rewrite (bool_decide_eq_true_2 _ HK).
           rewrite bool_decide_eq_true_2 by (apply elem_of_union_r; exact HK). lia.
        -- rewrite (bool_decide_eq_false_2 _ HK).
           rewrite bool_decide_eq_false_2; [lia|].
           intros [H1|H2]%elem_of_union; [|contradiction].
           apply elem_of_singleton in H1. congruence.
    + intros j t2 Hj Hp.
      destruct (lookup_insert_cases _ _ _ _ _ _ Hi Hj) as [[-> ->]|[Hne Hj']];
        [destruct Hp; discriminate|]. exfalso.
      pose proof (count_alone inCS ts i j t t2 Hone Hi Hcst Hj' Hne) as Hno.
      unfold inCS in Hno. destruct Hp as [Hp|Hp]; rewrite Hp in Hno; discriminate.
    + intros j t2 Hj Hp. apply elem_of_union.
      destruct (lookup_insert_cases _ _ _ _ _ _ Hi Hj) as [[-> ->]|[Hne Hj']].
      * left. apply elem_of_singleton. reflexivity.
      * right. eauto.
    + intros j t2 e Hj Hp.
      destruct (lookup_insert_cases _ _ _ _ _ _ Hi Hj) as [[-> ->]|[Hne Hj']];
        [destruct Hp; discriminate | eauto].
    + exact I6.
  - (* Unlock *)
    injection Hts as <- <-.
    unfold inCS in Hcs at 2. rewrite Hpc, inCS_at in Hcs.
    assert (Hcst : inCS t = true) by (unfold inCS; rewrite Hpc; reflexivity).
    pose proof (count_lookup inCS ts i t Hi Hcst) as Hge.
    split; cbn [fst snd locked gvks calls].
    + destruct (locked sh); lia.
    + intros K. specialize (Hins K). unfold inserting in Hins at 2.
      rewrite Hpc, inserting_at in Hins. rewrite I2. lia.
    + intros j t2 Hj Hp.
      destruct (lookup_insert_cases _ _ _ _ _ _ Hi Hj) as [[-> ->]|[Hne Hj']];
        [destruct Hp; discriminate | eauto].
    + intros j t2 Hj Hp.
      destruct (lookup_insert_cases _ _ _ _ _ _ Hi Hj) as [[-> ->]|[Hne Hj']];
        [|eauto].
      apply (I4 i t Hi). left. rewrite Hpc.
      destruct Hp as [Hp|Hp]; simpl in Hp; congruence.
    + intros j t2 e Hj Hp.
      destruct (lookup_insert_cases _ _ _ _ _ _ Hi Hj) as [[-> ->]|[Hne Hj']];
        [|eauto].
      apply (I5 i t e Hi). left. rewrite Hpc.
      destruct Hp as [Hp|Hp]; simpl in Hp; congruence.
    + exact I6.
  - discriminate.
Qed.

Lemma count_start (f : thread -> bool) (K : schema.GroupVersionKind) (owners : list string) :
  (forall t, th_pc t = AtLock -> f t = false) -> count f (start K owners) = 0%nat.
Proof.
  intros Hf. induction owners as [|o owners IH]; simpl; [reflexivity|].
  rewrite IH, Hf; reflexivity.
Qed.

Lemma start_lookup (K : schema.GroupVersionKind) (owners : list string) (i : nat) (t : thread) :
  start K owners !! i = Some t -> th_pc t = AtLock /\ th_gvk t = K.
Proof.
  unfold start. rewrite list_lookup_fmap.
  destruct (owners !! i); simpl; [|discriminate]. intros [= <-]. split; reflexivity.
Qed.

Lemma invariant_start (K : schema.GroupVersionKind) (owners : list string) (sh0 : shared) :
  locked sh0 = false ->
  agrees (gvks sh0) (calls sh0) ->
  invariant (length (watchFailures (calls sh0))) (sh0, start K owners).
Proof.
  intros Hl Hag. split; cbn [fst snd].
  - rewrite Hl. apply count_start. intros t Ht. unfold inCS. rewrite Ht. reflexivity.
  - intros K'. rewrite Hag, count_start; [lia|].
    intros t Ht. unfold inserting. rewrite Ht. reflexivity.
  - intros i t Hi [Hp|Hp]; apply start_lookup in Hi as [Hpc _]; congruence.
  - intros i t Hi [Hp|Hp]; apply start_lookup in Hi as [Hpc _]; congruence.
  - intros i t e Hi [Hp|Hp]; apply start_lookup in Hi as [Hpc _]; congruence.
  - lia.
Qed.

Lemma steps_invariant (n0 : nat) (s s' : system) :
  rtc step s s' -> invariant n0 s -> invariant n0 s'.
Proof.
  intros Hsteps. induction Hsteps as [|s1 s2 s3 Hstep _ IH]; [auto|].
  intros Hinv. apply IH. exact (step_invariant n0 s1 s2 Hstep Hinv).
Qed.

(** The threads stay the ones that started: as many, each with its kind. *)
Lemma step_threads (K : schema.GroupVersionKind) (s s' : system) :
  step s s' ->
  Forall (fun t => th_gvk t = K) s.2 ->
  Forall (fun t => th_gvk t = K) s'.2 /\ length s'.2 = length s.2.
Proof.
  intros [i answer sh sh' ts t t' Hi Hts] Hall. cbn [fst snd] in *.
  split; [|apply length_insert].
  apply Forall_insert; [exact Hall|].
  rewrite Forall_forall in Hall.
  assert (Ht : th_gvk t = K) by (apply Hall; eapply list_elem_of_lookup_2; exact Hi).
  unfold thread_step in Hts.
  destruct (th_pc t); try discriminate;
    repeat match type of Hts with
           | context [if ?c then _ else _] => destruct c
           | context [match ?c with _ => _ end] => destruct c
           end;
    try discriminate; injection Hts as <- <-; exact Ht.
Qed.

Lemma steps_threads (K : schema.GroupVersionKind) (s s' : system) :
  rtc step s s' ->
  Forall (fun t => th_gvk t = K) s.2 ->
  Forall (fun t => th_gvk t = K) s'.2 /\ length s'.2 = length s.2.
Proof.
  intros Hsteps. induction Hsteps as [|s1 s2 s3 Hstep _ IH]; [auto|].
  intros Hall. destruct (step_threads K s1 s2 Hstep Hall) as [Hall2 Hlen].
  destruct (IH Hall2) as [Hall3 Hlen3]. split; [exact Hall3 | congruence].
Qed.

Lemma count_le (f g : thread -> bool) (ts : list thread) :
  (forall t, f t = true -> g t = true) -> (count f ts <= count g ts)%nat.
Proof.
  intros Hfg. induction ts as [|t ts IH]; simpl; [lia|].
  destruct (f t) eqn:Hf; [rewrite (Hfg t Hf); lia | destruct (g t); lia].
Qed.

(** In a state that keeps the invariant no kind has two subscriptions. *)
Lemma invariant_once (n0 : nat) (s : system) (K : schema.GroupVersionKind) :
  invariant n0 s -> (established K (calls s.1) <= 1)%nat.
Proof.
  intros [I1 I2 I3 _ _ _]. rewrite I2.
  assert (Hle : (count (inserting K) s.2 <= count inCS s.2)%nat).
  { apply count_le. intros t. unfold inserting, inCS.
    destruct (th_pc t); try discriminate; reflexivity. }
  assert (Hcs : (count inCS s.2 <= 1)%nat) by (rewrite I1; destruct (locked s.1); lia).
  destruct (bool_decide (K ∈ gvks s.1)) eqn:HK; [|lia].
  apply bool_decide_eq_true_1 in HK.
  destruct (count (inserting K) s.2) as [|n] eqn:Hc; [lia|]. exfalso.
  destruct (count_exists (inserting K) s.2) as (i & t & Hi & Ht); [lia|].
  unfold inserting in Ht. destruct (th_pc t) eqn:Hpc; try discriminate.
  apply bool_decide_eq_true_1 in Ht. subst K.
  apply (I3 i t Hi); [right; exact Hpc | exact HK].
Qed.

(** C5, as amended. However the statements of [N] passes that come to the
    unwatched kind [K] interleave, with [Lock] taken before the check: [K]
    never has more than one established subscription; a pass goes on without
    an error only when [K] is in the registry and has its one subscription;
    and when all have returned and no call of [Controller.Watch] failed,
    exactly one subscription was established and every pass returned no
    error. *)
Theorem concurrent_passes_subscribe_once
    (K : schema.GroupVersionKind) (owners : list string)
    (sh0 sh : shared) (ts : list thread) :
  locked sh0 = false ->
  agrees (gvks sh0) (calls sh0) ->
  K ∉ gvks sh0 ->
  rtc step (sh0, start K owners) (sh, ts) ->
  established K (calls sh0) = 0%nat /\
  (established K (calls sh) <= 1)%nat /\
  (forall t, t ∈ ts -> th_pc t = AtUnlock None \/ th_pc t = Done None ->
             K ∈ gvks sh /\ established K (calls sh) = 1%nat) /\
  (finished ts -> owners <> [] ->
   length (watchFailures (calls sh)) = length (watchFailures (calls sh0)) ->
   established K (calls sh) = 1%nat /\ K ∈ gvks sh /\ locked sh = false /\
   length ts = length owners /\ Forall (fun t => th_pc t = Done None) ts).
Proof.
  intros Hl Hag HK Hsteps.
  pose proof (steps_invariant _ _ _ Hsteps (invariant_start K owners sh0 Hl Hag)) as Hinv.
  assert (Hstart : Forall (fun t => th_gvk t = K) (start K owners)).
  { apply Forall_forall. intros t Ht. apply list_elem_of_lookup_1 in Ht as [i Hi].
    apply start_lookup in Hi as [_ Hg]. exact Hg. }
  destruct (steps_threads K _ _ Hsteps Hstart) as [Hgvk Hlen]. cbn [fst snd] in *.
  pose proof (invariant_once _ _ K Hinv) as Hle. cbn [fst snd] in Hle.
  destruct Hinv as [I1 I2 I3 I4 I5 I6]. cbn [fst snd] in *.
  assert (Hgo : forall t, t ∈ ts -> th_pc t = AtUnlock None \/ th_pc t = Done None ->
                          K ∈ gvks sh /\ established K (calls sh) = 1%nat).
  { intros t Ht Hp. rewrite Forall_forall in Hgvk. pose proof (Hgvk t Ht) as Hg.
    apply list_elem_of_lookup_1 in Ht as [i Hi].
    pose proof (I4 i t Hi Hp) as Hin. rewrite Hg in Hin. split; [exact Hin|].
    pose proof (I2 K) as H2. rewrite (bool_decide_eq_true_2 _ Hin) in H2. lia. }
  split; [|split; [exact Hle | split; [exact Hgo|]]].
  - rewrite Hag. rewrite (bool_decide_eq_false_2 _ HK). reflexivity.
  - intros Hfin Hne Hnofail.
    assert (Hall : Forall (fun t => th_pc t = Done None) ts).
    { apply Forall_forall. intros t Ht.
      unfold finished in Hfin. rewrite Forall_forall in Hfin.
      destruct (Hfin t Ht) as [[e|] Hres]; [|exact Hres].
      exfalso. apply list_elem_of_lookup_1 in Ht as [i Hi].
      pose proof (I5 i t e Hi (or_intror Hres)). lia. }
    assert (Hlen' : length ts = length owners).
    { rewrite Hlen. unfold start. apply length_map. }
    destruct ts as [|t ts']; [destruct owners; [contradiction | discriminate]|].
    destruct (Hgo t (list_elem_of_here t ts')) as [Hin Hest].
    { right. rewrite Forall_forall in Hall. apply Hall. apply list_elem_of_here. }
    split; [exact Hest|]. split; [exact Hin|]. split; [|split; [exact Hlen' | exact Hall]].
    destruct (locked sh); [|reflexivity]. exfalso.
    destruct (count_exists inCS (t :: ts')) as (i & t2 & Hi & Hcs); [lia|].
    rewrite Forall_forall in Hall.
    pose proof (Hall t2 (list_elem_of_lookup_2 _ _ _ Hi)) as Hd.
    unfold inCS in Hcs. rewrite Hd in Hcs. discriminate.
Qed.

Lemma not_finished (ts : list thread) :
  ~ finished ts -> exists i t, ts !! i = Some t /\ forall res, th_pc t <> Done res.
Proof.
  induction ts as [|a ts IH]; intros Hnot.
  - exfalso. apply Hnot. constructor.
  - destruct (th_pc a) eqn:Hp;
      try (exists 0%nat, a; split; [reflexivity | intros r0; congruence]).
    destruct IH as (i & t & Hi & Ht).
    + intros Hf. apply Hnot. constructor; [eauto | exact Hf].
    + exists (S i), t. split; [exact Hi | exact Ht].
Qed.

(** A thread that is not done can move unless another holds the lock, and
    the holder of the lock can always move: the passes do not get stuck. *)
Lemma threads_progress (n0 : nat) (s : system) :
  invariant n0 s -> ~ finished s.2 -> exists s', step s s'.
Proof.
  intros [I1 _ _ _ _ _] Hnot. destruct s as [sh ts]. cbn [fst snd] in *.
  assert (Hmove : forall i t, ts !! i = Some t -> inCS t = true -> exists s', step (sh, ts) s').
  { intros i t Hi Hcs.
    destruct (thread_step None sh t) as [[sh' t']|] eqn:Hts.
    - eexists. exact (step_thread i None sh sh' ts t t' Hi Hts).
    - exfalso. unfold thread_step, inCS in *.
      destruct (th_pc t); try discriminate;
        destruct (bool_decide (th_gvk t ∈ gvks sh)); discriminate. }
  destruct (locked sh) eqn:Hl.
  - destruct (count_exists inCS ts) as (i & t & Hi & Hcs); [lia|]. eauto.
  - destruct (not_finished ts Hnot) as (i & t & Hi & Hnd).
    destruct (inCS t) eqn:Hcs; [eauto|].
    destruct (th_pc t) eqn:Hpc; try (unfold inCS in Hcs; rewrite Hpc in Hcs; discriminate).
    + eexists.
      apply (step_thread i None sh
               {| locked := true; gvks := gvks sh; calls := calls sh |}
               ts t (at_ t AtCheck) Hi).
      unfold thread_step. rewrite Hpc, Hl. reflexivity.
    + exfalso. exact (Hnd _ eq_refl).
Qed.

(** X19. A pass on its own goes through the statements of the literal to the
    result of [ensureWatched]. *)
Lemma alone_ensureWatched (E : Env) (owner : rukpakv1alpha1.BundleInstance)
    (u : unstructured.Unstructured) (st : pass) :
  exists res st',
    ensureWatched E owner u st = (Next res, st') /\
    alone 5 (Controller_Watch E u owner)
      {| locked := false; gvks := watched st; calls := trace st |}
      {| th_gvk := unstructured.GroupVersionKind u;
         th_owner := rukpakv1alpha1.Name owner; th_pc := AtLock |} =
    ({| locked := false; gvks := watched st'; calls := trace st' |},
     {| th_gvk := unstructured.GroupVersionKind u;
        th_owner := rukpakv1alpha1.Name owner; th_pc := Done res |}).
Proof.
  unfold ensureWatched. cbn [alone thread_step th_pc locked at_ th_gvk gvks].
  destruct (bool_decide (unstructured.GroupVersionKind u ∈ watched st)) eqn:Hin.
  - eexists _, _. split; [reflexivity|]. cbn. reflexivity.
  - cbn [alone thread_step th_pc locked at_ th_gvk gvks calls th_owner].
    destruct (Controller_Watch E u owner) as [err|]; eexists _, _;
      (split; [reflexivity|]); cbn; reflexivity.
Qed.

End concurrent.

Lemma concurrent_passes_subscribe_once_witness :
  lifetime.established world.configMapKind (dynamicWatch.calls world.subscribed) = 1%nat /\
  Forall (fun t => dynamicWatch.th_pc t = dynamicWatch.Done None) world.bothDone.
Proof.
  assert (Hrun : rtc dynamicWatch.step
                   (world.nothing, dynamicWatch.start world.configMapKind ["inst-a"; "inst-b"])
                   (world.subscribed, world.bothDone)).
  { eapply rtc_l; [eapply (dynamicWatch.step_thread 0 None); reflexivity|].
    eapply rtc_l; [eapply (dynamicWatch.step_thread 0 None); reflexivity|].
    eapply rtc_l; [eapply (dynamicWatch.step_thread 0 None); reflexivity|].
    eapply rtc_l; [eapply (dynamicWatch.step_thread 0 None); reflexivity|].
    eapply rtc_l; [eapply (dynamicWatch.step_thread 0 None); reflexivity|].
    eapply rtc_l; [eapply (dynamicWatch.step_thread 1 None); reflexivity|].
    eapply rtc_l; [eapply (dynamicWatch.step_thread 1 None); reflexivity|].
    eapply rtc_l; [eapply (dynamicWatch.step_thread 1 None); reflexivity|].
    apply rtc_refl. }
  destruct (concurrent_passes_subscribe_once world.configMapKind ["inst-a"; "inst-b"]
              world.nothing world.subscribed world.bothDone
              eq_refl (fun K => eq_refl) (not_elem_of_empty _) Hrun)
    as (_ & _ & _ & Hfin).
  destruct Hfin as (Hone & _ & _ & _ & Hall).
  - repeat constructor; eexists; reflexivity.
  - discriminate.
  - reflexivity.
  - split; assumption.
Defined.

(** Two passes come to the unwatched kind at the same time and
    [Controller.Watch] fails for each: both have returned, with an error,
    and no subscription is established. *)
Lemma concurrent_passes_without_subscription :
  rtc dynamicWatch.step
    (world.nothing, dynamicWatch.start world.configMapKind ["inst-a"; "inst-b"])
    (world.refused, world.bothFailed) /\
  dynamicWatch.finished world.bothFailed /\
  lifetime.established world.configMapKind (dynamicWatch.calls world.refused) = 0%nat.
Proof.
  split; [|split].
  - eapply rtc_l; [eapply (dynamicWatch.step_thread 0 None); reflexivity|].
    eapply rtc_l; [eapply (dynamicWatch.step_thread 0 None); reflexivity|].
    eapply rtc_l; [eapply (dynamicWatch.step_thread 0
                             (Some (world.failure "no matches for kind"))); reflexivity|].
    eapply rtc_l; [eapply (dynamicWatch.step_thread 0 None); reflexivity|].
    eapply rtc_l; [eapply (dynamicWatch.step_thread 1 None); reflexivity|].
    eapply rtc_l; [eapply (dynamicWatch.step_thread 1 None); reflexivity|].
    eapply rtc_l; [eapply (dynamicWatch.step_thread 1
                             (Some (world.failure "no matches for kind"))); reflexivity|].
    eapply rtc_l; [eapply (dynamicWatch.step_thread 1 None); reflexivity|].
    apply rtc_refl.
  - repeat constructor; eexists; reflexivity.
  - reflexivity.
Qed.

(** ** Every way out of a pass *)

Section ways_out.
Import controllers rukpakv1alpha1 metav1 lifetime exits.

Lemma getReleaseState_cases (r : BundleInstanceReconciler) (cl : helmclient.ActionInterface)
    (obj : BundleInstance) (chrt : chart.Chart) :
  (exists err, helmclient.Get cl (Name obj) = Fail err /\
               ext_is_release_not_found err = true /\
               getReleaseState r cl obj chrt = (None, stateNeedsInstall, None)) \/
  (exists err, helmclient.Get cl (Name obj) = Fail err /\
               ext_is_release_not_found err = false /\
               getReleaseState r cl obj chrt = (None, stateError, Some (External err))) \/
  (exists cur err, helmclient.Get cl (Name obj) = Ok cur /\
                   helmclient.Upgrade cl (Name obj) (ReleaseNamespace r) chrt true = Fail err /\
                   getReleaseState r cl obj chrt = (Some cur, stateError, Some (External err))) \/
  (exists cur des, helmclient.Get cl (Name obj) = Ok cur /\
                   helmclient.Upgrade cl (Name obj) (ReleaseNamespace r) chrt true = Ok des /\
                   (release.Manifest des <> release.Manifest cur \/
                    release.Info_Status cur = release.StatusFailed \/
                    release.Info_Status cur = release.StatusSuperseded) /\
                   getReleaseState r cl obj chrt = (Some cur, stateNeedsUpgrade, None)) \/
  (exists cur des, helmclient.Get cl (Name obj) = Ok cur /\
                   helmclient.Upgrade cl (Name obj) (ReleaseNamespace r) chrt true = Ok des /\
                   release.Manifest des = release.Manifest cur /\
                   release.Info_Status cur <> release.StatusFailed /\
                   release.Info_Status cur <> release.StatusSuperseded /\
                   getReleaseState r cl obj chrt = (Some cur, stateUnchanged, None)).
Proof.
  unfold getReleaseState.
  destruct (helmclient.Get cl (Name obj)) as [cur|err] eqn:Hget.
  - destruct (helmclient.Upgrade cl (Name obj) (ReleaseNamespace r) chrt true)
      as [des|err] eqn:Hup.
    + destruct (String.eqb_spec (release.Manifest des) (release.Manifest cur)) as [Hm|Hm];
        destruct (String.eqb_spec (release.Info_Status cur) release.StatusFailed) as [Hf|Hf];
        destruct (String.eqb_spec (release.Info_Status cur) release.StatusSuperseded)
          as [Hs|Hs];
        cbn [negb orb];
        first [ right; right; right; right; exists cur, des;
                repeat split; (reflexivity || assumption)
              | right; right; right; left; exists cur, des;
                split; [reflexivity|]; split; [reflexivity|]; split; [|reflexivity];
                first [ left; assumption | right; left; assumption | right; right; assumption ] ].
    + right. right. left. exists cur, err. auto.
  - cbn [errors.Is_ErrReleaseNotFound].
    destruct (ext_is_release_not_found err) eqn:Hnf; cbn [negb].
    + left. exists err. auto.
    + right. left. exists err. auto.
Qed.

Lemma materialize_fails (E : Env) (objs : list unstructured.Unstructured)
    (chrt : chart.Chart) (st st' : pass) (res : ctrl.Result) (err : option error) :
  materialize E objs chrt st = (Return res err, st') ->
  exists pre obj post e,
    objs = (pre ++ obj :: post)%list /\
    Forall (fun o => exists d, yaml_Marshal E o = Ok d) pre /\
    yaml_Marshal E obj = Fail e /\
    res = ctrl.Result0 /\ err = Some (External e) /\
    st' = {| bi := withCondition (bi st)
                     {| Type_ := TypeInvalidBundleContent;
                        Status := ConditionTrue;
                        Reason := ReasonReadingContentFailed;
                        Message := ext_message e |};
             watched := watched st; trace := trace st |}.
Proof.
  revert chrt. induction objs as [|obj objs IH]; intros chrt Hrun; simpl in Hrun.
  - discriminate.
  - destruct (yaml_Marshal E obj) as [jsonData|e] eqn:Hy.
    + destruct (IH _ Hrun) as (pre & o & post & e & -> & Hpre & Ho & Hrest).
      exists (obj :: pre), o, post, e. split; [reflexivity|].
      split; [constructor; [eauto | exact Hpre]|]. split; [exact Ho | exact Hrest].
    + revert Hrun. exec. intros [= <- <- <-].
      exists [], obj, objs, e. repeat split; [constructor | exact Hy].
Qed.

Lemma applyRelease_call (r : BundleInstanceReconciler) (cl : helmclient.ActionInterface)
    (chrt : chart.Chart) (rel : option release.Release) (state : releaseState)
    (st : pass) :
  applyRelease r cl chrt rel state st =
  match applyCall r cl (Name (bi st)) chrt rel state with
  | Some (ev, None) =>
      (Next tt, {| bi := bi st; watched := watched st; trace := trace st ++ [ev] |})
  | Some (ev, Some (reason, err)) =>
      (Return ctrl.Result0 (Some (External err)),
       {| bi := withCondition (bi st) (failed TypeInstalled reason (ext_message err));
          watched := watched st; trace := trace st ++ [ev] |})
  | None =>
      (Return ctrl.Result0
         (Some (Errorf ("unexpected release state " +:+
                        fmt.quote (releaseState_string state)))), st)
  end.
Proof.
  destruct state; unfold applyRelease, applyFailed, applyCall; exec.
  - destruct (helmclient.Install cl (Name (bi st)) (ReleaseNamespace r) chrt false);
      reflexivity.
  - destruct (helmclient.Upgrade cl (Name (bi st)) (ReleaseNamespace r) chrt false);
      reflexivity.
  - destruct (helmclient.Reconcile cl rel); reflexivity.
  - destruct st; reflexivity.
Qed.

(** When the evaluator reports no error its state is one the applier has
    a call for. *)
Lemma applyCall_some (r : BundleInstanceReconciler) (cl : helmclient.ActionInterface)
    (obj : BundleInstance) (chrt : chart.Chart) (name : string)
    (rel : option release.Release) (state : releaseState) :
  getReleaseState r cl obj chrt = (rel, state, None) ->
  exists ev res, applyCall r cl name chrt rel state = Some (ev, res).
Proof.
  intros Hrs.
  destruct (getReleaseState_cases r cl obj chrt)
    as [(e & _ & _ & H) | [(e & _ & _ & H) | [(c & e & _ & _ & H)
       | [(c & d & _ & _ & _ & H) | (c & d & _ & _ & _ & _ & _ & H)]]]];
    rewrite H in Hrs; injection Hrs as <- <-; try discriminate;
    unfold applyCall; eauto.
Qed.

(** The pass leaves by one of the returns of lines 116 to 272. *)
Lemma reconcile_exits (E : Env) (r : BundleInstanceReconciler) (st : pass) :
  (run (reconcileBundleInstance E r) st).1.1 = ctrl.Result0 /\
  passExit E r st (run (reconcileBundleInstance E r) st).1.2
    (run (reconcileBundleInstance E r) st).2.
Proof.
  unfold reconcileBundleInstance.
  rewrite (run_bind_next get_bi _ st st (bi st) eq_refl).
  destruct (Client_GetBundle E InReconcile (Spec_BundleName (bi st))) as [b|err] eqn:Hb.
  2: { erewrite run_bind_return by (exec; reflexivity). cbn [fst snd].
       split; [reflexivity|]. apply exit_lookup_failed. exact Hb. }
  erewrite run_bind_next by reflexivity.
  destruct (loadBundle E (bi st)) as [objs|lerr] eqn:Hl.
  2: { destruct (errors.As_errBundleNotUnpacked lerr) as [phase|] eqn:Has;
         erewrite run_bind_return by (exec; reflexivity); cbn [fst snd];
         (split; [reflexivity|]).
       - exact (exit_not_unpacked E r st b lerr phase Hb Hl Has).
       - exact (exit_load_failed E r st b lerr Hb Hl Has). }
  erewrite run_bind_next by reflexivity.
  destruct (materialize E objs {| chart.Templates := [] |} st) as [[chrt|res err] st1] eqn:Hm.
  2: { destruct (materialize_fails _ _ _ _ _ _ _ Hm)
         as (pre & obj & post & e & -> & Hpre & Ho & -> & -> & ->).
       erewrite run_bind_return by exact Hm. cbn [fst snd].
       split; [reflexivity|].
       exact (exit_marshal_failed E r st b pre post obj e Hb Hl Hpre Ho). }
  pose proof (materialize_next _ _ _ _ _ _ Hm) as [-> _].
  erewrite run_bind_next by exact Hm.
  erewrite run_bind_next by reflexivity.
  erewrite run_bind_next by reflexivity.
  cbn zeta. erewrite run_bind_next by reflexivity.
  cbn [bi].
  destruct (ActionClientFor E (SetNamespace (bi st) (ReleaseNamespace r))) as [cl|err] eqn:Hcl.
  2: { erewrite run_bind_return by (exec; reflexivity). cbn [fst snd].
       split; [reflexivity|].
       exact (exit_client_failed E r st b objs chrt err Hb Hl Hm Hcl). }
  erewrite run_bind_next by reflexivity.
  erewrite run_bind_next by reflexivity.
  cbn [bi].
  change (SetNamespace (SetNamespace (bi st) (ReleaseNamespace r)) "")
    with (SetNamespace (bi st) "").
  destruct (getReleaseState r cl (SetNamespace (bi st) "") chrt) as [[rel state] [e|]] eqn:Hrs.
  - erewrite run_bind_return by (exec; reflexivity). cbn [fst snd].
    split; [reflexivity|].
    exact (exit_release_state_failed E r st b objs chrt cl rel state e Hb Hl Hm Hcl Hrs).
  - erewrite run_bind_next by reflexivity.
    unfold applyAndWatch.
    destruct (applyCall_some r cl _ chrt (Name (bi st)) rel state Hrs) as (ev & ares & Hcall).
    pose proof (applyRelease_call r cl chrt rel state
                  {| bi := SetNamespace (bi st) ""; watched := watched st;
                     trace := trace st |}) as Happ.
    cbn [bi watched trace Name SetNamespace] in Happ. rewrite Hcall in Happ.
    destruct ares as [[reason err]|].
    + erewrite run_bind_return by exact Happ. cbn [fst snd].
      split; [reflexivity|].
      exact (exit_apply_failed E r st b objs chrt cl rel state ev reason err
               Hb Hl Hm Hcl Hrs Hcall).
    + erewrite run_bind_next by exact Happ.
      destruct (watchObjects E objs
                  {| bi := SetNamespace (bi st) ""; watched := watched st;
                     trace := trace st ++ [ev] |}) as [[[]|res err] st2] eqn:Hwo.
      * erewrite run_bind_next by exact Hwo.
        erewrite run_bind_next by reflexivity.
        erewrite run_bind_next by reflexivity.
        unfold run, mret, M_ret. cbn [fst snd].
        split; [reflexivity|].
        exact (exit_succeeded E r st b objs chrt cl rel state ev st2
                 Hb Hl Hm Hcl Hrs Hcall Hwo).
      * erewrite run_bind_return by exact Hwo. cbn [fst snd].
        destruct (watchObjects_run E objs
                    {| bi := SetNamespace (bi st) ""; watched := watched st;
                       trace := trace st ++ [ev] |}) as [wevs Hwr].
        rewrite Hwo in Hwr. destruct Hwr as (_ & _ & _ & _ & -> & _).
        split; [reflexivity|].
        exact (exit_watch_failed E r st b objs chrt cl rel state ev ctrl.Result0 err st2
                 Hb Hl Hm Hcl Hrs Hcall Hwo).
Qed.

Lemma loadBundle_fail (E : Env) (b0 : BundleInstance) (lerr : error) :
  loadBundle E b0 = Fail lerr ->
  (exists x, Client_GetBundle E InLoadBundle (Spec_BundleName b0) = Fail x /\
             lerr = Wrapf ("get bundle " +:+ fmt.quote (Spec_BundleName b0) +:+ ": ")
                          (External x)) \/
  (exists b, Client_GetBundle E InLoadBundle (Spec_BundleName b0) = Ok b /\
             Bundle_Status_Phase b <> PhaseUnpacked /\
             lerr = errBundleNotUnpacked (Bundle_Status_Phase b)) \/
  (exists b x, Client_GetBundle E InLoadBundle (Spec_BundleName b0) = Ok b /\
               Bundle_Status_Phase b = PhaseUnpacked /\
               BundleStorage_Load E b = Fail x /\
               lerr = Wrapf "load bundle objects: " (External x)).
Proof.
  unfold loadBundle. intros Hload.
  destruct (Client_GetBundle E InLoadBundle (Spec_BundleName b0)) as [b|x] eqn:Hget.
  - destruct (String.eqb_spec (Bundle_Status_Phase b) PhaseUnpacked) as [Hph|Hph];
      cbn [negb] in Hload.
    + destruct (BundleStorage_Load E b) as [objects|x] eqn:Hobjs; [discriminate|].
      injection Hload as <-. right. right. exists b, x. auto.
    + injection Hload as <-. right. left. exists b. auto.
  - injection Hload as <-. left. exists x. auto.
Qed.

(** The calls of [Controller.Watch] in the loop over the objects: each is
    for an object of the list whose kind is not in the registry the loop
    started with, and has the BundleInstance of the pass as owner. *)
Lemma watchObjects_calls (E : Env) (objs : list unstructured.Unstructured) (st : pass) :
  exists wevs,
    trace (watchObjects E objs st).2 = (trace st ++ wevs)%list /\
    Forall (fun ev => exists obj u,
                obj ∈ objs /\ ToUnstructured E obj = Ok u /\
                (unstructured.GroupVersionKind u ∉ watched st) /\
                ev = CallWatch (unstructured.GroupVersionKind u) (Name (bi st))
                       (Controller_Watch E u (bi st))) wevs /\
    watched st ⊆ watched (watchObjects E objs st).2 /\
    (forall g, g ∈ watched (watchObjects E objs st).2 ->
               g ∈ watched st \/
               exists obj u, obj ∈ objs /\ ToUnstructured E obj = Ok u /\
                             g = unstructured.GroupVersionKind u) /\
    match (watchObjects E objs st).1 with
    | Next _ => bi (watchObjects E objs st).2 = bi st
    | Return res err =>
        res = ctrl.Result0 /\
        exists e, err = Some (External e) /\
                  bi (watchObjects E objs st).2 =
                    withCondition (bi st) (createDynamicWatchFailed e)
    end.
Proof.
  revert st. induction objs as [|obj objs IH]; intros st; simpl.
  - exists []. rewrite app_nil_r. repeat split; try constructor; auto.
  - destruct (ToUnstructured E obj) as [u|err] eqn:Hu.
    + exec.
      assert (Hlift : forall st1 wevs,
                 bi st1 = bi st -> watched st ⊆ watched st1 ->
                 Forall (fun ev => exists obj u,
                             obj ∈ objs /\ ToUnstructured E obj = Ok u /\
                             (unstructured.GroupVersionKind u ∉ watched st1) /\
                             ev = CallWatch (unstructured.GroupVersionKind u) (Name (bi st1))
                                    (Controller_Watch E u (bi st1))) wevs ->
                 Forall (fun ev => exists obj0 u,
                             obj0 ∈ obj :: objs /\ ToUnstructured E obj0 = Ok u /\
                             (unstructured.GroupVersionKind u ∉ watched st) /\
                             ev = CallWatch (unstructured.GroupVersionKind u) (Name (bi st))
                                    (Controller_Watch E u (bi st))) wevs).
      { intros st1 wevs Hbi Hsub Hall. eapply Forall_impl; [exact Hall|].
        intros ev (o & u' & Ho & Hu' & Hout & ->). exists o, u'.
        rewrite Hbi. split; [apply elem_of_cons; right; exact Ho|].
        split; [exact Hu'|]. split; [|reflexivity].
        intros Hin. apply Hout. apply Hsub. exact Hin. }
      destruct (decide (unstructured.GroupVersionKind u ∈ watched st)) as [Hin|Hout].
      * rewrite ensureWatched_present by exact Hin.
        destruct (IH st) as (wevs & Htr & Hall & Hsub & Hnew & Hend).
        exists wevs. split; [exact Htr|].
        split; [apply (Hlift st wevs eq_refl); [reflexivity | exact Hall]|].
        split; [exact Hsub|]. split; [|exact Hend].
        intros g Hg. destruct (Hnew g Hg) as [Hold|(o & u' & Ho & Hu' & ->)];
          [left; exact Hold | right; exists o, u'].
        split; [apply elem_of_cons; right; exact Ho | split; [exact Hu' | reflexivity]].
      * destruct (Controller_Watch E u (bi st)) as [err|] eqn:Hw.
        -- rewrite (ensureWatched_absent_failure _ _ _ _ err Hout Hw).
           unfold watchFailed. exec. cbn [fst snd bi watched trace].
           exists [CallWatch (unstructured.GroupVersionKind u) (Name (bi st)) (Some err)].
           split; [reflexivity|]. split.
           { constructor; [|constructor]. exists obj, u.
             split; [apply elem_of_cons; left; reflexivity|].
             split; [exact Hu|]. split; [exact Hout|]. rewrite Hw. reflexivity. }
           split; [reflexivity|]. split; [intros g Hg; left; exact Hg|].
           split; [reflexivity|]. exists err. split; reflexivity.
        -- rewrite (ensureWatched_absent_success _ _ _ _ Hout Hw).
           set (st1 := {| bi := bi st;
                          watched := {[ unstructured.GroupVersionKind u ]} ∪ watched st;
                          trace := trace st ++ [CallWatch (unstructured.GroupVersionKind u)
                                                          (Name (bi st)) None] |}).
           destruct (IH st1) as (wevs & Htr & Hall & Hsub & Hnew & Hend).
           exists (CallWatch (unstructured.GroupVersionKind u) (Name (bi st)) None :: wevs).
           split; [rewrite Htr; simpl; rewrite <- app_assoc; reflexivity|].
           split.
           { constructor.
             - exists obj, u. split; [apply elem_of_cons; left; reflexivity|].
               split; [exact Hu|]. split; [exact Hout|]. rewrite Hw. reflexivity.
             - apply (Hlift st1 wevs eq_refl); [apply union_subseteq_r | exact Hall]. }
           split; [transitivity (watched st1); [apply union_subseteq_r | exact Hsub]|].
           split; [|exact Hend].
           intros g Hg. destruct (Hnew g Hg) as [Hold|(o & u' & Ho & Hu' & ->)].
           ++ apply elem_of_union in Hold as [Hk|Hold]; [|left; exact Hold].
              apply elem_of_singleton in Hk. subst g. right. exists obj, u.
              split; [apply elem_of_cons; left; reflexivity | split; [exact Hu | reflexivity]].
           ++ right. exists o, u'.
              split; [apply elem_of_cons; right; exact Ho | split; [exact Hu' | reflexivity]].
    + unfold watchFailed. exec. cbn [fst snd bi watched trace].
      exists []. rewrite app_nil_r. split; [reflexivity|]. split; [constructor|].
      split; [reflexivity|]. split; [intros g Hg; left; exact Hg|].
      split; [reflexivity|]. exists err. split; reflexivity.
Qed.

(** A pass that has fetched its BundleInstance: the way out, the pair
    returned, the registry and the trace. *)
Lemma Reconcile_exit (E : Env) (r : BundleInstanceReconciler)
    (req : types.NamespacedName) (tr : list event) (b0 : BundleInstance) :
  Client_GetBundleInstance E req = Ok b0 ->
  exists err st',
    passExit E r (entry r tr b0) err st' /\
    Reconcile E r req tr =
      ((ctrl.Result0, err),
       {| ReleaseNamespace := ReleaseNamespace r; dynamicWatchGVKs := watched st' |},
       (trace st' ++ patchStatus E (bi st') ++ [LogInfo "ending reconciliation"])%list).
Proof.
  intros Hbi. rewrite (Reconcile_fetched _ _ _ _ _ Hbi).
  destruct (reconcile_exits E r (entry r tr b0)) as [Hres Hexit].
  destruct (run (reconcileBundleInstance E r) (entry r tr b0)) as [[res err] st'].
  cbn [fst snd] in *. subst res. exists err, st'. split; [exact Hexit | reflexivity].
Qed.

Lemma filter_all (f : event -> bool) (l : list event) :
  Forall (fun ev => f ev = true) l -> filter (fun ev => f ev = true) l = l.
Proof.
  intros Hall. induction Hall as [|ev l Hev _ IH]; [reflexivity|].
  rewrite filter_cons_True by exact Hev. rewrite IH. reflexivity.
Qed.

Lemma filter_none (f : event -> bool) (l : list event) :
  Forall (fun ev => f ev = false) l -> filter (fun ev => f ev = true) l = [].
Proof.
  intros Hall. induction Hall as [|ev l Hev _ IH]; [reflexivity|].
  rewrite filter_cons_False by (rewrite Hev; discriminate). exact IH.
Qed.

Lemma applyCall_backend (r : BundleInstanceReconciler) (cl : helmclient.ActionInterface)
    (name : string) (chrt : chart.Chart) (rel : option release.Release)
    (state : releaseState) (ev : event) (res : option (string * ExtError)) :
  applyCall r cl name chrt rel state = Some (ev, res) ->
  isBackendCall ev = true /\ isWatchCall ev = false /\ isStatusPatch ev = false.
Proof.
  destruct state; unfold applyCall; intros [= <- _]; repeat split.
Qed.

(** What a way out shows in the trace and in the registry: at most one
    call of the release backend, then calls of [Controller.Watch]. *)
Lemma passExit_trace (E : Env) (r : BundleInstanceReconciler) (st st' : pass)
    (err : option error) :
  passExit E r st err st' ->
  exists calls wevs,
    trace st' = (trace st ++ calls ++ wevs)%list /\
    (length calls <= 1)%nat /\
    (forall ev, ev ∈ calls ->
       exists b objs chrt cl rel state res,
         Client_GetBundle E InReconcile (Spec_BundleName (bi st)) = Ok b /\
         loadBundle E (bi st) = Ok objs /\
         materialize E objs {| chart.Templates := [] |} st = (Next chrt, st) /\
         ActionClientFor E (SetNamespace (bi st) (ReleaseNamespace r)) = Ok cl /\
         getReleaseState r cl (SetNamespace (bi st) "") chrt = (rel, state, None) /\
         applyCall r cl (Name (bi st)) chrt rel state = Some (ev, res)) /\
    (forall ev, ev ∈ wevs ->
       exists objs obj u,
         loadBundle E (bi st) = Ok objs /\ obj ∈ objs /\ ToUnstructured E obj = Ok u /\
         (unstructured.GroupVersionKind u ∉ watched st) /\
         ev = CallWatch (unstructured.GroupVersionKind u) (Name (bi st))
                (Controller_Watch E u (SetNamespace (bi st) ""))) /\
    watched st ⊆ watched st' /\
    (forall g, g ∈ watched st' ->
       g ∈ watched st \/
       exists objs obj u,
         loadBundle E (bi st) = Ok objs /\ obj ∈ objs /\ ToUnstructured E obj = Ok u /\
         g = unstructured.GroupVersionKind u).
Proof.
  intros Hexit.
  destruct Hexit as [x Hb | b lerr ph Hb Hl Has | b lerr Hb Hl Has
                    | b pre post obj x Hb Hl Hpre Ho
                    | b objs chrt x Hb Hl Hm Hcl
                    | b objs chrt cl rel state e Hb Hl Hm Hcl Hrs
                    | b objs chrt cl rel state ev reason x Hb Hl Hm Hcl Hrs Hcall
                    | b objs chrt cl rel state ev res err st' Hb Hl Hm Hcl Hrs Hcall Hwo
                    | b objs chrt cl rel state ev st' Hb Hl Hm Hcl Hrs Hcall Hwo];
    try (exists [], []; cbn [app watched trace]; rewrite app_nil_r;
         split; [reflexivity|]; split; [simpl; lia|];
         split; [intros ev' Hin; inversion Hin|];
         split; [intros ev' Hin; inversion Hin|];
         split; [reflexivity | intros g Hg; left; exact Hg]).
  - exists [ev], []. cbn [app watched trace].
    split; [reflexivity|]. split; [simpl; lia|].
    split; [|split; [intros e' Hin; inversion Hin|
             split; [reflexivity | intros g Hg; left; exact Hg]]].
    intros e' Hin. apply list_elem_of_singleton in Hin. subst e'.
    exists b, objs, chrt, cl, rel, state, (Some (reason, x)). auto 10.
  - destruct (watchObjects_calls E objs
                {| bi := SetNamespace (bi st) ""; watched := watched st;
                   trace := trace st ++ [ev] |})
      as (wevs & Htr & Hall & Hsub & Hnew & _).
    rewrite Hwo in Htr, Hsub, Hnew. cbn [fst snd bi watched trace] in *.
    exists [ev], wevs. split; [rewrite Htr, <- app_assoc; reflexivity|].
    split; [simpl; lia|]. split; [|split; [|split]].
    + intros e' Hin. apply list_elem_of_singleton in Hin. subst e'.
      exists b, objs, chrt, cl, rel, state, None. auto 10.
    + intros e' Hin. rewrite Forall_forall in Hall.
      destruct (Hall e' Hin) as (o & u & Ho & Hu & Hout & ->).
      exists objs, o, u. auto 10.
    + exact Hsub.
    + intros g Hg. destruct (Hnew g Hg) as [Hold|(o & u & Ho & Hu & ->)];
        [left; exact Hold | right; exists objs, o, u; auto].
  - destruct (watchObjects_calls E objs
                {| bi := SetNamespace (bi st) ""; watched := watched st;
                   trace := trace st ++ [ev] |})
      as (wevs & Htr & Hall & Hsub & Hnew & _).
    rewrite Hwo in Htr, Hsub, Hnew. cbn [fst snd bi watched trace] in *.
    exists [ev], wevs. split; [rewrite Htr, <- app_assoc; reflexivity|].
    split; [simpl; lia|]. split; [|split; [|split]].
    + intros e' Hin. apply list_elem_of_singleton in Hin. subst e'.
      exists b, objs, chrt, cl, rel, state, None. auto 10.
    + intros e' Hin. rewrite Forall_forall in Hall.
      destruct (Hall e' Hin) as (o & u & Ho & Hu & Hout & ->).
      exists objs, o, u. auto 10.
    + exact Hsub.
    + intros g Hg. destruct (Hnew g Hg) as [Hold|(o & u & Ho & Hu & ->)];
        [left; exact Hold | right; exists objs, o, u; auto].
Qed.

Lemma watchObjects_return (E : Env) (objs : list unstructured.Unstructured)
    (st st' : pass) (res : ctrl.Result) (err : option error) :
  watchObjects E objs st = (Return res err, st') ->
  exists e, err = Some (External e) /\
            bi st' = withCondition (bi st) (createDynamicWatchFailed e).
Proof.
  intros Hwo. destruct (watchObjects_calls E objs st) as (_ & _ & _ & _ & _ & Hend).
  rewrite Hwo in Hend. cbn [fst snd] in Hend. exact (proj2 Hend).
Qed.

Lemma watchObjects_next (E : Env) (objs : list unstructured.Unstructured)
    (st st' : pass) :
  watchObjects E objs st = (Next tt, st') -> bi st' = bi st.
Proof.
  intros Hwo. destruct (watchObjects_calls E objs st) as (_ & _ & _ & _ & _ & Hend).
  rewrite Hwo in Hend. exact Hend.
Qed.

(** What a way out does to the BundleInstance: one condition is upserted,
    with the message of the error when there is one; name, managed fields
    and spec stay. *)
Lemma passExit_bi (E : Env) (r : BundleInstanceReconciler) (st st' : pass)
    (err : option error) :
  passExit E r st err st' ->
  exists c,
    Status_Conditions (bi st') = meta.SetStatusCondition (Status_Conditions (bi st)) c /\
    (Type_ c = TypeHasValidBundle \/ Type_ c = TypeInvalidBundleContent \/
     Type_ c = TypeInstalled) /\
    (forall e, err = Some e -> Message c = errors.Error e /\ c <> installedSucceeded) /\
    Name (bi st') = Name (bi st) /\
    ManagedFields (bi st') = ManagedFields (bi st) /\
    Spec_BundleName (bi st') = Spec_BundleName (bi st) /\
    (Namespace (bi st') = Namespace (bi st) \/ Namespace (bi st') = "").
Proof.
  intros Hexit.
  destruct Hexit as [x Hb | b lerr ph Hb Hl Has | b lerr Hb Hl Has
                    | b pre post obj x Hb Hl Hpre Ho
                    | b objs chrt x Hb Hl Hm Hcl
                    | b objs chrt cl rel state e Hb Hl Hm Hcl Hrs
                    | b objs chrt cl rel state ev reason x Hb Hl Hm Hcl Hrs Hcall
                    | b objs chrt cl rel state ev res err st' Hb Hl Hm Hcl Hrs Hcall Hwo
                    | b objs chrt cl rel state ev st' Hb Hl Hm Hcl Hrs Hcall Hwo].
  - eexists. split; [reflexivity|]. split; [left; reflexivity|].
    split; [|repeat split; left; reflexivity].
    intros e He. unfold client.IgnoreNotFound in He.
    destruct (apierrors.IsNotFound (External x)); [discriminate|].
    injection He as <-. split; [reflexivity | discriminate].
  - eexists. split; [reflexivity|]. split; [right; right; reflexivity|].
    split; [intros e He; discriminate | repeat split; left; reflexivity].
  - eexists. split; [reflexivity|]. split; [left; reflexivity|].
    split; [|repeat split; left; reflexivity].
    intros e [= <-]. split; [reflexivity | discriminate].
  - eexists. split; [reflexivity|]. split; [right; left; reflexivity|].
    split; [|repeat split; left; reflexivity].
    intros e [= <-]. split; [reflexivity | discriminate].
  - eexists. split; [reflexivity|]. split; [right; right; reflexivity|].
    split; [|repeat split; right; reflexivity].
    intros e [= <-]. split; [reflexivity | discriminate].
  - eexists. split; [reflexivity|]. split; [right; right; reflexivity|].
    split; [|repeat split; right; reflexivity].
    intros e' [= <-]. split; [reflexivity | discriminate].
  - eexists. split; [reflexivity|]. split; [right; right; reflexivity|].
    split; [|repeat split; right; reflexivity].
    intros e [= <-]. split; [reflexivity | discriminate].
  - destruct (watchObjects_return _ _ _ _ _ _ Hwo) as (e & -> & Hbi).
    cbn [bi] in Hbi. rewrite Hbi.
    eexists. split; [reflexivity|]. split; [right; right; reflexivity|].
    split; [|repeat split; right; reflexivity].
    intros e' [= <-]. split; [reflexivity | discriminate].
  - pose proof (watchObjects_next _ _ _ _ Hwo) as Hbi. cbn [bi] in *. rewrite Hbi.
    eexists. split; [reflexivity|]. split; [right; right; reflexivity|].
    split; [intros e He; discriminate | repeat split; right; reflexivity].
Qed.

(** The errors that come out of a pass are errors of collaborators, as
    they are or under one of the two prefixes of [loadBundle]. *)
Lemma passExit_error (E : Env) (r : BundleInstanceReconciler) (st st' : pass)
    (err : option error) (e : error) :
  passExit E r st err st' -> err = Some e ->
  (exists x, e = External x) \/
  (exists x, e = Wrapf ("get bundle " +:+ fmt.quote (Spec_BundleName (bi st)) +:+ ": ")
                       (External x)) \/
  (exists x, e = Wrapf "load bundle objects: " (External x)).
Proof.
  intros Hexit He.
  destruct Hexit as [x Hb | b lerr ph Hb Hl Has | b lerr Hb Hl Has
                    | b pre post obj x Hb Hl Hpre Ho
                    | b objs chrt x Hb Hl Hm Hcl
                    | b objs chrt cl rel state e0 Hb Hl Hm Hcl Hrs
                    | b objs chrt cl rel state ev reason x Hb Hl Hm Hcl Hrs Hcall
                    | b objs chrt cl rel state ev res err st' Hb Hl Hm Hcl Hrs Hcall Hwo
                    | b objs chrt cl rel state ev st' Hb Hl Hm Hcl Hrs Hcall Hwo];
    try discriminate; try (injection He as <-; left; eauto; fail).
  - unfold client.IgnoreNotFound in He.
    destruct (apierrors.IsNotFound (External x)); [discriminate|].
    injection He as <-. left. eauto.
  - injection He as <-.
    destruct (loadBundle_fail _ _ _ Hl)
      as [(x & _ & ->) | [(b' & _ & _ & ->) | (b' & x & _ & _ & _ & ->)]].
    + right. left. eauto.
    + discriminate.
    + right. right. eauto.
  - injection He as <-.
    destruct (getReleaseState_cases r cl (SetNamespace (bi st) "") chrt)
      as [(x & _ & _ & H) | [(x & _ & _ & H) | [(c & x & _ & _ & H)
         | [(c & d & _ & _ & _ & H) | (c & d & _ & _ & _ & _ & _ & H)]]]];
      rewrite H in Hrs; try discriminate; inversion Hrs; subst; left; eauto.
  - destruct (watchObjects_return _ _ _ _ _ _ Hwo) as (x & -> & _).
    injection He as <-. left. eauto.
Qed.

End ways_out.

(** ** More about the evaluator and about what a pass returns *)

Section returns.
Import controllers rukpakv1alpha1 metav1 lifetime exits.

(** X1. The evaluator reports state error exactly when it reports an error; it
    returns no release exactly when the lookup failed, and otherwise the
    release it looked up.  So the [default] case of the switch of lines 188
    to 226 is never taken. *)
Theorem getReleaseState_error_state
    (r : BundleInstanceReconciler) (cl : helmclient.ActionInterface)
    (obj : BundleInstance) (chrt : chart.Chart)
    (rel : option release.Release) (state : releaseState) (err : option error) :
  getReleaseState r cl obj chrt = (rel, state, err) ->
  (state = stateError <-> err <> None) /\
  (rel = None <-> exists e, helmclient.Get cl (Name obj) = Fail e) /\
  (forall cur, rel = Some cur -> helmclient.Get cl (Name obj) = Ok cur) /\
  (err = None -> exists ev res, applyCall r cl (Name obj) chrt rel state = Some (ev, res)).
Proof.
  intros Hrs.
  destruct (getReleaseState_cases r cl obj chrt)
    as [(e & Hg & _ & H) | [(e & Hg & _ & H) | [(c & e & Hg & _ & H)
       | [(c & d & Hg & _ & _ & H) | (c & d & Hg & _ & _ & _ & _ & H)]]]];
    rewrite H in Hrs; injection Hrs as <- <- <-;
    (split; [split; [intros; discriminate || congruence | intros; congruence]|]);
    (split; [split; [intros; discriminate || eauto | intros [e' He']; congruence]|]);
    (split; [intros cur [= <-]; exact Hg || discriminate | ]);
    try (intros; discriminate); intros _; unfold applyCall; eauto.
Qed.

(** X2. [Reconcile] always returns the zero [Result], and an error it returns
    is the error of a collaborator, as it is or under the prefix that
    [loadBundle] puts before it. *)
Theorem Reconcile_returns
    (E : Env) (r : BundleInstanceReconciler) (req : types.NamespacedName)
    (tr : list event) :
  (Reconcile E r req tr).1.1.1 = ctrl.Result0 /\
  forall e, (Reconcile E r req tr).1.1.2 = Some e ->
    (exists x, e = External x) \/
    (exists x pre, e = Wrapf pre (External x) /\
                   (pre = "load bundle objects: " \/
                    exists b0, Client_GetBundleInstance E req = Ok b0 /\
                               pre = "get bundle " +:+ fmt.quote (Spec_BundleName b0) +:+ ": ")).
Proof.
  destruct (Client_GetBundleInstance E req) as [b0|x] eqn:Hbi.
  - destruct (Reconcile_exit E r req tr b0 Hbi) as (err & st' & Hexit & ->).
    cbn [fst snd]. split; [reflexivity|]. intros e He.
    destruct (passExit_error _ _ _ _ _ _ Hexit He) as [Hx | [[x ->] | [x ->]]].
    + left. exact Hx.
    + right. exists x. eexists. split; [reflexivity|]. right. exists b0. split; reflexivity.
    + right. exists x. eexists. split; [reflexivity|]. left. reflexivity.
  - rewrite (Reconcile_not_fetched _ _ _ _ _ Hbi). cbn [fst snd].
    split; [reflexivity|]. intros e He. unfold client.IgnoreNotFound in He.
    destruct (apierrors.IsNotFound (External x)); [discriminate|].
    injection He as <-. left. eauto.
Qed.

End returns.

Lemma getReleaseState_error_state_witness :
  (controllers.stateNeedsInstall = controllers.stateError <-> @None error <> None) /\
  exists ev res,
    exits.applyCall world.r0 (world.helm None) "inst-a" {| chart.Templates := [] |}
      None controllers.stateNeedsInstall = Some (ev, res).
Proof.
  destruct (getReleaseState_error_state world.r0 (world.helm None) world.inst_a
              {| chart.Templates := [] |} None controllers.stateNeedsInstall None eq_refl)
    as (Hstate & _ & _ & Hcall).
  split; [exact Hstate | exact (Hcall eq_refl)].
Defined.

(** ** More about the calls of a pass *)

Section calls.
Import controllers rukpakv1alpha1 metav1 lifetime exits.

Lemma patchStatus_kinds (E : Env) (b : BundleInstance) :
  Forall (fun ev => isBackendCall ev = false) (patchStatus E b) /\
  Forall (fun ev => isWatchCall ev = false) (patchStatus E b).
Proof.
  unfold patchStatus. destruct (Client_StatusPatch E _); split; repeat constructor.
Qed.

(** The events of a pass that has fetched its BundleInstance, in their
    order: the log line, at most one call of the release backend, the calls
    of [Controller.Watch], the status patch, the log line. *)
Lemma Reconcile_news (E : Env) (r : BundleInstanceReconciler)
    (req : types.NamespacedName) (tr : list event) (b0 : BundleInstance) :
  Client_GetBundleInstance E req = Ok b0 ->
  exists err st' calls wevs,
    passExit E r (entry r tr b0) err st' /\
    Reconcile E r req tr =
      ((ctrl.Result0, err),
       {| ReleaseNamespace := ReleaseNamespace r; dynamicWatchGVKs := watched st' |},
       (tr ++ [LogInfo "starting reconciliation"] ++ calls ++ wevs ++
        patchStatus E (bi st') ++ [LogInfo "ending reconciliation"])%list) /\
    (length calls <= 1)%nat /\
    (forall ev, ev ∈ calls ->
       exists b objs chrt cl rel state res,
         Client_GetBundle E InReconcile (Spec_BundleName b0) = Ok b /\
         loadBundle E b0 = Ok objs /\
         materialize E objs {| chart.Templates := [] |} (entry r tr b0) =
           (Next chrt, entry r tr b0) /\
         ActionClientFor E (SetNamespace b0 (ReleaseNamespace r)) = Ok cl /\
         getReleaseState r cl (SetNamespace b0 "") chrt = (rel, state, None) /\
         applyCall r cl (Name b0) chrt rel state = Some (ev, res)) /\
    (forall ev, ev ∈ wevs ->
       exists objs obj u,
         loadBundle E b0 = Ok objs /\ obj ∈ objs /\ ToUnstructured E obj = Ok u /\
         (unstructured.GroupVersionKind u ∉ dynamicWatchGVKs r) /\
         ev = CallWatch (unstructured.GroupVersionKind u) (Name b0)
                (Controller_Watch E u (SetNamespace b0 ""))) /\
    dynamicWatchGVKs r ⊆ watched st' /\
    (forall g, g ∈ watched st' ->
       g ∈ dynamicWatchGVKs r \/
       exists objs obj u,
         loadBundle E b0 = Ok objs /\ obj ∈ objs /\ ToUnstructured E obj = Ok u /\
         g = unstructured.GroupVersionKind u).
Proof.
  intros Hbi.
  destruct (Reconcile_exit E r req tr b0 Hbi) as (err & st' & Hexit & Hrun).
  destruct (passExit_trace _ _ _ _ _ Hexit)
    as (calls & wevs & Htr & Hlen & Hcalls & Hwevs & Hsub & Hnew).
  exists err, st', calls, wevs. split; [exact Hexit|]. split.
  - rewrite Hrun, Htr. cbn [entry trace]. rewrite <- !app_assoc. reflexivity.
  - repeat split; assumption.
Qed.

Lemma news_backendCalls (E : Env) (b : BundleInstance) (calls wevs : list event)
    (s1 s2 : string) :
  Forall (fun ev => isBackendCall ev = true) calls ->
  Forall (fun ev => isWatchCall ev = true) wevs ->
  backendCalls ([LogInfo s1] ++ calls ++ wevs ++ patchStatus E b ++ [LogInfo s2]) = calls /\
  watchCalls ([LogInfo s1] ++ calls ++ wevs ++ patchStatus E b ++ [LogInfo s2]) = wevs.
Proof.
  intros Hc Hw. destruct (patchStatus_kinds E b) as [Hpb Hpw].
  unfold backendCalls, watchCalls. rewrite !filter_app. split.
  - rewrite (filter_all isBackendCall calls Hc).
    rewrite (filter_none isBackendCall wevs), (filter_none isBackendCall (patchStatus E b) Hpb).
    + cbn. rewrite app_nil_r. reflexivity.
    + eapply Forall_impl; [exact Hw|]. intros ev Hev. destruct ev; try discriminate; reflexivity.
  - rewrite (filter_all isWatchCall wevs Hw).
    rewrite (filter_none isWatchCall calls), (filter_none isWatchCall (patchStatus E b) Hpw).
    + cbn. rewrite app_nil_r. reflexivity.
    + eapply Forall_impl; [exact Hc|]. intros ev Hev. destruct ev; try discriminate; reflexivity.
Qed.

(** X3. The release backend is called only for an unpacked bundle: a pass
    that calls Install, Upgrade or Reconcile has read the Bundle twice, and
    the second read, the one of [loadBundle], showed phase Unpacked. *)
Theorem Reconcile_applies_only_unpacked
    (E : Env) (r : BundleInstanceReconciler) (req : types.NamespacedName)
    (tr : list event) :
  exists news,
    (Reconcile E r req tr).2 = (tr ++ news)%list /\
    forall ev, ev ∈ news -> isBackendCall ev = true ->
      exists b0 b1 b2,
        Client_GetBundleInstance E req = Ok b0 /\
        Client_GetBundle E InReconcile (Spec_BundleName b0) = Ok b1 /\
        Client_GetBundle E InLoadBundle (Spec_BundleName b0) = Ok b2 /\
        Bundle_Status_Phase b2 = PhaseUnpacked.
Proof.
  destruct (Client_GetBundleInstance E req) as [b0|x] eqn:Hbi.
  - destruct (Reconcile_news E r req tr b0 Hbi)
      as (err & st' & calls & wevs & _ & -> & _ & Hcalls & Hwevs & _).
    cbn [snd]. eexists. split; [reflexivity|].
    intros ev Hin Hback.
    assert (Hc : ev ∈ calls).
    { apply elem_of_app in Hin as [Hin|Hin];
        [apply list_elem_of_singleton in Hin; subst ev; discriminate|].
      apply elem_of_app in Hin as [Hin|Hin]; [exact Hin|]. exfalso.
      apply elem_of_app in Hin as [Hin|Hin].
      - destruct (Hwevs ev Hin) as (? & ? & ? & _ & _ & _ & _ & ->). discriminate.
      - apply elem_of_app in Hin as [Hin|Hin].
        + destruct (patchStatus_kinds E (bi st')) as [Hp _].
          rewrite Forall_forall in Hp. rewrite (Hp ev Hin) in Hback. discriminate.
        + apply list_elem_of_singleton in Hin; subst ev; discriminate. }
    destruct (Hcalls ev Hc) as (b & objs & chrt & cl & rel & state & res & Hb & Hl & _).
    apply loadBundle_ok in Hl as (b2 & objects & Hb2 & Hph & _).
    exists b0, b, b2. auto.
  - rewrite (Reconcile_not_fetched _ _ _ _ _ Hbi). cbn [snd].
    eexists. split; [reflexivity|]. intros ev Hin Hback. exfalso.
    repeat (apply elem_of_cons in Hin as [->|Hin]; [discriminate|]). inversion Hin.
Qed.

(** X4. The switch of lines 188 to 226 makes at most one call in a pass,
    and the call is the one of the release state that [getReleaseState]
    has returned for the same client and chart: Install, without creating
    the namespace, when the release is not found; Upgrade, not as a dry
    run, when the dry-run manifest differs or the release is failed or
    superseded; Reconcile of the release on record otherwise.  The chart is
    the one made of the loaded objects, the name is the name of the
    BundleInstance, the namespace the one of the reconciler.  The [Get]
    and the dry run of [Upgrade] by which [getReleaseState] tells the
    state (lines 285 and 292) come before that call on the same client;
    they are reads, which the trace does not record, and are not counted
    here. *)
Theorem Reconcile_one_backend_call
    (E : Env) (r : BundleInstanceReconciler) (req : types.NamespacedName)
    (tr : list event) (b0 : BundleInstance) :
  Client_GetBundleInstance E req = Ok b0 ->
  exists news,
    (Reconcile E r req tr).2 = (tr ++ news)%list /\
    (length (backendCalls news) <= 1)%nat /\
    forall ev, ev ∈ backendCalls news ->
      exists cl objs chrt,
        ActionClientFor E (SetNamespace b0 (ReleaseNamespace r)) = Ok cl /\
        loadBundle E b0 = Ok objs /\
        Forall2 (templateOf E) objs (chart.Templates chrt) /\
        (exists rel state res,
            getReleaseState r cl (SetNamespace b0 "") chrt = (rel, state, None) /\
            applyCall r cl (Name b0) chrt rel state = Some (ev, res)) /\
        ((exists e,
             helmclient.Get cl (Name b0) = Fail e /\ ext_is_release_not_found e = true /\
             ev = CallInstall (Name b0) (ReleaseNamespace r) chrt false
                    (helmclient.Install cl (Name b0) (ReleaseNamespace r) chrt false)) \/
         (exists cur des,
             helmclient.Get cl (Name b0) = Ok cur /\
             helmclient.Upgrade cl (Name b0) (ReleaseNamespace r) chrt true = Ok des /\
             (release.Manifest des <> release.Manifest cur \/
              release.Info_Status cur = release.StatusFailed \/
              release.Info_Status cur = release.StatusSuperseded) /\
             ev = CallUpgrade (Name b0) (ReleaseNamespace r) chrt
                    (helmclient.Upgrade cl (Name b0) (ReleaseNamespace r) chrt false)) \/
         (exists cur des,
             helmclient.Get cl (Name b0) = Ok cur /\
             helmclient.Upgrade cl (Name b0) (ReleaseNamespace r) chrt true = Ok des /\
             release.Manifest des = release.Manifest cur /\
             release.Info_Status cur <> release.StatusFailed /\
             release.Info_Status cur <> release.StatusSuperseded /\
             ev = CallReconcile (Some cur) (helmclient.Reconcile cl (Some cur)))).
Proof.
  intros Hbi.
  destruct (Reconcile_news E r req tr b0 Hbi)
    as (err & st' & calls & wevs & _ & -> & Hlen & Hcalls & Hwevs & _).
  cbn [snd]. eexists. split; [reflexivity|].
  assert (Hc : Forall (fun ev => isBackendCall ev = true) calls).
  { apply Forall_forall. intros ev Hin.
    destruct (Hcalls ev Hin) as (? & ? & ? & ? & ? & ? & ? & _ & _ & _ & _ & _ & Hcall).
    exact (proj1 (applyCall_backend _ _ _ _ _ _ _ _ Hcall)). }
  assert (Hw : Forall (fun ev => isWatchCall ev = true) wevs).
  { apply Forall_forall. intros ev Hin.
    destruct (Hwevs ev Hin) as (? & ? & ? & _ & _ & _ & _ & ->). reflexivity. }
  rewrite (proj1 (news_backendCalls E (bi st') calls wevs _ _ Hc Hw)).
  split; [exact Hlen|]. intros ev Hin.
  destruct (Hcalls ev Hin) as (b & objs & chrt & cl & rel & state & res
                               & Hb & Hl & Hm & Hcl & Hrs & Hcall).
  exists cl, objs, chrt. split; [exact Hcl|]. split; [exact Hl|].
  split; [exact (proj1 (materialize_names_from_digest_aux _ _ _ _ _ Hm))|].
  split; [exists rel, state, res; split; assumption|].
  destruct (getReleaseState_cases r cl (SetNamespace b0 "") chrt)
    as [(e & Hg & Hnf & H) | [(e & Hg & _ & H) | [(c & e & Hg & _ & H)
       | [(c & d & Hg & Hd & Hne & H) | (c & d & Hg & Hd & Heq & Hf & Hs & H)]]]];
    rewrite H in Hrs; try discriminate; injection Hrs as <- <-;
    unfold applyCall in Hcall; injection Hcall as <- _; cbn [Name SetNamespace] in *.
  - left. exists e. auto.
  - right. left. exists c, d. auto.
  - right. right. exists c, d. auto 7.
Qed.

End calls.

Lemma Reconcile_one_backend_call_witness :
  exists news,
    (controllers.Reconcile world.settled world.r0 world.req_a []).2 = ([] ++ news)%list /\
    (length (exits.backendCalls news) <= 1)%nat.
Proof.
  destruct (Reconcile_one_backend_call world.settled world.r0 world.req_a [] world.inst_a
              eq_refl) as (news & Htr & Hlen & _).
  exists news. split; assumption.
Defined.

(** ** More about the conditions, the patch and the registry *)

Section after_pass.
Import controllers rukpakv1alpha1 metav1 lifetime exits.

Lemma news_statusPatches (E : Env) (b : BundleInstance) (calls wevs : list event)
    (s1 s2 : string) :
  Forall (fun ev => isBackendCall ev = true) calls ->
  Forall (fun ev => isWatchCall ev = true) wevs ->
  statusPatches ([LogInfo s1] ++ calls ++ wevs ++ patchStatus E b ++ [LogInfo s2]) =
  [CallStatusPatch (SetManagedFields b []) plainBundleProvisionerID
     (Client_StatusPatch E (SetManagedFields b []))].
Proof.
  intros Hc Hw. unfold statusPatches. rewrite !filter_app.
  rewrite (filter_none isStatusPatch calls), (filter_none isStatusPatch wevs).
  - unfold patchStatus. destruct (Client_StatusPatch E _); reflexivity.
  - eapply Forall_impl; [exact Hw|]. intros ev Hev. destruct ev; try discriminate; reflexivity.
  - eapply Forall_impl; [exact Hc|]. intros ev Hev. destruct ev; try discriminate; reflexivity.
Qed.

Lemma news_kinds (E : Env) (r : BundleInstanceReconciler) (tr : list event)
    (b0 : BundleInstance) (calls wevs : list event) :
  (forall ev, ev ∈ calls ->
     exists b objs chrt cl rel state res,
       Client_GetBundle E InReconcile (Spec_BundleName b0) = Ok b /\
       loadBundle E b0 = Ok objs /\
       materialize E objs {| chart.Templates := [] |} (entry r tr b0) =
         (Next chrt, entry r tr b0) /\
       ActionClientFor E (SetNamespace b0 (ReleaseNamespace r)) = Ok cl /\
       getReleaseState r cl (SetNamespace b0 "") chrt = (rel, state, None) /\
       applyCall r cl (Name b0) chrt rel state = Some (ev, res)) ->
  (forall ev, ev ∈ wevs ->
     exists objs obj u,
       loadBundle E b0 = Ok objs /\ obj ∈ objs /\ ToUnstructured E obj = Ok u /\
       (unstructured.GroupVersionKind u ∉ dynamicWatchGVKs r) /\
       ev = CallWatch (unstructured.GroupVersionKind u) (Name b0)
              (Controller_Watch E u (SetNamespace b0 ""))) ->
  Forall (fun ev => isBackendCall ev = true) calls /\
  Forall (fun ev => isWatchCall ev = true) wevs.
Proof.
  intros Hcalls Hwevs. split; apply Forall_forall; intros ev Hin.
  - destruct (Hcalls ev Hin) as (? & ? & ? & ? & ? & ? & ? & _ & _ & _ & _ & _ & Hcall).
    exact (proj1 (applyCall_backend _ _ _ _ _ _ _ _ Hcall)).
  - destruct (Hwevs ev Hin) as (? & ? & ? & _ & _ & _ & _ & ->). reflexivity.
Qed.

(** X5. A pass that has fetched its BundleInstance upserts exactly one
    condition, of type HasValidBundle, InvalidBundleContent or Installed,
    and patches the result: the conditions of every other type go into the
    patch as they were fetched.  When the pass returns an error, the
    message of the condition is the message of that error, and the
    condition is not Installed=True/InstallationSucceeded. *)
Theorem Reconcile_one_condition
    (E : Env) (r : BundleInstanceReconciler) (req : types.NamespacedName)
    (tr : list event) (b0 : BundleInstance) :
  Client_GetBundleInstance E req = Ok b0 ->
  exists news b' c,
    (Reconcile E r req tr).2 = (tr ++ news)%list /\
    statusPatches news =
      [CallStatusPatch b' plainBundleProvisionerID (Client_StatusPatch E b')] /\
    Status_Conditions b' = meta.SetStatusCondition (Status_Conditions b0) c /\
    (Type_ c = TypeHasValidBundle \/ Type_ c = TypeInvalidBundleContent \/
     Type_ c = TypeInstalled) /\
    meta.FindStatusCondition (Status_Conditions b') (Type_ c) = Some c /\
    (forall t, t <> Type_ c ->
       meta.FindStatusCondition (Status_Conditions b') t =
       meta.FindStatusCondition (Status_Conditions b0) t) /\
    (forall e, (Reconcile E r req tr).1.1.2 = Some e ->
       Message c = errors.Error e /\ c <> installedSucceeded).
Proof.
  intros Hbi.
  destruct (Reconcile_news E r req tr b0 Hbi)
    as (err & st' & calls & wevs & Hexit & -> & _ & Hcalls & Hwevs & _).
  destruct (news_kinds E r tr b0 calls wevs Hcalls Hwevs) as [Hc Hw].
  destruct (passExit_bi _ _ _ _ _ Hexit) as (c & Hconds & Htype & Hmsg & _).
  cbn [fst snd entry bi] in *.
  eexists. exists (SetManagedFields (bi st') []), c.
  split; [reflexivity|].
  split; [apply news_statusPatches; assumption|].
  cbn [Status_Conditions SetManagedFields]. rewrite Hconds.
  split; [reflexivity|]. split; [exact Htype|].
  split; [apply find_set_same|]. split; [|exact Hmsg].
  intros t Ht. apply find_set_other. exact Ht.
Qed.

Lemma passExit_namespace (E : Env) (r : BundleInstanceReconciler) (st st' : pass)
    (err : option error) :
  passExit E r st err st' -> trace st' <> trace st -> Namespace (bi st') = "".
Proof.
  intros Hexit.
  destruct Hexit as [x Hb | b lerr ph Hb Hl Has | b lerr Hb Hl Has
                    | b pre post obj x Hb Hl Hpre Ho
                    | b objs chrt x Hb Hl Hm Hcl
                    | b objs chrt cl rel state e Hb Hl Hm Hcl Hrs
                    | b objs chrt cl rel state ev reason x Hb Hl Hm Hcl Hrs Hcall
                    | b objs chrt cl rel state ev res err st' Hb Hl Hm Hcl Hrs Hcall Hwo
                    | b objs chrt cl rel state ev st' Hb Hl Hm Hcl Hrs Hcall Hwo];
    cbn [trace bi]; intros Hne; try (exfalso; apply Hne; reflexivity); try reflexivity.
  - destruct (watchObjects_return _ _ _ _ _ _ Hwo) as (e & _ & Hbi).
    rewrite Hbi. reflexivity.
  - rewrite (watchObjects_next _ _ _ _ Hwo). reflexivity.
Qed.

(** X6. The object that a pass patches is the fetched BundleInstance with its
    name and its spec as they were and with no managed fields; its
    namespace is the fetched one or empty, and empty whenever the pass has
    called the release backend. *)
Theorem Reconcile_patched_object
    (E : Env) (r : BundleInstanceReconciler) (req : types.NamespacedName)
    (tr : list event) (b0 : BundleInstance) :
  Client_GetBundleInstance E req = Ok b0 ->
  exists news b',
    (Reconcile E r req tr).2 = (tr ++ news)%list /\
    statusPatches news =
      [CallStatusPatch b' plainBundleProvisionerID (Client_StatusPatch E b')] /\
    Name b' = Name b0 /\
    Spec_BundleName b' = Spec_BundleName b0 /\
    ManagedFields b' = [] /\
    (Namespace b' = Namespace b0 \/ Namespace b' = "") /\
    (backendCalls news <> [] -> Namespace b' = "").
Proof.
  intros Hbi.
  destruct (Reconcile_exit E r req tr b0 Hbi) as (err & st' & Hexit & ->).
  destruct (passExit_trace _ _ _ _ _ Hexit)
    as (calls & wevs & Htr & _ & Hcalls & Hwevs & _).
  destruct (news_kinds E r tr b0 calls wevs Hcalls Hwevs) as [Hc Hw].
  destruct (passExit_bi _ _ _ _ _ Hexit) as (c & _ & _ & _ & Hname & _ & Hspec & Hns).
  cbn [fst snd entry bi trace] in *.
  exists ([LogInfo "starting reconciliation"] ++ calls ++ wevs ++
          patchStatus E (bi st') ++ [LogInfo "ending reconciliation"])%list.
  exists (SetManagedFields (bi st') []).
  split; [rewrite Htr, <- !app_assoc; reflexivity|].
  split; [apply news_statusPatches; assumption|].
  cbn [Name Spec_BundleName ManagedFields Namespace SetManagedFields].
  split; [exact Hname|]. split; [exact Hspec|]. split; [reflexivity|].
  split; [exact Hns|].
  rewrite (proj1 (news_backendCalls E (bi st') calls wevs _ _ Hc Hw)).
  intros Hne. apply (passExit_namespace _ _ _ _ _ Hexit). cbn [trace entry].
  rewrite Htr. intros Heq. apply Hne.
  rewrite <- (app_nil_r (tr ++ [LogInfo "starting reconciliation"])) in Heq at 2.
  apply app_inv_head in Heq. apply app_eq_nil in Heq. exact (proj1 Heq).
Qed.

End after_pass.

Lemma Reconcile_one_condition_witness :
  exists news b' c,
    (controllers.Reconcile world.unwatchable world.r0 world.req_a []).2 = ([] ++ news)%list /\
    rukpakv1alpha1.Status_Conditions b' =
      meta.SetStatusCondition (rukpakv1alpha1.Status_Conditions world.inst_a) c /\
    meta.FindStatusCondition (rukpakv1alpha1.Status_Conditions b') (metav1.Type_ c) = Some c.
Proof.
  destruct (Reconcile_one_condition world.unwatchable world.r0 world.req_a [] world.inst_a
              eq_refl) as (news & b' & c & Htr & _ & Hconds & _ & Hfind & _).
  exists news, b', c. repeat split; assumption.
Defined.

Lemma Reconcile_patched_object_witness :
  exists news b',
    (controllers.Reconcile world.fresh world.r0 world.req_a []).2 = ([] ++ news)%list /\
    rukpakv1alpha1.Name b' = "inst-a" /\
    rukpakv1alpha1.ManagedFields b' = [].
Proof.
  destruct (Reconcile_patched_object world.fresh world.r0 world.req_a [] world.inst_a
              eq_refl) as (news & b' & Htr & _ & Hname & _ & Hmf & _).
  exists news, b'. repeat split; assumption.
Defined.

(** ** More about the subscriptions of a pass *)

Section watching.
Import controllers rukpakv1alpha1 metav1 lifetime exits.

Lemma applyCall_applied (r : BundleInstanceReconciler) (cl : helmclient.ActionInterface)
    (name : string) (chrt : chart.Chart) (rel : option release.Release)
    (state : releaseState) (ev : event) :
  applyCall r cl name chrt rel state = Some (ev, None) -> applied ev = true.
Proof.
  destruct state; unfold applyCall; try discriminate.
  - destruct (helmclient.Install cl name (ReleaseNamespace r) chrt false) eqn:Hres;
      intros [= <-]; reflexivity.
  - destruct (helmclient.Upgrade cl name (ReleaseNamespace r) chrt false) eqn:Hres;
      intros [= <-]; reflexivity.
  - destruct (helmclient.Reconcile cl rel) eqn:Hres; intros [= <-]; reflexivity.
Qed.

Lemma watch_calls_only (E : Env) (objs : list unstructured.Unstructured) (st : pass)
    (wevs : list event) :
  Forall (fun ev => exists obj u,
              obj ∈ objs /\ ToUnstructured E obj = Ok u /\
              (unstructured.GroupVersionKind u ∉ watched st) /\
              ev = CallWatch (unstructured.GroupVersionKind u) (Name (bi st))
                     (Controller_Watch E u (bi st))) wevs ->
  Forall (fun ev => isWatchCall ev = true) wevs /\
  Forall (fun ev => isBackendCall ev = false) wevs.
Proof.
  intros Hall. split; (eapply Forall_impl; [exact Hall|]);
    intros ev (obj & u & _ & _ & _ & ->); reflexivity.
Qed.

(** A pass calls [Controller.Watch] only after its call of the release
    backend went well. *)
Lemma passExit_watch_applied (E : Env) (r : BundleInstanceReconciler) (st st' : pass)
    (err : option error) (news : list event) :
  passExit E r st err st' ->
  trace st' = (trace st ++ news)%list ->
  watchCalls news <> [] ->
  exists ev, backendCalls news = [ev] /\ applied ev = true.
Proof.
  intros Hexit.
  assert (Hnil : forall l : list event, l = (l ++ news)%list -> news = []).
  { intros l Hl. rewrite <- (app_nil_r l) in Hl at 1. apply app_inv_head in Hl. auto. }
  destruct Hexit as [x Hb | b lerr ph Hb Hl Has | b lerr Hb Hl Has
                    | b pre post obj x Hb Hl Hpre Ho
                    | b objs chrt x Hb Hl Hm Hcl
                    | b objs chrt cl rel state e Hb Hl Hm Hcl Hrs
                    | b objs chrt cl rel state ev reason x Hb Hl Hm Hcl Hrs Hcall
                    | b objs chrt cl rel state ev res err st' Hb Hl Hm Hcl Hrs Hcall Hwo
                    | b objs chrt cl rel state ev st' Hb Hl Hm Hcl Hrs Hcall Hwo];
    cbn [trace]; intros Htr Hne;
    try (apply Hnil in Htr; subst news; exfalso; apply Hne; reflexivity).
  - apply app_inv_head in Htr. subst news. exfalso. apply Hne.
    destruct (applyCall_backend _ _ _ _ _ _ _ _ Hcall) as (_ & Hw & _).
    unfold watchCalls. rewrite filter_cons_False by (rewrite Hw; discriminate). reflexivity.
  - destruct (watchObjects_calls E objs
                {| bi := SetNamespace (bi st) ""; watched := watched st;
                   trace := trace st ++ [ev] |}) as (wevs & Hw & Hall & _).
    rewrite Hwo in Hw. cbn [fst snd trace] in Hw.
    rewrite Hw, <- app_assoc in Htr. apply app_inv_head in Htr. subst news.
    exists ev. split; [|exact (applyCall_applied _ _ _ _ _ _ _ Hcall)].
    destruct (applyCall_backend _ _ _ _ _ _ _ _ Hcall) as (Hb' & _ & _).
    destruct (watch_calls_only _ _ _ _ Hall) as [_ Hnb].
    unfold backendCalls. cbn [app]. rewrite filter_cons_True by exact Hb'.
    rewrite (filter_none isBackendCall wevs Hnb). reflexivity.
  - destruct (watchObjects_calls E objs
                {| bi := SetNamespace (bi st) ""; watched := watched st;
                   trace := trace st ++ [ev] |}) as (wevs & Hw & Hall & _).
    rewrite Hwo in Hw. cbn [fst snd trace] in Hw.
    rewrite Hw, <- app_assoc in Htr. apply app_inv_head in Htr. subst news.
    exists ev. split; [|exact (applyCall_applied _ _ _ _ _ _ _ Hcall)].
    destruct (applyCall_backend _ _ _ _ _ _ _ _ Hcall) as (Hb' & _ & _).
    destruct (watch_calls_only _ _ _ _ Hall) as [_ Hnb].
    unfold backendCalls. cbn [app]. rewrite filter_cons_True by exact Hb'.
    rewrite (filter_none isBackendCall wevs Hnb). reflexivity.
Qed.

Lemma calls_of_news (E : Env) (b : BundleInstance) (s1 s2 : string) (evs : list event) :
  backendCalls ([LogInfo s1] ++ evs ++ patchStatus E b ++ [LogInfo s2]) = backendCalls evs /\
  watchCalls ([LogInfo s1] ++ evs ++ patchStatus E b ++ [LogInfo s2]) = watchCalls evs.
Proof.
  destruct (patchStatus_kinds E b) as [Hpb Hpw].
  unfold backendCalls, watchCalls. rewrite !filter_app.
  rewrite (filter_none isBackendCall (patchStatus E b) Hpb).
  rewrite (filter_none isWatchCall (patchStatus E b) Hpw).
  cbn. rewrite !app_nil_r. split; reflexivity.
Qed.

(** A pass over objects whose kinds the registry holds. *)
Lemma Reconcile_no_new_kind (E : Env) (r : BundleInstanceReconciler)
    (req : types.NamespacedName) (tr : list event) (b0 : BundleInstance) :
  Client_GetBundleInstance E req = Ok b0 ->
  exists news,
    (Reconcile E r req tr).2 = (tr ++ news)%list /\
    ((forall objs obj u,
         loadBundle E b0 = Ok objs -> obj ∈ objs -> ToUnstructured E obj = Ok u ->
         unstructured.GroupVersionKind u ∈ dynamicWatchGVKs r) ->
     watchCalls news = [] /\
     dynamicWatchGVKs (Reconcile E r req tr).1.2 = dynamicWatchGVKs r).
Proof.
  intros Hbi.
  destruct (Reconcile_news E r req tr b0 Hbi)
    as (err & st' & calls & wevs & _ & -> & _ & Hcalls & Hwevs & Hsub & Hnew).
  destruct (news_kinds E r tr b0 calls wevs Hcalls Hwevs) as [Hc Hw].
  cbn [fst snd dynamicWatchGVKs]. eexists. split; [reflexivity|].
  rewrite (proj2 (news_backendCalls E (bi st') calls wevs _ _ Hc Hw)).
  intros Hall.
  assert (Hno : wevs = []).
  { destruct wevs as [|ev wevs']; [reflexivity|]. exfalso.
    destruct (Hwevs ev (list_elem_of_here _ _)) as (objs & obj & u & Hl & Ho & Hu & Hout & _).
    exact (Hout (Hall objs obj u Hl Ho Hu)). }
  split; [exact Hno|].
  apply leibniz_equiv. apply (anti_symm (⊆)); [|exact Hsub].
  intros g Hg. destruct (Hnew g Hg) as [Hold|(objs & obj & u & Hl & Ho & Hu & ->)];
    [exact Hold | exact (Hall objs obj u Hl Ho Hu)].
Qed.

(** X7. The calls of [Controller.Watch] of a pass: each is for an object of
    the bundle whose kind the registry did not hold when the pass began,
    with the BundleInstance as owner, and there is none unless the call of
    the release backend went well.  The registry only grows, by kinds of
    objects of the bundle; when it already holds the kinds of all of
    them, the pass calls [Controller.Watch] not once and the registry stays
    as it is. *)
Theorem Reconcile_watch_calls
    (E : Env) (r : BundleInstanceReconciler) (req : types.NamespacedName)
    (tr : list event) (b0 : BundleInstance) :
  Client_GetBundleInstance E req = Ok b0 ->
  exists news,
    (Reconcile E r req tr).2 = (tr ++ news)%list /\
    (forall ev, ev ∈ watchCalls news ->
       exists objs obj u,
         loadBundle E b0 = Ok objs /\ obj ∈ objs /\ ToUnstructured E obj = Ok u /\
         (unstructured.GroupVersionKind u ∉ dynamicWatchGVKs r) /\
         ev = CallWatch (unstructured.GroupVersionKind u) (Name b0)
                (Controller_Watch E u (SetNamespace b0 ""))) /\
    (watchCalls news <> [] ->
       exists ev, backendCalls news = [ev] /\ applied ev = true) /\
    dynamicWatchGVKs r ⊆ dynamicWatchGVKs (Reconcile E r req tr).1.2 /\
    (forall g, g ∈ dynamicWatchGVKs (Reconcile E r req tr).1.2 ->
       g ∈ dynamicWatchGVKs r \/
       exists objs obj u,
         loadBundle E b0 = Ok objs /\ obj ∈ objs /\ ToUnstructured E obj = Ok u /\
         g = unstructured.GroupVersionKind u) /\
    ((forall objs obj u,
         loadBundle E b0 = Ok objs -> obj ∈ objs -> ToUnstructured E obj = Ok u ->
         unstructured.GroupVersionKind u ∈ dynamicWatchGVKs r) ->
     watchCalls news = [] /\
     dynamicWatchGVKs (Reconcile E r req tr).1.2 = dynamicWatchGVKs r).
Proof.
  intros Hbi.
  destruct (Reconcile_exit E r req tr b0 Hbi) as (err & st' & Hexit & ->).
  destruct (passExit_trace _ _ _ _ _ Hexit)
    as (calls & wevs & Htr & _ & Hcalls & Hwevs & Hsub & Hnew).
  destruct (news_kinds E r tr b0 calls wevs Hcalls Hwevs) as [Hc Hw].
  cbn [fst snd entry bi trace watched dynamicWatchGVKs] in *.
  exists ([LogInfo "starting reconciliation"] ++ (calls ++ wevs) ++
          patchStatus E (bi st') ++ [LogInfo "ending reconciliation"])%list.
  split; [rewrite Htr, <- !app_assoc; reflexivity|].
  destruct (calls_of_news E (bi st') "starting reconciliation" "ending reconciliation"
              (calls ++ wevs)%list) as [-> ->].
  assert (Hwc : watchCalls (calls ++ wevs) = wevs).
  { unfold watchCalls. rewrite filter_app, (filter_all isWatchCall wevs Hw).
    rewrite (filter_none isWatchCall calls); [reflexivity|].
    eapply Forall_impl; [exact Hc|]. intros ev Hev. destruct ev; try discriminate; reflexivity. }
  rewrite Hwc.
  split; [exact Hwevs|].
  split.
  { intros Hne. apply (passExit_watch_applied _ _ _ _ _ _ Hexit).
    - cbn [entry trace]. rewrite Htr. reflexivity.
    - rewrite Hwc. exact Hne. }
  split; [exact Hsub|]. split; [exact Hnew|].
  intros Hall.
  assert (Hno : wevs = []).
  { destruct wevs as [|ev wevs']; [reflexivity|]. exfalso.
    destruct (Hwevs ev (list_elem_of_here _ _)) as (objs & obj & u & Hl & Ho & Hu & Hout & _).
    exact (Hout (Hall objs obj u Hl Ho Hu)). }
  split; [exact Hno|].
  apply leibniz_equiv. apply (anti_symm (⊆)); [|exact Hsub].
  intros g Hg. destruct (Hnew g Hg) as [Hold|(objs & obj & u & Hl & Ho & Hu & ->)];
    [exact Hold | exact (Hall objs obj u Hl Ho Hu)].
Qed.

End watching.

Lemma Reconcile_watch_calls_witness :
  exists news,
    (controllers.Reconcile world.fresh world.r0 world.req_a []).2 = ([] ++ news)%list /\
    (exits.watchCalls news <> [] ->
       exists ev, exits.backendCalls news = [ev] /\ lifetime.applied ev = true).
Proof.
  destruct (Reconcile_watch_calls world.fresh world.r0 world.req_a [] world.inst_a
              eq_refl) as (news & Htr & _ & Happ & _).
  exists news. split; assumption.
Defined.

(** ** More about passes one after the other *)

Section over_passes.
Import controllers rukpakv1alpha1 metav1 lifetime exits.

Lemma Reconcile_grows (E : Env) (r : BundleInstanceReconciler)
    (req : types.NamespacedName) (tr : list event) :
  dynamicWatchGVKs r ⊆ dynamicWatchGVKs (Reconcile E r req tr).1.2 /\
  ReleaseNamespace (Reconcile E r req tr).1.2 = ReleaseNamespace r /\
  exists news, (Reconcile E r req tr).2 = (tr ++ news)%list.
Proof.
  destruct (Client_GetBundleInstance E req) as [b0|x] eqn:Hbi.
  - destruct (Reconcile_news E r req tr b0 Hbi)
      as (err & st' & calls & wevs & _ & -> & _ & _ & _ & Hsub & _).
    cbn [fst snd dynamicWatchGVKs ReleaseNamespace].
    split; [exact Hsub|]. split; [reflexivity|]. eexists. reflexivity.
  - rewrite (Reconcile_not_fetched _ _ _ _ _ Hbi). cbn [fst snd].
    split; [reflexivity|]. split; [reflexivity|]. eexists. reflexivity.
Qed.

Lemma runPasses_subseteq (passes : list (Env * types.NamespacedName))
    (r : BundleInstanceReconciler) (tr : list event) :
  dynamicWatchGVKs r ⊆ dynamicWatchGVKs (runPasses passes r tr).1.
Proof.
  revert r tr. induction passes as [|[E req] rest IH]; intros r tr; cbn [runPasses].
  - reflexivity.
  - destruct (Reconcile_grows E r req tr) as (Hsub & _).
    destruct (Reconcile E r req tr) as [[ret r1] tr1]. cbn [fst snd] in *.
    etrans; [exact Hsub | apply IH].
Qed.

(** X8. Over any sequence of passes the registry only grows, the namespace of
    the releases stays the one of [SetupWithManager], the trace is only
    added to, and so no subscription that was established is lost. *)
Theorem runPasses_registry_grows
    (passes : list (Env * types.NamespacedName))
    (r : BundleInstanceReconciler) (tr : list event) :
  dynamicWatchGVKs r ⊆ dynamicWatchGVKs (runPasses passes r tr).1 /\
  ReleaseNamespace (runPasses passes r tr).1 = ReleaseNamespace r /\
  (exists news, (runPasses passes r tr).2 = (tr ++ news)%list) /\
  (forall K, (established K tr <= established K (runPasses passes r tr).2)%nat).
Proof.
  revert r tr. induction passes as [|[E req] rest IH]; intros r tr; cbn [runPasses].
  - cbn [fst snd]. split; [reflexivity|]. split; [reflexivity|].
    split; [exists []; rewrite app_nil_r; reflexivity | intros K; lia].
  - destruct (Reconcile_grows E r req tr) as (Hsub & Hns & news & Htr).
    destruct (Reconcile E r req tr) as [[ret r1] tr1]. cbn [fst snd] in *.
    destruct (IH r1 tr1) as (Hsub' & Hns' & (news' & Htr') & Hest).
    split; [etrans; eassumption|]. split; [congruence|].
    split.
    + exists (news ++ news')%list. rewrite Htr', Htr, <- app_assoc. reflexivity.
    + intros K. specialize (Hest K). subst tr1.
      rewrite established_app in Hest. lia.
Qed.

Lemma passExit_succeeded (E : Env) (r : BundleInstanceReconciler) (st st' : pass) :
  passExit E r st None st' ->
  trace st' <> trace st ->
  exists objs, loadBundle E (bi st) = Ok objs /\ watchedAll E objs (watched st').
Proof.
  intros Hexit.
  remember (@None error) as err eqn:Herr.
  destruct Hexit as [x Hb | b lerr ph Hb Hl Has | b lerr Hb Hl Has
                    | b pre post obj x Hb Hl Hpre Ho
                    | b objs chrt x Hb Hl Hm Hcl
                    | b objs chrt cl rel state e Hb Hl Hm Hcl Hrs
                    | b objs chrt cl rel state ev reason x Hb Hl Hm Hcl Hrs Hcall
                    | b objs chrt cl rel state ev res err st' Hb Hl Hm Hcl Hrs Hcall Hwo
                    | b objs chrt cl rel state ev st' Hb Hl Hm Hcl Hrs Hcall Hwo];
    cbn [trace watched]; intros Hne;
    try discriminate; try (exfalso; apply Hne; reflexivity).
  - destruct (watchObjects_return _ _ _ _ _ _ Hwo) as (e & -> & _). discriminate.
  - exists objs. split; [exact Hl|].
    destruct (watchObjects_run E objs
                {| bi := SetNamespace (bi st) ""; watched := watched st;
                   trace := trace st ++ [ev] |}) as [wevs Hwr].
    rewrite Hwo in Hwr. destruct Hwr as (_ & _ & _ & _ & _ & _ & Hall). exact Hall.
Qed.

(** X9. Once a pass has called the release backend and returned no error, a
    later pass, after any passes in between, makes no call of
    [Controller.Watch] when the kinds of its objects are among those of
    the objects of that pass; the registry stays as it is. *)
Theorem Reconcile_steady_state_no_watch
    (E1 E2 : Env) (r : BundleInstanceReconciler) (req1 req2 : types.NamespacedName)
    (tr : list event) (b1 b2 : BundleInstance)
    (objs1 : list unstructured.Unstructured)
    (between : list (Env * types.NamespacedName)) :
  Client_GetBundleInstance E1 req1 = Ok b1 ->
  loadBundle E1 b1 = Ok objs1 ->
  (Reconcile E1 r req1 tr).1.1.2 = None ->
  (exists news1, (Reconcile E1 r req1 tr).2 = (tr ++ news1)%list /\
                 backendCalls news1 <> []) ->
  Client_GetBundleInstance E2 req2 = Ok b2 ->
  (forall objs2 obj2 u2,
      loadBundle E2 b2 = Ok objs2 -> obj2 ∈ objs2 -> ToUnstructured E2 obj2 = Ok u2 ->
      exists obj1 u1,
        obj1 ∈ objs1 /\ ToUnstructured E1 obj1 = Ok u1 /\
        unstructured.GroupVersionKind u1 = unstructured.GroupVersionKind u2) ->
  let after1 := runPasses between (Reconcile E1 r req1 tr).1.2 (Reconcile E1 r req1 tr).2 in
  exists news2,
    (Reconcile E2 after1.1 req2 after1.2).2 = (after1.2 ++ news2)%list /\
    watchCalls news2 = [] /\
    dynamicWatchGVKs (Reconcile E2 after1.1 req2 after1.2).1.2 = dynamicWatchGVKs after1.1.
Proof.
  intros Hbi1 Hl1 Herr (news1 & Htr1 & Hcalled) Hbi2 Hkinds after1.
  assert (Hall : watchedAll E1 objs1 (dynamicWatchGVKs (Reconcile E1 r req1 tr).1.2)).
  { destruct (Reconcile_exit E1 r req1 tr b1 Hbi1) as (err & st' & Hexit & Hrun).
    rewrite Hrun in Herr, Htr1 |- *. cbn [fst snd dynamicWatchGVKs] in *. subst err.
    destruct (passExit_succeeded _ _ _ _ Hexit) as (objs & Hl & Hw).
    - intros Heq. apply Hcalled. rewrite Heq in Htr1. cbn [entry trace] in Htr1.
      rewrite <- app_assoc in Htr1. apply app_inv_head in Htr1. subst news1.
      destruct (calls_of_news E1 (bi st') "starting reconciliation" "ending reconciliation" [])
        as [Hb _].
      cbn [app] in Hb |- *. exact Hb.
    - cbn [entry bi] in Hl. rewrite Hl1 in Hl. injection Hl as <-. exact Hw. }
  pose proof (runPasses_subseteq between (Reconcile E1 r req1 tr).1.2
                (Reconcile E1 r req1 tr).2) as Hsub.
  fold after1 in Hsub.
  destruct (Reconcile_no_new_kind E2 after1.1 req2 after1.2 b2 Hbi2)
    as (news2 & Htr2 & Hsame).
  exists news2. split; [exact Htr2|]. apply Hsame.
  intros objs2 obj2 u2 Hl2 Ho2 Hu2.
  destruct (Hkinds objs2 obj2 u2 Hl2 Ho2 Hu2) as (obj1 & u1 & Ho1 & Hu1 & <-).
  apply Hsub. unfold watchedAll in Hall. rewrite Forall_forall in Hall.
  destruct (Hall obj1 Ho1) as (u & Hu & Hin). rewrite Hu1 in Hu. injection Hu as <-.
  exact Hin.
Qed.

End over_passes.

Lemma Reconcile_steady_state_no_watch_witness :
  let after1 :=
    lifetime.runPasses []
      (controllers.Reconcile world.fresh world.r0 world.req_a []).1.2
      (controllers.Reconcile world.fresh world.r0 world.req_a []).2 in
  exists news2,
    (controllers.Reconcile world.settled after1.1 world.req_a after1.2).2 =
      (after1.2 ++ news2)%list /\
    exits.watchCalls news2 = [].
Proof.
  assert (Hl : controllers.loadBundle world.fresh world.inst_a = Ok (world.desired world.fresh))
    by (vm_compute; reflexivity).
  assert (Herr : (controllers.Reconcile world.fresh world.r0 world.req_a []).1.1.2 = None)
    by (vm_compute; reflexivity).
  assert (Hcalled : exists news1,
             (controllers.Reconcile world.fresh world.r0 world.req_a []).2 =
               ([] ++ news1)%list /\
             exits.backendCalls news1 <> []).
  { exists (controllers.Reconcile world.fresh world.r0 world.req_a []).2.
    split; [reflexivity | vm_compute; discriminate]. }
  destruct (Reconcile_steady_state_no_watch world.fresh world.settled world.r0
              world.req_a world.req_a [] world.inst_a world.inst_a
              (world.desired world.fresh) [] eq_refl Hl Herr Hcalled eq_refl)
    as (news2 & Htr & Hno & _).
  - intros objs2 obj2 u2 Hl2 Ho2 Hu2. exists obj2, u2.
    change (controllers.loadBundle world.settled world.inst_a)
      with (controllers.loadBundle world.fresh world.inst_a) in Hl2.
    rewrite Hl in Hl2. injection Hl2 as <-.
    split; [exact Ho2|]. split; [exact Hu2 | reflexivity].
  - exists news2. split; assumption.
Defined.

(** ** The exits after the two reads of the Bundle *)

Section late_exits.
Import controllers rukpakv1alpha1 metav1 lifetime exits.

Lemma materialize_first_failure (E : Env) (pre post : list unstructured.Unstructured)
    (obj : unstructured.Unstructured) (e : ExtError) (chrt : chart.Chart) (st : pass) :
  Forall (fun o => exists d, yaml_Marshal E o = Ok d) pre ->
  yaml_Marshal E obj = Fail e ->
  materialize E (pre ++ obj :: post) chrt st =
    (Return ctrl.Result0 (Some (External e)),
     {| bi := withCondition (bi st)
                {| Type_ := TypeInvalidBundleContent;
                   Status := ConditionTrue;
                   Reason := ReasonReadingContentFailed;
                   Message := ext_message e |};
        watched := watched st; trace := trace st |}).
Proof.
  intros Hpre Ho. revert chrt.
  induction Hpre as [|o pre [d Hd] _ IH]; intros chrt; simpl.
  - rewrite Ho. exec. reflexivity.
  - rewrite Hd. apply IH.
Qed.

(** Each way out is taken when its conditions hold. *)
Lemma reconcile_takes_exit (E : Env) (r : BundleInstanceReconciler) (st st' : pass)
    (err : option error) :
  passExit E r st err st' ->
  run (reconcileBundleInstance E r) st = ((ctrl.Result0, err), st').
Proof.
  intros Hexit. unfold reconcileBundleInstance.
  rewrite (run_bind_next get_bi _ st st (bi st) eq_refl).
  destruct Hexit as [x Hb | b lerr ph Hb Hl Has | b lerr Hb Hl Has
                    | b pre post obj x Hb Hl Hpre Ho
                    | b objs chrt x Hb Hl Hm Hcl
                    | b objs chrt cl rel state e Hb Hl Hm Hcl Hrs
                    | b objs chrt cl rel state ev reason x Hb Hl Hm Hcl Hrs Hcall
                    | b objs chrt cl rel state ev res err st' Hb Hl Hm Hcl Hrs Hcall Hwo
                    | b objs chrt cl rel state ev st' Hb Hl Hm Hcl Hrs Hcall Hwo];
    rewrite Hb.
  1: { erewrite run_bind_return by (exec; reflexivity). reflexivity. }
  all: erewrite run_bind_next by reflexivity; rewrite Hl.
  1: { rewrite Has. erewrite run_bind_return by (exec; reflexivity). reflexivity. }
  1: { rewrite Has. erewrite run_bind_return by (exec; reflexivity). reflexivity. }
  all: erewrite run_bind_next by reflexivity.
  1: { erewrite run_bind_return by exact (materialize_first_failure E pre post obj x _ st Hpre Ho).
       reflexivity. }
  all: erewrite run_bind_next by exact Hm;
    erewrite run_bind_next by reflexivity;
    erewrite run_bind_next by reflexivity;
    cbn zeta; erewrite run_bind_next by reflexivity;
    cbn [bi]; rewrite Hcl.
  1: { erewrite run_bind_return by (exec; reflexivity). reflexivity. }
  all: erewrite run_bind_next by reflexivity;
    erewrite run_bind_next by reflexivity;
    cbn [bi];
    change (SetNamespace (SetNamespace (bi st) (ReleaseNamespace r)) "")
      with (SetNamespace (bi st) "");
    rewrite Hrs.
  1: { erewrite run_bind_return by (exec; reflexivity). reflexivity. }
  all: erewrite run_bind_next by reflexivity; unfold applyAndWatch;
    pose proof (applyRelease_call r cl chrt rel state
                  {| bi := SetNamespace (bi st) ""; watched := watched st;
                     trace := trace st |}) as Happ;
    cbn [bi watched trace Name SetNamespace] in Happ; rewrite Hcall in Happ.
  - erewrite run_bind_return by exact Happ. reflexivity.
  - erewrite run_bind_next by exact Happ.
    erewrite run_bind_return by exact Hwo.
    destruct (watchObjects_calls E objs
                {| bi := SetNamespace (bi st) ""; watched := watched st;
                   trace := trace st ++ [ev] |}) as (_ & _ & _ & _ & _ & Hend).
    rewrite Hwo in Hend. cbn [fst] in Hend. destruct Hend as [-> _]. reflexivity.
  - erewrite run_bind_next by exact Happ.
    erewrite run_bind_next by exact Hwo.
    erewrite run_bind_next by reflexivity.
    erewrite run_bind_next by reflexivity.
    reflexivity.
Qed.

Lemma Reconcile_takes_exit (E : Env) (r : BundleInstanceReconciler)
    (req : types.NamespacedName) (tr : list event) (b0 : BundleInstance)
    (err : option error) (st' : pass) :
  Client_GetBundleInstance E req = Ok b0 ->
  passExit E r (entry r tr b0) err st' ->
  Reconcile E r req tr =
    ((ctrl.Result0, err),
     {| ReleaseNamespace := ReleaseNamespace r; dynamicWatchGVKs := watched st' |},
     (trace st' ++ patchStatus E (bi st') ++ [LogInfo "ending reconciliation"])%list).
Proof.
  intros Hbi Hexit. rewrite (Reconcile_fetched _ _ _ _ _ Hbi).
  rewrite (reconcile_takes_exit _ _ _ _ _ Hexit). reflexivity.
Qed.

(** X10. When [loadBundle] fails for another reason than the phase, because
    its own read of the Bundle fails or because the storage does not give
    the objects, the pass sets HasValidBundle to False with reason
    BundleLoadFailed and returns the error under the prefix of
    [loadBundle]: a not-found error of the second read is returned like
    any other, unlike one of the first read.  Nothing is serialized,
    applied or subscribed to, and Installed is left as it was. *)
Theorem Reconcile_bundle_load_failed
    (E : Env) (r : BundleInstanceReconciler) (req : types.NamespacedName)
    (tr : list event) (b0 : BundleInstance) (b : Bundle) (x : ExtError) (pre : string) :
  Client_GetBundleInstance E req = Ok b0 ->
  Client_GetBundle E InReconcile (Spec_BundleName b0) = Ok b ->
  (Client_GetBundle E InLoadBundle (Spec_BundleName b0) = Fail x /\
   pre = "get bundle " +:+ fmt.quote (Spec_BundleName b0) +:+ ": ") \/
  (exists b2,
      Client_GetBundle E InLoadBundle (Spec_BundleName b0) = Ok b2 /\
      Bundle_Status_Phase b2 = PhaseUnpacked /\
      BundleStorage_Load E b2 = Fail x /\
      pre = "load bundle objects: ") ->
  let c := {| Type_ := TypeHasValidBundle;
              Status := ConditionFalse;
              Reason := ReasonBundleLoadFailed;
              Message := pre +:+ ext_message x |} in
  let b' := SetConditions b0 (meta.SetStatusCondition (Status_Conditions b0) c) in
  Reconcile E r req tr =
    ((ctrl.Result0, Some (Wrapf pre (External x))), r,
     (tr ++ [LogInfo "starting reconciliation"] ++ patchStatus E b' ++
      [LogInfo "ending reconciliation"])%list) /\
  meta.FindStatusCondition (Status_Conditions b') TypeHasValidBundle = Some c /\
  meta.FindStatusCondition (Status_Conditions b') TypeInstalled =
    meta.FindStatusCondition (Status_Conditions b0) TypeInstalled.
Proof.
  intros Hbi Hb Hwhy c b'.
  assert (Hl : loadBundle E b0 = Fail (Wrapf pre (External x))).
  { unfold loadBundle.
    destruct Hwhy as [[Hb2 ->] | (b2 & Hb2 & Hph & Hload & ->)]; rewrite Hb2; [reflexivity|].
    rewrite Hph, Hload. reflexivity. }
  split; [|split].
  - rewrite (Reconcile_takes_exit E r req tr b0 _ _ Hbi
               (exit_load_failed E r (entry r tr b0) b _ Hb Hl eq_refl)).
    cbn [watched entry trace bi]. rewrite reconciler_eta, <- app_assoc. reflexivity.
  - apply (find_set_same (Status_Conditions b0) c).
  - apply find_set_other. discriminate.
Qed.

(** X11. When an object of the bundle does not serialize, the pass stops at
    the first such object: it sets InvalidBundleContent to True with reason
    ReadingContentFailed and the message of the serializer's error, and
    returns that error.  No release client is asked for, nothing is applied
    or subscribed to. *)
Theorem Reconcile_unserializable_object
    (E : Env) (r : BundleInstanceReconciler) (req : types.NamespacedName)
    (tr : list event) (b0 : BundleInstance) (b : Bundle)
    (pre post : list unstructured.Unstructured) (obj : unstructured.Unstructured)
    (x : ExtError) :
  Client_GetBundleInstance E req = Ok b0 ->
  Client_GetBundle E InReconcile (Spec_BundleName b0) = Ok b ->
  loadBundle E b0 = Ok (pre ++ obj :: post)%list ->
  Forall (fun o => exists d, yaml_Marshal E o = Ok d) pre ->
  yaml_Marshal E obj = Fail x ->
  let c := {| Type_ := TypeInvalidBundleContent;
              Status := ConditionTrue;
              Reason := ReasonReadingContentFailed;
              Message := ext_message x |} in
  let b' := SetConditions b0 (meta.SetStatusCondition (Status_Conditions b0) c) in
  Reconcile E r req tr =
    ((ctrl.Result0, Some (External x)), r,
     (tr ++ [LogInfo "starting reconciliation"] ++ patchStatus E b' ++
      [LogInfo "ending reconciliation"])%list) /\
  meta.FindStatusCondition (Status_Conditions b') TypeInvalidBundleContent = Some c /\
  Namespace b' = Namespace b0.
Proof.
  intros Hbi Hb Hl Hpre Ho c b'. split; [|split].
  - rewrite (Reconcile_takes_exit E r req tr b0 _ _ Hbi
               (exit_marshal_failed E r (entry r tr b0) b pre post obj x Hb Hl Hpre Ho)).
    cbn [watched entry trace bi]. rewrite reconciler_eta, <- app_assoc. reflexivity.
  - apply (find_set_same (Status_Conditions b0) c).
  - reflexivity.
Qed.

(** X12. The release client is asked for with the BundleInstance in the
    namespace of the reconciler.  When that fails, the pass sets Installed
    to False with reason ErrorGettingClient and returns the error; the
    object it patches has the empty namespace again. *)
Theorem Reconcile_client_failed
    (E : Env) (r : BundleInstanceReconciler) (req : types.NamespacedName)
    (tr : list event) (b0 : BundleInstance) (b : Bundle)
    (objs : list unstructured.Unstructured) (x : ExtError) :
  Client_GetBundleInstance E req = Ok b0 ->
  Client_GetBundle E InReconcile (Spec_BundleName b0) = Ok b ->
  loadBundle E b0 = Ok objs ->
  Forall (fun o => exists d, yaml_Marshal E o = Ok d) objs ->
  ActionClientFor E (SetNamespace b0 (ReleaseNamespace r)) = Fail x ->
  let c := {| Type_ := TypeInstalled;
              Status := ConditionFalse;
              Reason := ReasonErrorGettingClient;
              Message := ext_message x |} in
  let b' := SetConditions (SetNamespace b0 "")
              (meta.SetStatusCondition (Status_Conditions b0) c) in
  Reconcile E r req tr =
    ((ctrl.Result0, Some (External x)), r,
     (tr ++ [LogInfo "starting reconciliation"] ++ patchStatus E b' ++
      [LogInfo "ending reconciliation"])%list) /\
  meta.FindStatusCondition (Status_Conditions b') TypeInstalled = Some c.
Proof.
  intros Hbi Hb Hl Hok Hcl c b'. split.
  - destruct (materialize_total E objs {| chart.Templates := [] |} (entry r tr b0) Hok)
      as [chrt Hm].
    rewrite (Reconcile_takes_exit E r req tr b0 _ _ Hbi
               (exit_client_failed E r (entry r tr b0) b objs chrt x Hb Hl Hm Hcl)).
    cbn [watched entry trace bi]. rewrite reconciler_eta, <- app_assoc. reflexivity.
  - apply (find_set_same (Status_Conditions b0) c).
Qed.

(** X13. When the release state cannot be told, because the lookup of the
    release fails with another error than release-not-found or because the
    dry run of the upgrade in [getReleaseState] fails, the pass sets
    Installed to False with reason ErrorGettingReleaseState and returns the
    error.  It does not come to the switch of lines 188 to 226: after the
    lookup and, in the second case, the dry run that failed, it makes no
    call of Install, of Upgrade that is not a dry run, or of Reconcile, and
    it subscribes to nothing. *)
Theorem Reconcile_release_state_failed
    (E : Env) (r : BundleInstanceReconciler) (req : types.NamespacedName)
    (tr : list event) (b0 : BundleInstance) (b : Bundle)
    (objs : list unstructured.Unstructured) (cl : helmclient.ActionInterface)
    (x : ExtError) :
  Client_GetBundleInstance E req = Ok b0 ->
  Client_GetBundle E InReconcile (Spec_BundleName b0) = Ok b ->
  loadBundle E b0 = Ok objs ->
  Forall (fun o => exists d, yaml_Marshal E o = Ok d) objs ->
  ActionClientFor E (SetNamespace b0 (ReleaseNamespace r)) = Ok cl ->
  (helmclient.Get cl (Name b0) = Fail x /\ ext_is_release_not_found x = false) \/
  (exists cur,
      helmclient.Get cl (Name b0) = Ok cur /\
      forall chrt, Forall2 (templateOf E) objs (chart.Templates chrt) ->
        helmclient.Upgrade cl (Name b0) (ReleaseNamespace r) chrt true = Fail x) ->
  let c := {| Type_ := TypeInstalled;
              Status := ConditionFalse;
              Reason := ReasonErrorGettingReleaseState;
              Message := ext_message x |} in
  let b' := SetConditions (SetNamespace b0 "")
              (meta.SetStatusCondition (Status_Conditions b0) c) in
  Reconcile E r req tr =
    ((ctrl.Result0, Some (External x)), r,
     (tr ++ [LogInfo "starting reconciliation"] ++ patchStatus E b' ++
      [LogInfo "ending reconciliation"])%list) /\
  meta.FindStatusCondition (Status_Conditions b') TypeInstalled = Some c.
Proof.
  intros Hbi Hb Hl Hok Hcl Hwhy c b'. split.
  - destruct (materialize_total E objs {| chart.Templates := [] |} (entry r tr b0) Hok)
      as [chrt Hm].
    assert (Hrs : exists rel state,
               getReleaseState r cl (SetNamespace b0 "") chrt =
                 (rel, state, Some (External x))).
    { unfold getReleaseState. cbn [Name SetNamespace].
      destruct Hwhy as [[Hg Hnf] | (cur & Hg & Hup)]; rewrite Hg.
      - cbn [errors.Is_ErrReleaseNotFound]. rewrite Hnf. eauto.
      - rewrite (Hup chrt (proj1 (materialize_names_from_digest_aux _ _ _ _ _ Hm))). eauto. }
    destruct Hrs as (rel & state & Hrs).
    rewrite (Reconcile_takes_exit E r req tr b0 _ _ Hbi
               (exit_release_state_failed E r (entry r tr b0) b objs chrt cl rel state _
                  Hb Hl Hm Hcl Hrs)).
    cbn [watched entry trace bi]. rewrite reconciler_eta, <- app_assoc. reflexivity.
  - apply (find_set_same (Status_Conditions b0) c).
Qed.

End late_exits.

Lemma marshals_check (E : Env) (objs : list unstructured.Unstructured) :
  forallb (fun o => match yaml_Marshal E o with Ok _ => true | Fail _ => false end) objs = true ->
  Forall (fun o => exists d, yaml_Marshal E o = Ok d) objs.
Proof.
  intros Hall. apply Forall_forall. intros o Ho.
  rewrite forallb_forall in Hall. apply list_elem_of_In in Ho.
  specialize (Hall o Ho). destruct (yaml_Marshal E o) as [d|]; [eauto | discriminate].
Qed.

Lemma Reconcile_bundle_load_failed_witness :
  (controllers.Reconcile world.unstored world.r0 world.req_a []).1.1 =
    (ctrl.Result0,
     Some (Wrapf "load bundle objects: "
             (External (world.failure "open pkg-a: no such file")))).
Proof.
  rewrite (proj1 (Reconcile_bundle_load_failed world.unstored world.r0 world.req_a []
                    world.inst_a (world.pkg_a rukpakv1alpha1.PhaseUnpacked)
                    (world.failure "open pkg-a: no such file") "load bundle objects: "
                    eq_refl eq_refl
                    (or_intror (ex_intro _ (world.pkg_a rukpakv1alpha1.PhaseUnpacked)
                                  (conj eq_refl (conj eq_refl (conj eq_refl eq_refl))))))).
  reflexivity.
Defined.

Lemma Reconcile_unserializable_object_witness :
  (controllers.Reconcile world.unserializable world.r0 world.req_a []).1 =
    ((ctrl.Result0, Some (External (world.failure "json: unsupported value"))), world.r0).
Proof.
  assert (Hl : controllers.loadBundle world.unserializable world.inst_a =
               Ok (take 1 (world.desired world.unserializable) ++
                   nth 1 (world.desired world.unserializable) (world.configMap "") ::
                   [])%list)
    by (vm_compute; reflexivity).
  assert (Hpre : Forall (fun o => exists d, yaml_Marshal world.unserializable o = Ok d)
                   (take 1 (world.desired world.unserializable)))
    by (apply marshals_check; vm_compute; reflexivity).
  assert (Ho : yaml_Marshal world.unserializable
                 (nth 1 (world.desired world.unserializable) (world.configMap "")) =
               Fail (world.failure "json: unsupported value"))
    by (vm_compute; reflexivity).
  rewrite (proj1 (Reconcile_unserializable_object world.unserializable world.r0 world.req_a []
                    world.inst_a (world.pkg_a rukpakv1alpha1.PhaseUnpacked) _ _ _ _
                    eq_refl eq_refl Hl Hpre Ho)).
  reflexivity.
Defined.

Lemma Reconcile_client_failed_witness :
  (controllers.Reconcile world.clientless world.r0 world.req_a []).1 =
    ((ctrl.Result0, Some (External (world.failure "no rest config"))), world.r0).
Proof.
  assert (Hl : controllers.loadBundle world.clientless world.inst_a =
               Ok (world.desired world.clientless))
    by (vm_compute; reflexivity).
  assert (Hok : Forall (fun o => exists d, yaml_Marshal world.clientless o = Ok d)
                  (world.desired world.clientless))
    by (apply marshals_check; vm_compute; reflexivity).
  rewrite (proj1 (Reconcile_client_failed world.clientless world.r0 world.req_a []
                    world.inst_a (world.pkg_a rukpakv1alpha1.PhaseUnpacked) _
                    (world.failure "no rest config") eq_refl eq_refl Hl Hok eq_refl)).
  reflexivity.
Defined.

Lemma Reconcile_release_state_failed_witness :
  (controllers.Reconcile world.stateless world.r0 world.req_a []).1 =
    ((ctrl.Result0, Some (External (world.failure "connection refused"))), world.r0).
Proof.
  assert (Hl : controllers.loadBundle world.stateless world.inst_a =
               Ok (world.desired world.stateless))
    by (vm_compute; reflexivity).
  assert (Hok : Forall (fun o => exists d, yaml_Marshal world.stateless o = Ok d)
                  (world.desired world.stateless))
    by (apply marshals_check; vm_compute; reflexivity).
  rewrite (proj1 (Reconcile_release_state_failed world.stateless world.r0 world.req_a []
                    world.inst_a (world.pkg_a rukpakv1alpha1.PhaseUnpacked) _
                    world.helmDown (world.failure "connection refused")
                    eq_refl eq_refl Hl Hok eq_refl (or_introl (conj eq_refl eq_refl)))).
  reflexivity.
Defined.

(** ** A call of the release backend that fails *)

Section backend_failure.
Import controllers rukpakv1alpha1 metav1 lifetime exits.

Lemma applyCall_failure (r : BundleInstanceReconciler) (cl : helmclient.ActionInterface)
    (name : string) (chrt : chart.Chart) (rel : option release.Release)
    (state : releaseState) (ev : event) (reason : string) (x : ExtError) :
  applyCall r cl name chrt rel state = Some (ev, Some (reason, x)) ->
  callFailure ev = Some (reason, x).
Proof.
  destruct state; unfold applyCall; try discriminate.
  - destruct (helmclient.Install cl name (ReleaseNamespace r) chrt false) eqn:Hres;
      intros [= <- <- <-]; reflexivity.
  - destruct (helmclient.Upgrade cl name (ReleaseNamespace r) chrt false) eqn:Hres;
      intros [= <- <- <-]; reflexivity.
  - destruct (helmclient.Reconcile cl rel) eqn:Hres; intros [= <- <- <-]; reflexivity.
Qed.

Lemma calls_split (calls wevs : list event) :
  Forall (fun ev => isBackendCall ev = true) calls ->
  Forall (fun ev => isWatchCall ev = true) wevs ->
  backendCalls (calls ++ wevs) = calls /\ watchCalls (calls ++ wevs) = wevs.
Proof.
  intros Hc Hw. unfold backendCalls, watchCalls. rewrite !filter_app.
  rewrite (filter_all isBackendCall calls Hc), (filter_all isWatchCall wevs Hw).
  rewrite (filter_none isBackendCall wevs), (filter_none isWatchCall calls).
  - rewrite app_nil_r. split; reflexivity.
  - eapply Forall_impl; [exact Hc|]. intros ev Hev. destruct ev; try discriminate; reflexivity.
  - eapply Forall_impl; [exact Hw|]. intros ev Hev. destruct ev; try discriminate; reflexivity.
Qed.

Lemma passExit_call_failed (E : Env) (r : BundleInstanceReconciler) (st st' : pass)
    (err : option error) (news : list event) (ev : event) :
  passExit E r st err st' ->
  trace st' = (trace st ++ news)%list ->
  ev ∈ backendCalls news -> applied ev = false ->
  exists reason x,
    callFailure ev = Some (reason, x) /\
    err = Some (External x) /\
    st' = {| bi := withCondition (SetNamespace (bi st) "")
                     (failed TypeInstalled reason (ext_message x));
             watched := watched st; trace := trace st ++ [ev] |}.
Proof.
  intros Hexit.
  assert (Hnil : forall l : list event, l = (l ++ news)%list -> news = []).
  { intros l Hl. rewrite <- (app_nil_r l) in Hl at 1. apply app_inv_head in Hl. auto. }
  destruct Hexit as [x Hb | b lerr ph Hb Hl Has | b lerr Hb Hl Has
                    | b pre post obj x Hb Hl Hpre Ho
                    | b objs chrt x Hb Hl Hm Hcl
                    | b objs chrt cl rel state e Hb Hl Hm Hcl Hrs
                    | b objs chrt cl rel state ev0 reason x Hb Hl Hm Hcl Hrs Hcall
                    | b objs chrt cl rel state ev0 res err st' Hb Hl Hm Hcl Hrs Hcall Hwo
                    | b objs chrt cl rel state ev0 st' Hb Hl Hm Hcl Hrs Hcall Hwo];
    cbn [trace]; intros Htr Hin Hfail;
    try (apply Hnil in Htr; subst news; inversion Hin).
  - apply app_inv_head in Htr. subst news.
    destruct (applyCall_backend _ _ _ _ _ _ _ _ Hcall) as (Hb' & _ & _).
    unfold backendCalls in Hin. rewrite filter_cons_True in Hin by exact Hb'.
    apply list_elem_of_singleton in Hin. subst ev0.
    exists reason, x. split; [exact (applyCall_failure _ _ _ _ _ _ _ _ _ Hcall)|].
    split; reflexivity.
  - exfalso.
    destruct (watchObjects_calls E objs
                {| bi := SetNamespace (bi st) ""; watched := watched st;
                   trace := trace st ++ [ev0] |}) as (wevs & Hw & Hall & _).
    rewrite Hwo in Hw. cbn [fst snd trace] in Hw.
    rewrite Hw, <- app_assoc in Htr. apply app_inv_head in Htr. subst news.
    destruct (applyCall_backend _ _ _ _ _ _ _ _ Hcall) as (Hb' & _ & _).
    destruct (watch_calls_only _ _ _ _ Hall) as [Hwc _].
    rewrite (proj1 (calls_split [ev0] wevs ltac:(repeat constructor; exact Hb') Hwc)) in Hin.
    apply list_elem_of_singleton in Hin. subst ev0.
    rewrite (applyCall_applied _ _ _ _ _ _ _ Hcall) in Hfail. discriminate.
  - exfalso.
    destruct (watchObjects_calls E objs
                {| bi := SetNamespace (bi st) ""; watched := watched st;
                   trace := trace st ++ [ev0] |}) as (wevs & Hw & Hall & _).
    rewrite Hwo in Hw. cbn [fst snd trace] in Hw.
    rewrite Hw, <- app_assoc in Htr. apply app_inv_head in Htr. subst news.
    destruct (applyCall_backend _ _ _ _ _ _ _ _ Hcall) as (Hb' & _ & _).
    destruct (watch_calls_only _ _ _ _ Hall) as [Hwc _].
    rewrite (proj1 (calls_split [ev0] wevs ltac:(repeat constructor; exact Hb') Hwc)) in Hin.
    apply list_elem_of_singleton in Hin. subst ev0.
    rewrite (applyCall_applied _ _ _ _ _ _ _ Hcall) in Hfail. discriminate.
Qed.

(** X14. When the call of the release backend fails, the pass returns the error
    of the call and sets Installed to False with the reason of the call
    that failed: InstallFailed, UpgradeFailed or ReconcileFailed.  It calls
    [Controller.Watch] not once, leaves the registry as it is, and the
    object it patches carries the installed bundle name it was fetched
    with. *)
Theorem Reconcile_backend_call_failed
    (E : Env) (r : BundleInstanceReconciler) (req : types.NamespacedName)
    (tr : list event) (b0 : BundleInstance) :
  Client_GetBundleInstance E req = Ok b0 ->
  exists news b',
    (Reconcile E r req tr).2 = (tr ++ news)%list /\
    statusPatches news =
      [CallStatusPatch b' plainBundleProvisionerID (Client_StatusPatch E b')] /\
    forall ev, ev ∈ backendCalls news -> applied ev = false ->
      exists reason x,
        callFailure ev = Some (reason, x) /\
        (Reconcile E r req tr).1.1.2 = Some (External x) /\
        meta.FindStatusCondition (Status_Conditions b') TypeInstalled =
          Some (failed TypeInstalled reason (ext_message x)) /\
        watchCalls news = [] /\
        dynamicWatchGVKs (Reconcile E r req tr).1.2 = dynamicWatchGVKs r /\
        Status_InstalledBundleName b' = Status_InstalledBundleName b0.
Proof.
  intros Hbi.
  destruct (Reconcile_exit E r req tr b0 Hbi) as (err & st' & Hexit & ->).
  destruct (passExit_trace _ _ _ _ _ Hexit)
    as (calls & wevs & Htr & _ & Hcalls & Hwevs & _).
  destruct (news_kinds E r tr b0 calls wevs Hcalls Hwevs) as [Hc Hw].
  cbn [fst snd dynamicWatchGVKs].
  exists ([LogInfo "starting reconciliation"] ++ calls ++ wevs ++
          patchStatus E (bi st') ++ [LogInfo "ending reconciliation"])%list.
  exists (SetManagedFields (bi st') []).
  split; [rewrite Htr; cbn [entry trace]; rewrite <- !app_assoc; reflexivity|].
  split; [apply news_statusPatches; assumption|].
  destruct (news_backendCalls E (bi st') calls wevs "starting reconciliation"
              "ending reconciliation" Hc Hw) as [-> ->].
  intros ev Hin Hfail.
  destruct (passExit_call_failed E r _ _ _ (calls ++ wevs)%list ev Hexit Htr)
    as (reason & x & Hcf & -> & ->); [|exact Hfail|].
  { rewrite (proj1 (calls_split calls wevs Hc Hw)). exact Hin. }
  exists reason, x. split; [exact Hcf|]. split; [reflexivity|].
  cbn [bi watched trace entry Status_Conditions SetManagedFields withCondition SetConditions
       SetNamespace Status_InstalledBundleName] in *.
  split; [apply find_set_same|].
  split; [|split; reflexivity].
  apply app_inv_head in Htr.
  assert (Hwc : watchCalls (calls ++ wevs) = wevs) by exact (proj2 (calls_split calls wevs Hc Hw)).
  rewrite <- Hwc, <- Htr. unfold watchCalls.
  rewrite filter_cons_False; [reflexivity|].
  destruct ev as [| | ? ? ? ? []| ? ? ? []| ? []| |]; cbn in Hcf |- *; discriminate.
Qed.

End backend_failure.

Lemma Reconcile_backend_call_failed_witness :
  exists news b',
    (controllers.Reconcile world.refusing world.r0 world.req_a []).2 = ([] ++ news)%list /\
    lifetime.statusPatches news =
      [controllers.CallStatusPatch b' controllers.plainBundleProvisionerID
         (Client_StatusPatch world.refusing b')].
Proof.
  destruct (Reconcile_backend_call_failed world.refusing world.r0 world.req_a [] world.inst_a
              eq_refl) as (news & b' & Htr & Hpatch & _).
  exists news, b'. split; assumption.
Defined.

(** A pass in a world whose release backend refuses the installation. *)
Example refused_install_aborts :
  (controllers.Reconcile world.refusing world.r0 world.req_a []).1 =
    ((ctrl.Result0, Some (External (world.failure "resource already exists"))), world.r0) /\
  map world.describe (controllers.Reconcile world.refusing world.r0 world.req_a []).2 =
    [ "starting reconciliation";
      "install inst-a in rukpak-system: object-" +:+
        fmt.hex (take 8 (sha256.Sum256 (chart.Data (world.template world.fresh 0)))) +:+
        ".yaml object-" +:+
        fmt.hex (take 8 (sha256.Sum256 (chart.Data (world.template world.fresh 1)))) +:+
        ".yaml";
      "patch installed= Installed=False/InstallFailed";
      "ending reconciliation" ].
Proof. split; vm_compute; reflexivity. Qed.

(** ** More about passes at the same time *)

Section interleavings.
Import controllers lifetime dynamicWatch.

Lemma count_none (f : thread -> bool) (ts : list thread) :
  Forall (fun t => f t = false) ts -> count f ts = 0%nat.
Proof.
  intros Hall. induction Hall as [|t ts Ht _ IH]; simpl; [reflexivity|].
  rewrite Ht, IH. reflexivity.
Qed.

(** Passes of any kinds, all before [Lock], over a registry that agrees
    with the trace. *)
Lemma invariant_begin (sh0 : shared) (ts0 : list thread) :
  locked sh0 = false ->
  agrees (gvks sh0) (calls sh0) ->
  Forall (fun t => th_pc t = AtLock) ts0 ->
  invariant (length (watchFailures (calls sh0))) (sh0, ts0).
Proof.
  intros Hl Hag Hall.
  assert (Hpc : forall i t, ts0 !! i = Some t -> th_pc t = AtLock).
  { intros i t Hi. rewrite Forall_forall in Hall. apply Hall.
    eapply list_elem_of_lookup_2. exact Hi. }
  split; cbn [fst snd].
  - rewrite Hl. apply count_none. eapply Forall_impl; [exact Hall|].
    intros t Ht. unfold inCS. rewrite Ht. reflexivity.
  - intros K. rewrite Hag, count_none; [lia|].
    eapply Forall_impl; [exact Hall|]. intros t Ht. unfold inserting. rewrite Ht. reflexivity.
  - intros i t Hi [Hp|Hp]; rewrite (Hpc i t Hi) in Hp; discriminate.
  - intros i t Hi [Hp|Hp]; rewrite (Hpc i t Hi) in Hp; discriminate.
  - intros i t e Hi [Hp|Hp]; rewrite (Hpc i t Hi) in Hp; discriminate.
  - lia.
Qed.

Lemma step_grows (s s' : system) :
  step s s' ->
  gvks s.1 ⊆ gvks s'.1 /\
  exists evs, calls s'.1 = (calls s.1 ++ evs)%list /\
              Forall (fun ev => exits.isWatchCall ev = true) evs.
Proof.
  intros [i answer sh sh' ts t t' Hi Hts]. cbn [fst snd].
  unfold thread_step in Hts.
  destruct (th_pc t); try discriminate;
    repeat match type of Hts with
           | context [if ?c then _ else _] => destruct c
           | context [match ?c with _ => _ end] => destruct c
           end;
    try discriminate; injection Hts as <- <-; cbn [gvks calls];
    (split; [try reflexivity; apply union_subseteq_r|]);
    try (exists []; rewrite app_nil_r; split; [reflexivity | constructor]);
    eexists; (split; [reflexivity|]); repeat constructor.
Qed.

Lemma steps_grow (s s' : system) :
  rtc step s s' ->
  gvks s.1 ⊆ gvks s'.1 /\
  exists evs, calls s'.1 = (calls s.1 ++ evs)%list /\
              Forall (fun ev => exits.isWatchCall ev = true) evs.
Proof.
  intros Hsteps. induction Hsteps as [s|s1 s2 s3 Hstep _ IH].
  - split; [reflexivity|]. exists []. rewrite app_nil_r. split; [reflexivity | constructor].
  - destruct (step_grows _ _ Hstep) as (Hsub & evs & Hc & Hw).
    destruct IH as (Hsub' & evs' & Hc' & Hw').
    split; [etrans; eassumption|].
    exists (evs ++ evs')%list. split; [rewrite Hc', Hc, <- app_assoc; reflexivity|].
    apply Forall_app. split; assumption.
Qed.

Lemma steps_length (s s' : system) :
  rtc step s s' -> length s'.2 = length s.2.
Proof.
  intros Hsteps. induction Hsteps as [s|s1 s2 s3 Hstep _ IH]; [reflexivity|].
  rewrite IH. destruct Hstep as [i answer sh sh' ts t t' Hi Hts]. apply length_insert.
Qed.

(** X15. Between [Lock] and the deferred [Unlock] there is never more than one
    pass, whatever kinds the passes come with, and the lock is held exactly
    while a pass is there. *)
Theorem passes_exclude_each_other
    (sh0 sh : shared) (ts0 ts : list thread) :
  locked sh0 = false ->
  agrees (gvks sh0) (calls sh0) ->
  Forall (fun t => th_pc t = AtLock) ts0 ->
  rtc step (sh0, ts0) (sh, ts) ->
  (forall i j t t',
      ts !! i = Some t -> ts !! j = Some t' ->
      inCS t = true -> inCS t' = true -> i = j) /\
  (locked sh = true <-> exists i t, ts !! i = Some t /\ inCS t = true) /\
  length ts = length ts0.
Proof.
  intros Hl Hag Hall Hsteps.
  pose proof (steps_invariant _ _ _ Hsteps (invariant_begin sh0 ts0 Hl Hag Hall)) as Hinv.
  destruct Hinv as [I1 _ _ _ _ _]. cbn [fst snd] in I1.
  split; [|split].
  - intros i j t t' Hi Hj Ht Ht'.
    destruct (decide (j = i)) as [->|Hne]; [reflexivity|]. exfalso.
    assert (Hle : (count inCS ts <= 1)%nat) by (rewrite I1; destruct (locked sh); lia).
    rewrite (count_alone inCS ts i j t t' Hle Hi Ht Hj Hne) in Ht'. discriminate.
  - split.
    + intros Hlk. rewrite Hlk in I1. apply count_exists. lia.
    + intros (i & t & Hi & Ht). pose proof (count_lookup inCS ts i t Hi Ht) as Hge.
      destruct (locked sh); [reflexivity | lia].
  - exact (steps_length _ _ Hsteps).
Qed.

(** X16. Passes of any kinds at the same time: no kind ever has more than one
    established subscription, a kind of the registry has exactly one, and
    whenever the lock is free the registry and the trace agree; the registry
    only grows and the trace is only added to, by calls of
    [Controller.Watch]; a pass that has gone on without an error has its
    kind in the registry. *)
Theorem passes_keep_registry_and_trace
    (sh0 sh : shared) (ts0 ts : list thread) :
  locked sh0 = false ->
  agrees (gvks sh0) (calls sh0) ->
  Forall (fun t => th_pc t = AtLock) ts0 ->
  rtc step (sh0, ts0) (sh, ts) ->
  (forall K, (established K (calls sh) <= 1)%nat) /\
  (forall K, K ∈ gvks sh -> established K (calls sh) = 1%nat) /\
  (locked sh = false -> agrees (gvks sh) (calls sh)) /\
  gvks sh0 ⊆ gvks sh /\
  (exists evs, calls sh = (calls sh0 ++ evs)%list /\
               Forall (fun ev => exits.isWatchCall ev = true) evs) /\
  (forall t, t ∈ ts -> th_pc t = Done None -> th_gvk t ∈ gvks sh).
Proof.
  intros Hl Hag Hall Hsteps.
  pose proof (steps_invariant _ _ _ Hsteps (invariant_begin sh0 ts0 Hl Hag Hall)) as Hinv.
  assert (Hone : forall K, (established K (calls sh) <= 1)%nat)
    by (intros K; exact (invariant_once _ _ K Hinv)).
  destruct (steps_grow _ _ Hsteps) as [Hsub Hcalls]. cbn [fst snd] in *.
  destruct Hinv as [I1 I2 _ I4 _ _]. cbn [fst snd] in *.
  split; [exact Hone|]. split; [|split; [|split; [exact Hsub|split; [exact Hcalls|]]]].
  - intros K HK. pose proof (Hone K) as Hle. pose proof (I2 K) as H2.
    rewrite (bool_decide_eq_true_2 _ HK) in H2. lia.
  - intros Hfree K. rewrite I2. rewrite Hfree in I1.
    assert (Hle : (count (inserting K) ts <= count inCS ts)%nat).
    { apply count_le. intros t. unfold inserting, inCS.
      destruct (th_pc t); try discriminate; reflexivity. }
    destruct (bool_decide (K ∈ gvks sh)); lia.
  - intros t Ht Hp. apply list_elem_of_lookup_1 in Ht as [i Hi].
    exact (I4 i t Hi (or_intror Hp)).
Qed.

Lemma finished_dec (ts : list thread) : finished ts \/ ~ finished ts.
Proof.
  induction ts as [|t ts [IH|IH]].
  - left. constructor.
  - destruct (th_pc t) eqn:Hp;
      try (right; intros Hf; inversion Hf as [|? ? [res' Hres] _]; congruence).
    left. constructor; [eauto | exact IH].
  - right. intros Hf. inversion Hf. contradiction.
Qed.

(** X17. The passes do not block each other for good: in every state they can
    come to, either all have returned, and then the lock is free, or one of
    them can take its next statement. *)
Theorem passes_do_not_get_stuck
    (sh0 sh : shared) (ts0 ts : list thread) :
  locked sh0 = false ->
  agrees (gvks sh0) (calls sh0) ->
  Forall (fun t => th_pc t = AtLock) ts0 ->
  rtc step (sh0, ts0) (sh, ts) ->
  (finished ts \/ exists s', step (sh, ts) s') /\
  (finished ts -> locked sh = false) /\
  (forall s', step (sh, ts) s' -> ~ finished ts).
Proof.
  intros Hl Hag Hall Hsteps.
  pose proof (steps_invariant _ _ _ Hsteps (invariant_begin sh0 ts0 Hl Hag Hall)) as Hinv.
  split; [|split].
  - destruct (finished_dec ts) as [Hf|Hnf]; [left; exact Hf | right].
    exact (threads_progress _ _ Hinv Hnf).
  - intros Hf. destruct Hinv as [I1 _ _ _ _ _]. cbn [fst snd] in I1.
    destruct (locked sh); [|reflexivity]. exfalso.
    destruct (count_exists inCS ts) as (i & t & Hi & Hcs); [lia|].
    unfold finished in Hf. rewrite Forall_forall in Hf.
    destruct (Hf t (list_elem_of_lookup_2 _ _ _ Hi)) as [res Hres].
    unfold inCS in Hcs. rewrite Hres in Hcs. discriminate.
  - intros s' Hstep Hf. inversion Hstep as [i answer sh1 sh' ts1 t t' Hi Hts]; subst.
    unfold finished in Hf. rewrite Forall_forall in Hf.
    destruct (Hf t (list_elem_of_lookup_2 _ _ _ Hi)) as [res Hres].
    unfold thread_step in Hts. rewrite Hres in Hts. discriminate.
Qed.

Lemma remaining_insert (ts : list thread) (i : nat) (t t' : thread) :
  ts !! i = Some t ->
  (remaining (<[i := t']> ts) + todo t = remaining ts + todo t')%nat.
Proof.
  revert i. induction ts as [|x ts IH]; intros [|i] Hi; simpl in *; try discriminate.
  - injection Hi as ->. lia.
  - specialize (IH i Hi). lia.
Qed.

Lemma thread_step_todo (answer : option ExtError) (sh sh' : shared) (t t' : thread) :
  thread_step answer sh t = Some (sh', t') -> (todo t' < todo t)%nat.
Proof.
  unfold thread_step, todo. intros Hts.
  destruct (th_pc t); try discriminate;
    repeat match type of Hts with
           | context [if ?c then _ else _] => destruct c
           | context [match ?c with _ => _ end] => destruct c
           end;
    try discriminate; injection Hts as <- <-; cbn [th_pc at_]; lia.
Qed.

Lemma remaining_bound (ts : list thread) : (remaining ts <= 5 * length ts)%nat.
Proof.
  induction ts as [|t ts IH]; simpl; [lia|].
  assert (todo t <= 5)%nat by (unfold todo; destruct (th_pc t); lia). lia.
Qed.

Lemma finished_remaining (ts : list thread) : finished ts -> remaining ts = 0%nat.
Proof.
  intros Hf. induction Hf as [|t rest [res Hres] _ IH]; simpl; [reflexivity|].
  unfold todo. rewrite Hres, IH. reflexivity.
Qed.

(** X18. Every schedule is finite: a pass takes at most five statements through
    the literal, so [N] passes take at most [5 N] steps together, however
    they interleave. *)
Theorem passes_terminate
    (n : nat) (sh0 sh : shared) (ts0 ts : list thread) :
  nsteps step n (sh0, ts0) (sh, ts) ->
  (n + remaining ts <= remaining ts0)%nat /\
  (n <= 5 * length ts0)%nat /\
  (finished ts -> remaining ts = 0%nat).
Proof.
  intros Hsteps.
  assert (Hle : (n + remaining ts <= remaining ts0)%nat).
  { remember (sh0, ts0) as s eqn:Hs. remember (sh, ts) as s' eqn:Hs'.
    revert sh0 ts0 Hs. induction Hsteps as [s|k s1 s2 s3 Hstep _ IH]; intros sh0 ts0 Hs.
    - subst s. injection Hs as <- <-. simpl. lia.
    - subst s1 s3. inversion Hstep as [i answer sh1 sh2 ts1 t t' Hi Hts]; subst.
      specialize (IH eq_refl sh2 (<[i := t']> ts0) eq_refl).
      pose proof (remaining_insert ts0 i t t' Hi) as Hrem.
      pose proof (thread_step_todo _ _ _ _ _ Hts) as Hlt. lia. }
  split; [exact Hle|]. split.
  - pose proof (remaining_bound ts0). lia.
  - exact (finished_remaining ts).
Qed.

End interleavings.

(** The schedule in which [inst-a] goes through the literal before
    [inst-b] takes the lock. *)
Lemma one_after_the_other :
  nsteps dynamicWatch.step 8
    (world.nothing, dynamicWatch.start world.configMapKind ["inst-a"; "inst-b"])
    (world.subscribed, world.bothDone).
Proof.
  eapply nsteps_l; [eapply (dynamicWatch.step_thread 0 None); reflexivity|].
  eapply nsteps_l; [eapply (dynamicWatch.step_thread 0 None); reflexivity|].
  eapply nsteps_l; [eapply (dynamicWatch.step_thread 0 None); reflexivity|].
  eapply nsteps_l; [eapply (dynamicWatch.step_thread 0 None); reflexivity|].
  eapply nsteps_l; [eapply (dynamicWatch.step_thread 0 None); reflexivity|].
  eapply nsteps_l; [eapply (dynamicWatch.step_thread 1 None); reflexivity|].
  eapply nsteps_l; [eapply (dynamicWatch.step_thread 1 None); reflexivity|].
  eapply nsteps_l; [eapply (dynamicWatch.step_thread 1 None); reflexivity|].
  apply nsteps_O.
Qed.

Lemma both_before_lock :
  Forall (fun t => dynamicWatch.th_pc t = dynamicWatch.AtLock)
    (dynamicWatch.start world.configMapKind ["inst-a"; "inst-b"]).
Proof. repeat constructor. Qed.

Lemma passes_exclude_each_other_witness :
  (dynamicWatch.locked world.subscribed = true <->
   exists i t, world.bothDone !! i = Some t /\ dynamicWatch.inCS t = true) /\
  length world.bothDone = 2%nat.
Proof.
  destruct (passes_exclude_each_other world.nothing world.subscribed
              (dynamicWatch.start world.configMapKind ["inst-a"; "inst-b"]) world.bothDone
              eq_refl (fun K => eq_refl) both_before_lock
              (rtc_nsteps_2 _ _ _ one_after_the_other))
    as (_ & Hlk & Hlen).
  split; [exact Hlk | exact Hlen].
Defined.

Lemma passes_keep_registry_and_trace_witness :
  lifetime.agrees (dynamicWatch.gvks world.subscribed) (dynamicWatch.calls world.subscribed) /\
  lifetime.established world.configMapKind (dynamicWatch.calls world.subscribed) = 1%nat.
Proof.
  destruct (passes_keep_registry_and_trace world.nothing world.subscribed
              (dynamicWatch.start world.configMapKind ["inst-a"; "inst-b"]) world.bothDone
              eq_refl (fun K => eq_refl) both_before_lock
              (rtc_nsteps_2 _ _ _ one_after_the_other))
    as (_ & Hone & Hag & _).
  split; [exact (Hag eq_refl)|].
  apply Hone. apply elem_of_union_l. apply elem_of_singleton_2. reflexivity.
Defined.

Lemma passes_do_not_get_stuck_witness :
  dynamicWatch.finished world.bothDone \/
  exists s', dynamicWatch.step (world.subscribed, world.bothDone) s'.
Proof.
  exact (proj1 (passes_do_not_get_stuck world.nothing world.subscribed
                  (dynamicWatch.start world.configMapKind ["inst-a"; "inst-b"])
                  world.bothDone
                  eq_refl (fun K => eq_refl) both_before_lock
                  (rtc_nsteps_2 _ _ _ one_after_the_other))).
Defined.

Lemma passes_terminate_witness :
  (8 + dynamicWatch.remaining world.bothDone <=
   dynamicWatch.remaining (dynamicWatch.start world.configMapKind ["inst-a"; "inst-b"]))%nat.
Proof.
  exact (proj1 (passes_terminate 8 world.nothing world.subscribed
                  (dynamicWatch.start world.configMapKind ["inst-a"; "inst-b"])
                  world.bothDone one_after_the_other)).
Defined.

(** ** More about [loadBundle] and the two reads of the Bundle *)

Section loading.
Import controllers rukpakv1alpha1 metav1 lifetime exits.

(** X20. [loadBundle] returns objects exactly when its read of the Bundle
    shows phase Unpacked and the storage gives the objects, and then it
    returns them labelled, in the order of the storage.  Its error is an
    [errBundleNotUnpacked] for [errors.As] exactly when the read went well
    and showed another phase, the one the error carries and names in its
    message; a failed read and a failed storage give other errors. *)
Theorem loadBundle_result (E : Env) (b0 : BundleInstance) :
  (forall objs,
      loadBundle E b0 = Ok objs <->
      exists b objects,
        Client_GetBundle E InLoadBundle (Spec_BundleName b0) = Ok b /\
        Bundle_Status_Phase b = PhaseUnpacked /\
        BundleStorage_Load E b = Ok objects /\
        objs = map (withOwnerLabels b0) objects) /\
  (forall lerr ph,
      loadBundle E b0 = Fail lerr ->
      (errors.As_errBundleNotUnpacked lerr = Some ph <->
       exists b, Client_GetBundle E InLoadBundle (Spec_BundleName b0) = Ok b /\
                 Bundle_Status_Phase b = ph /\ ph <> PhaseUnpacked)) /\
  (forall lerr,
      loadBundle E b0 = Fail lerr ->
      (errors.As_errBundleNotUnpacked lerr = None <->
       (exists x, Client_GetBundle E InLoadBundle (Spec_BundleName b0) = Fail x) \/
       (exists b x, Client_GetBundle E InLoadBundle (Spec_BundleName b0) = Ok b /\
                    Bundle_Status_Phase b = PhaseUnpacked /\
                    BundleStorage_Load E b = Fail x))) /\
  (forall lerr ph,
      loadBundle E b0 = Fail lerr ->
      errors.As_errBundleNotUnpacked lerr = Some ph ->
      errors.Error lerr =
        if (ph =? "")%string then "bundle is not yet unpacked"
        else "bundle is not yet unpacked, current phase=" +:+ ph).
Proof.
  split; [|split; [|split]].
  - intros objs. split; [apply loadBundle_ok|].
    intros (b & objects & Hb & Hph & Hload & ->).
    unfold loadBundle. rewrite Hb, Hph, Hload. cbn.
    rewrite labelObjects_map. reflexivity.
  - intros lerr ph Hl.
    destruct (loadBundle_fail _ _ _ Hl)
      as [(x & Hb & ->) | [(b & Hb & Hph & ->) | (b & x & Hb & Hph & Hload & ->)]];
      cbn [errors.As_errBundleNotUnpacked]; split.
    + discriminate.
    + intros (b & Hb' & _). congruence.
    + intros [= <-]. exists b. auto.
    + intros (b' & Hb' & <- & _). congruence.
    + discriminate.
    + intros (b' & Hb' & <- & Hne). congruence.
  - intros lerr Hl.
    destruct (loadBundle_fail _ _ _ Hl)
      as [(x & Hb & ->) | [(b & Hb & Hph & ->) | (b & x & Hb & Hph & Hload & ->)]];
      cbn [errors.As_errBundleNotUnpacked]; split.
    + intros _. left. eauto.
    + reflexivity.
    + discriminate.
    + intros [(x & Hx) | (b' & x & Hb' & Hph' & _)]; congruence.
    + intros _. right. eauto.
    + reflexivity.
  - intros lerr ph Hl Has.
    destruct (loadBundle_fail _ _ _ Hl)
      as [(x & Hb & ->) | [(b & Hb & Hph & ->) | (b & x & Hb & Hph & Hload & ->)]];
      cbn [errors.As_errBundleNotUnpacked] in Has; try discriminate.
    injection Has as <-. reflexivity.
Qed.

(** X21. The two reads of the Bundle need not agree.  The pass decides on the
    phase of the second read, the one of [loadBundle], that the bundle is
    not unpacked, and makes the reason of the condition of the phase of
    the first read: when the first read showed Unpacked the reason is
    BundleUnpackUnpacked.  The pass returns no error, and calls neither the
    release backend nor [Controller.Watch]. *)
Theorem Reconcile_reads_disagree
    (E : Env) (r : BundleInstanceReconciler) (req : types.NamespacedName)
    (tr : list event) (b0 : BundleInstance) (b1 b2 : Bundle) :
  Client_GetBundleInstance E req = Ok b0 ->
  Client_GetBundle E InReconcile (Spec_BundleName b0) = Ok b1 ->
  Client_GetBundle E InLoadBundle (Spec_BundleName b0) = Ok b2 ->
  Bundle_Status_Phase b2 <> PhaseUnpacked ->
  exists b' c,
    Reconcile E r req tr =
      ((ctrl.Result0, None), r,
       (tr ++ [LogInfo "starting reconciliation"] ++ patchStatus E b' ++
        [LogInfo "ending reconciliation"])%list) /\
    meta.FindStatusCondition (Status_Conditions b') TypeInstalled = Some c /\
    Status c = ConditionFalse /\ Message c = "" /\
    Reason c = (if (Bundle_Status_Phase b1 =? PhaseUnpacking)%string
                then "BundleUnpackRunning"
                else "BundleUnpack" +:+ Bundle_Status_Phase b1) /\
    (Bundle_Status_Phase b1 = PhaseUnpacked -> Reason c = "BundleUnpackUnpacked") /\
    Status_InstalledBundleName b' = Status_InstalledBundleName b0.
Proof.
  intros Hbi Hb1 Hb2 Hph.
  eexists. eexists.
  split; [exact (Reconcile_not_unpacked_two_reads E r req tr b0 b1 b2 Hbi Hb1 Hb2 Hph)|].
  cbn [Status_Conditions SetConditions Status_InstalledBundleName].
  split; [apply find_set_same|]. cbn [Status Message Reason].
  split; [reflexivity|]. split; [reflexivity|]. split; [reflexivity|].
  split; [|reflexivity]. intros ->. reflexivity.
Qed.

End loading.

Lemma Reconcile_reads_disagree_witness :
  exists b' c,
    (controllers.Reconcile
       world.disagreeing world.r0 world.req_a []).1.1 = (ctrl.Result0, None) /\
    meta.FindStatusCondition (rukpakv1alpha1.Status_Conditions b')
      rukpakv1alpha1.TypeInstalled = Some c /\
    metav1.Reason c = "BundleUnpackUnpacked".
Proof.
  destruct (Reconcile_reads_disagree
              world.disagreeing world.r0 world.req_a [] world.inst_a
              (world.pkg_a rukpakv1alpha1.PhaseUnpacked)
              (world.pkg_a rukpakv1alpha1.PhaseFailing)
              eq_refl eq_refl eq_refl ltac:(discriminate))
    as (b' & c & Hrun & Hfind & _ & _ & _ & Hreason & _).
  exists b', c. rewrite Hrun. split; [reflexivity|]. split; [exact Hfind|].
  exact (Hreason eq_refl).
Defined.

(** ** The conditions a pass writes *)

Section condition_table.
Import controllers rukpakv1alpha1 metav1 lifetime exits.

Lemma passExit_condition (E : Env) (r : BundleInstanceReconciler) (st st' : pass)
    (err : option error) :
  passExit E r st err st' ->
  exists c,
    Status_Conditions (bi st') = meta.SetStatusCondition (Status_Conditions (bi st)) c /\
    ((Type_ c = TypeHasValidBundle /\
      (Status c = ConditionFalse \/ Status c = ConditionUnknown) /\
      (Reason c = ReasonBundleLookupFailed \/ Reason c = ReasonBundleLoadFailed) /\
      Status_InstalledBundleName (bi st') = Status_InstalledBundleName (bi st)) \/
     (Type_ c = TypeInvalidBundleContent /\ Status c = ConditionTrue /\
      Reason c = ReasonReadingContentFailed /\ err <> None /\
      Status_InstalledBundleName (bi st') = Status_InstalledBundleName (bi st)) \/
     (Type_ c = TypeInstalled /\ Status c = ConditionFalse /\
      Reason c <> ReasonInstallationSucceeded /\
      Status_InstalledBundleName (bi st') = Status_InstalledBundleName (bi st)) \/
     (c = installedSucceeded /\ err = None /\
      Status_InstalledBundleName (bi st') = Spec_BundleName (bi st))).
Proof.
  intros Hexit.
  destruct Hexit as [x Hb | b lerr ph Hb Hl Has | b lerr Hb Hl Has
                    | b pre post obj x Hb Hl Hpre Ho
                    | b objs chrt x Hb Hl Hm Hcl
                    | b objs chrt cl rel state e Hb Hl Hm Hcl Hrs
                    | b objs chrt cl rel state ev reason x Hb Hl Hm Hcl Hrs Hcall
                    | b objs chrt cl rel state ev res err st' Hb Hl Hm Hcl Hrs Hcall Hwo
                    | b objs chrt cl rel state ev st' Hb Hl Hm Hcl Hrs Hcall Hwo].
  - eexists. split; [reflexivity|]. left. cbn.
    split; [reflexivity|]. split; [destruct (ext_is_not_found x); auto|]. auto.
  - eexists. split; [reflexivity|]. right. right. left. cbn.
    split; [reflexivity|]. split; [reflexivity|]. split; [|reflexivity].
    destruct (Bundle_Status_Phase b =? PhaseUnpacking)%string; discriminate.
  - eexists. split; [reflexivity|]. left. cbn. auto.
  - eexists. split; [reflexivity|]. right. left. cbn.
    split; [reflexivity|]. split; [reflexivity|]. split; [reflexivity|].
    split; [discriminate | reflexivity].
  - eexists. split; [reflexivity|]. right. right. left. cbn.
    split; [reflexivity|]. split; [reflexivity|]. split; [discriminate | reflexivity].
  - eexists. split; [reflexivity|]. right. right. left. cbn.
    split; [reflexivity|]. split; [reflexivity|]. split; [discriminate | reflexivity].
  - eexists. split; [reflexivity|]. right. right. left. cbn.
    split; [reflexivity|]. split; [reflexivity|]. split; [|reflexivity].
    pose proof (applyCall_failure _ _ _ _ _ _ _ _ _ Hcall) as Hcf.
    destruct ev as [| | ? ? ? ? []| ? ? ? []| ? []| |]; cbn in Hcf; try discriminate;
      injection Hcf as <- _; discriminate.
  - destruct (watchObjects_return _ _ _ _ _ _ Hwo) as (e & -> & Hbi).
    cbn [bi] in Hbi. rewrite Hbi.
    eexists. split; [reflexivity|]. right. right. left. cbn.
    split; [reflexivity|]. split; [reflexivity|]. split; [discriminate | reflexivity].
  - pose proof (watchObjects_next _ _ _ _ Hwo) as Hbi. cbn [bi] in *. rewrite Hbi.
    eexists. split; [reflexivity|]. right. right. right. cbn. auto.
Qed.

(** X22. The table of the conditions a pass writes.  HasValidBundle is
    written only with status False or Unknown, never True, and
    InvalidBundleContent only with status True, so a pass that goes well
    leaves both as it fetched them.  Installed is written True only with
    reason InstallationSucceeded, by a pass that returns no error and
    records the bundle as installed; with every other condition the
    installed bundle name stays as fetched. *)
Theorem Reconcile_condition_table
    (E : Env) (r : BundleInstanceReconciler) (req : types.NamespacedName)
    (tr : list event) (b0 : BundleInstance) :
  Client_GetBundleInstance E req = Ok b0 ->
  exists news b' c,
    (Reconcile E r req tr).2 = (tr ++ news)%list /\
    statusPatches news =
      [CallStatusPatch b' plainBundleProvisionerID (Client_StatusPatch E b')] /\
    Status_Conditions b' = meta.SetStatusCondition (Status_Conditions b0) c /\
    ((Type_ c = TypeHasValidBundle /\
      (Status c = ConditionFalse \/ Status c = ConditionUnknown) /\
      (Reason c = ReasonBundleLookupFailed \/ Reason c = ReasonBundleLoadFailed) /\
      Status_InstalledBundleName b' = Status_InstalledBundleName b0) \/
     (Type_ c = TypeInvalidBundleContent /\ Status c = ConditionTrue /\
      Reason c = ReasonReadingContentFailed /\
      (Reconcile E r req tr).1.1.2 <> None /\
      Status_InstalledBundleName b' = Status_InstalledBundleName b0) \/
     (Type_ c = TypeInstalled /\ Status c = ConditionFalse /\
      Reason c <> ReasonInstallationSucceeded /\
      Status_InstalledBundleName b' = Status_InstalledBundleName b0) \/
     (c = installedSucceeded /\
      (Reconcile E r req tr).1.1.2 = None /\
      Status_InstalledBundleName b' = Spec_BundleName b0 /\
      meta.FindStatusCondition (Status_Conditions b') TypeHasValidBundle =
        meta.FindStatusCondition (Status_Conditions b0) TypeHasValidBundle /\
      meta.FindStatusCondition (Status_Conditions b') TypeInvalidBundleContent =
        meta.FindStatusCondition (Status_Conditions b0) TypeInvalidBundleContent)).
Proof.
  intros Hbi.
  destruct (Reconcile_news E r req tr b0 Hbi)
    as (err & st' & calls & wevs & Hexit & -> & _ & Hcalls & Hwevs & _).
  destruct (news_kinds E r tr b0 calls wevs Hcalls Hwevs) as [Hc Hw].
  destruct (passExit_condition _ _ _ _ _ Hexit) as (c & Hconds & Htable).
  cbn [fst snd entry bi] in *.
  eexists. exists (SetManagedFields (bi st') []), c.
  split; [reflexivity|].
  split; [apply news_statusPatches; assumption|].
  cbn [Status_Conditions Status_InstalledBundleName SetManagedFields].
  split; [exact Hconds|].
  destruct Htable as [H | [H | [H | (-> & -> & Hname)]]]; auto.
  right. right. right. rewrite Hconds.
  split; [reflexivity|]. split; [reflexivity|]. split; [exact Hname|].
  split; apply find_set_other; discriminate.
Qed.

End condition_table.

Lemma Reconcile_condition_table_witness :
  exists news b' c,
    (controllers.Reconcile world.fresh world.r0 world.req_a []).2 = ([] ++ news)%list /\
    rukpakv1alpha1.Status_Conditions b' =
      meta.SetStatusCondition (rukpakv1alpha1.Status_Conditions world.inst_a) c.
Proof.
  destruct (Reconcile_condition_table world.fresh world.r0 world.req_a [] world.inst_a
              eq_refl) as (news & b' & c & Htr & _ & Hconds & _).
  exists news, b', c. split; assumption.
Defined.
